(** * chinfo: cross-platform host information collector

    A shallow embedding of [chinfo.py] and the verification of its parsers.

    Text is a [string] holding the characters of a Python [str]; the
    character classes used by [str.strip], [str.split], [str.splitlines],
    [str.lower] and the regular expressions are those of the ASCII range (a
    non-ASCII character is carried as its UTF-8 bytes, which are neither
    white space nor digits nor letters there; byte-wise comparison of UTF-8
    agrees with Python's code point order).  [str.isdigit] and [int] decode
    the text and use the digits and the white space of Unicode, and [int]
    has the digit limit of CPython.

    Everything the script reads from its environment is a field of [World];
    a call that can raise is a computation in the error monad [res]. *)

From Stdlib Require Import String Ascii List ZArith Lia Bool.
From stdpp Require Import gmap strings sorting.
Import ListNotations.

Local Open Scope string_scope.
Local Open Scope list_scope.

(** ** Python string operations *)

Module Py.

Definition code (c : ascii) : nat := nat_of_ascii c.

Definition between (lo hi : nat) (c : ascii) : bool :=
  Nat.leb lo (code c) && Nat.leb (code c) hi.

(** [str.isspace] on one character: TAB LF VT FF CR, FS GS RS US, space. *)
Definition is_space (c : ascii) : bool := between 9 13 c || between 28 32 c.

(** Line boundaries of [str.splitlines]: LF VT FF CR FS GS RS. *)
Definition is_linebreak (c : ascii) : bool := between 10 13 c || between 28 30 c.

Definition is_digit (c : ascii) : bool := between 48 57 c.
Definition is_upper (c : ascii) : bool := between 65 90 c.
Definition is_lower (c : ascii) : bool := between 97 122 c.

(** [\w]: letters, digits and the underscore. *)
Definition is_word (c : ascii) : bool :=
  is_digit c || is_upper c || is_lower c || Ascii.eqb c "_".

(** [[0-9a-f]] *)
Definition is_hex (c : ascii) : bool := is_digit c || between 97 102 c.

(** [[0-9a-f]] under [re.IGNORECASE] *)
Definition is_hex_ci (c : ascii) : bool := is_hex c || between 65 70 c.

Definition lower_char (c : ascii) : ascii :=
  if is_upper c then ascii_of_nat (code c + 32) else c.

(** [s.lower()] *)
Fixpoint lower (s : string) : string :=
  match s with
  | EmptyString => EmptyString
  | String c r => String (lower_char c) (lower r)
  end.

Definition is_empty (s : string) : bool :=
  match s with EmptyString => true | String _ _ => false end.

(** [s.lstrip(chars)], with the stripped characters given as a predicate *)
Fixpoint lstrip_by (p : ascii -> bool) (s : string) : string :=
  match s with
  | EmptyString => EmptyString
  | String c r => if p c then lstrip_by p r else s
  end.

(** [s.rstrip(chars)] *)
Fixpoint rstrip_by (p : ascii -> bool) (s : string) : string :=
  match s with
  | EmptyString => EmptyString
  | String c r =>
      let r' := rstrip_by p r in
      if p c && is_empty r' then EmptyString else String c r'
  end.

Definition strip_by (p : ascii -> bool) (s : string) : string :=
  rstrip_by p (lstrip_by p s).

Definition lstrip : string -> string := lstrip_by is_space.
Definition rstrip : string -> string := rstrip_by is_space.
Definition strip : string -> string := strip_by is_space.

(** [s.startswith(p)] *)
Definition startswith (p s : string) : bool := String.prefix p s.

(** [s.endswith(p)] *)
Fixpoint endswith (p s : string) : bool :=
  String.eqb s p ||
  match s with
  | EmptyString => false
  | String _ r => endswith p r
  end.

(** [p in s] *)
Fixpoint contains (p s : string) : bool :=
  String.prefix p s ||
  match s with
  | EmptyString => false
  | String _ r => contains p r
  end.

(** [s.splitlines()]; [after_cr] is set right after a CR, so that the LF of
    a CR LF pair is not a second boundary.  The head of the result is the
    line being read. *)
Fixpoint lines_from (after_cr : bool) (s : string) : list string :=
  match s with
  | EmptyString => []
  | String c r =>
      if after_cr && Ascii.eqb c "010" then lines_from false r
      else if is_linebreak c then EmptyString :: lines_from (Ascii.eqb c "013") r
      else match lines_from false r with
           | [] => [String c EmptyString]
           | l :: ls => String c l :: ls
           end
  end.

Definition splitlines (s : string) : list string := lines_from false s.

Definition cons_word (w : string) (ws : list string) : list string :=
  if is_empty w then ws else w :: ws.

(** [s.split()]: the word being read and the words after it *)
Fixpoint split_ws_aux (s : string) : string * list string :=
  match s with
  | EmptyString => (EmptyString, [])
  | String c r =>
      let (w, ws) := split_ws_aux r in
      if is_space c then (EmptyString, cons_word w ws) else (String c w, ws)
  end.

Definition split_ws (s : string) : list string :=
  let (w, ws) := split_ws_aux s in cons_word w ws.

(** [s.split(sep)] for a one-character separator; never empty *)
Fixpoint split_on (sep : ascii) (s : string) : list string :=
  match s with
  | EmptyString => [EmptyString]
  | String c r =>
      if Ascii.eqb c sep then EmptyString :: split_on sep r
      else match split_on sep r with
           | [] => [String c EmptyString]
           | l :: ls => String c l :: ls
           end
  end.

(** [s.split(sep, 1)]: the part before the first separator and, when there
    is a separator, the part after it *)
Fixpoint split1 (sep : ascii) (s : string) : string * option string :=
  match s with
  | EmptyString => (EmptyString, None)
  | String c r =>
      if Ascii.eqb c sep then (EmptyString, Some r)
      else let (a, b) := split1 sep r in (String c a, b)
  end.

(** [s.split(sep)[0]] *)
Definition before (sep : ascii) (s : string) : string := fst (split1 sep s).

(** [os.path.basename] of [posixpath]: what follows the last slash *)
Fixpoint basename (s : string) : string :=
  match s with
  | EmptyString => EmptyString
  | String c r =>
      if contains "/" s then basename r else s
  end.

(** [s[:-n]] for [n <= len(s)] *)
Definition drop_last (n : nat) (s : string) : string :=
  String.substring 0 (String.length s - n) s.

(** every character satisfies [p] *)
Fixpoint all_chars (p : ascii -> bool) (s : string) : bool :=
  match s with
  | EmptyString => true
  | String c r => p c && all_chars p r
  end.

(** *** Integers and digits

    [str.isdigit] and [int] look at the characters of the text, not at its
    bytes, and know the digits and the white space of Unicode (the tables
    are those of Unicode 14.0, which CPython 3.11 carries). *)

Definition byte (c : ascii) : N := N_of_ascii c.

Definition is_ascii_char (c : ascii) : bool := N.ltb (byte c) 128.

(** a continuation byte of UTF-8 *)
Definition is_cont (c : ascii) : bool := N.leb 128 (byte c) && N.ltb (byte c) 192.

Definition low6 (c : ascii) : N := (byte c - 128)%N.

(** stands for a byte sequence that is no character; a [str] holds none *)
Definition replacement : N := 65533%N.

(** the code points of a text *)
Fixpoint decode (s : string) : list N :=
  match s with
  | EmptyString => []
  | String a r =>
      let x := byte a in
      if N.ltb x 128 then x :: decode r
      else
        match r with
        | EmptyString => [replacement]
        | String b r1 =>
            if N.leb 192 x && N.ltb x 224 && is_cont b then
              ((x - 192) * 64 + low6 b)%N :: decode r1
            else
              match r1 with
              | EmptyString => replacement :: decode r
              | String c r2 =>
                  if N.leb 224 x && N.ltb x 240 && is_cont b && is_cont c then
                    ((x - 224) * 4096 + low6 b * 64 + low6 c)%N :: decode r2
                  else
                    match r2 with
                    | EmptyString => replacement :: decode r
                    | String d r3 =>
                        if N.leb 240 x && is_cont b && is_cont c && is_cont d then
                          ((x - 240) * 262144 + low6 b * 4096 + low6 c * 64 + low6 d)%N
                          :: decode r3
                        else replacement :: decode r
                    end
              end
        end
  end.

Definition in_range (cp : N) (r : N * N) : bool :=
  N.leb (fst r) cp && N.leb cp (snd r).

(** the characters beyond ASCII for which [str.isdigit] holds: decimal
    digits, and digits such as superscripts that [int] does not accept *)
Definition digit_ranges : list (N * N) :=
  [
    (178, 179); (185, 185); (1632, 1641); (1776, 1785); (1984, 1993);
    (2406, 2415); (2534, 2543); (2662, 2671); (2790, 2799); (2918, 2927);
    (3046, 3055); (3174, 3183); (3302, 3311); (3430, 3439); (3558, 3567);
    (3664, 3673); (3792, 3801); (3872, 3881); (4160, 4169); (4240, 4249);
    (4969, 4977); (6112, 6121); (6160, 6169); (6470, 6479); (6608, 6618);
    (6784, 6793); (6800, 6809); (6992, 7001); (7088, 7097); (7232, 7241);
    (7248, 7257); (8304, 8304); (8308, 8313); (8320, 8329); (9312, 9320);
    (9332, 9340); (9352, 9360); (9450, 9450); (9461, 9469); (9471, 9471);
    (10102, 10110); (10112, 10120); (10122, 10130); (42528, 42537);
    (43216, 43225); (43264, 43273); (43472, 43481); (43504, 43513);
    (43600, 43609); (44016, 44025); (65296, 65305); (66720, 66729);
    (68160, 68163); (68912, 68921); (69216, 69224); (69714, 69722);
    (69734, 69743); (69872, 69881); (69942, 69951); (70096, 70105);
    (70384, 70393); (70736, 70745); (70864, 70873); (71248, 71257);
    (71360, 71369); (71472, 71481); (71904, 71913); (72016, 72025);
    (72784, 72793); (73040, 73049); (73120, 73129); (92768, 92777);
    (92864, 92873); (93008, 93017); (120782, 120831); (123200, 123209);
    (123632, 123641); (125264, 125273); (127232, 127242); (130032, 130041)
  ]%N.

(** the decimal digits beyond ASCII: runs of ten, each from its zero on *)
Definition decimal_ranges : list (N * N) :=
  [
    (1632, 1641); (1776, 1785); (1984, 1993); (2406, 2415); (2534, 2543);
    (2662, 2671); (2790, 2799); (2918, 2927); (3046, 3055); (3174, 3183);
    (3302, 3311); (3430, 3439); (3558, 3567); (3664, 3673); (3792, 3801);
    (3872, 3881); (4160, 4169); (4240, 4249); (6112, 6121); (6160, 6169);
    (6470, 6479); (6608, 6617); (6784, 6793); (6800, 6809); (6992, 7001);
    (7088, 7097); (7232, 7241); (7248, 7257); (42528, 42537);
    (43216, 43225); (43264, 43273); (43472, 43481); (43504, 43513);
    (43600, 43609); (44016, 44025); (65296, 65305); (66720, 66729);
    (68912, 68921); (69734, 69743); (69872, 69881); (69942, 69951);
    (70096, 70105); (70384, 70393); (70736, 70745); (70864, 70873);
    (71248, 71257); (71360, 71369); (71472, 71481); (71904, 71913);
    (72016, 72025); (72784, 72793); (73040, 73049); (73120, 73129);
    (92768, 92777); (92864, 92873); (93008, 93017); (120782, 120831);
    (123200, 123209); (123632, 123641); (125264, 125273); (130032, 130041)
  ]%N.

(** the white space beyond ASCII *)
Definition space_ranges : list (N * N) :=
  [ (133, 133); (160, 160); (5760, 5760); (8192, 8202); (8232, 8233);
    (8239, 8239); (8287, 8287); (12288, 12288) ]%N.

Definition unicode_digit (cp : N) : bool :=
  (N.leb 48 cp && N.leb cp 57) || existsb (in_range cp) digit_ranges.

Definition unicode_space (cp : N) : bool := existsb (in_range cp) space_ranges.

(** the value of a decimal digit beyond ASCII *)
Definition unicode_decimal (cp : N) : option N :=
  match find (in_range cp) decimal_ranges with
  | Some r => Some ((cp - fst r) mod 10)%N
  | None => None
  end.

(** [s.isdigit()] *)
Definition isdigit (s : string) : bool :=
  negb (is_empty s) && forallb unicode_digit (decode s).

(** what [int] makes of the characters before it reads the number: ASCII is
    kept, white space beyond ASCII becomes a space, a decimal digit beyond
    ASCII its ASCII digit, and the text ends with [?] at any other
    character *)
Fixpoint to_ascii (cps : list N) : string :=
  match cps with
  | [] => EmptyString
  | cp :: rest =>
      if N.ltb cp 127 then String (ascii_of_N cp) (to_ascii rest)
      else if unicode_space cp then String " " (to_ascii rest)
      else match unicode_decimal cp with
           | Some v => String (ascii_of_N (48 + v)) (to_ascii rest)
           | None => String "?" EmptyString
           end
  end.

Definition int_text (s : string) : string :=
  if all_chars is_ascii_char s then s else to_ascii (decode s).

(** the white space [int] skips around the number: TAB LF VT FF CR, space *)
Definition is_c_space (c : ascii) : bool := between 9 13 c || Ascii.eqb c " ".

Definition digit_val (c : ascii) : option Z :=
  if is_digit c then Some (Z.of_nat (code c - 48)) else None.

(** digits of an integer literal after the first one; a single underscore
    may separate two digits *)
Fixpoint int_digits (acc : Z) (s : string) : option Z :=
  match s with
  | EmptyString => Some acc
  | String c r =>
      if Ascii.eqb c "_" then
        match r with
        | EmptyString => None
        | String d r' =>
            match digit_val d with
            | Some v => int_digits (10 * acc + v) r'
            | None => None
            end
        end
      else
        match digit_val c with
        | Some v => int_digits (10 * acc + v) r
        | None => None
        end
  end.

Definition int_unsigned (s : string) : option Z :=
  match s with
  | EmptyString => None
  | String d r =>
      match digit_val d with
      | Some v => int_digits v r
      | None => None
      end
  end.

Fixpoint digit_count (s : string) : N :=
  match s with
  | EmptyString => 0%N
  | String c r => ((if is_digit c then 1 else 0) + digit_count r)%N
  end.

(** the limit of [sys.set_int_max_str_digits], by default 4300 digits *)
Definition int_max_str_digits : N := 4300%N.

Definition int_limited (s : string) : option Z :=
  if N.leb (digit_count s) int_max_str_digits then int_unsigned s else None.

(** [int(s)]: [None] stands for [ValueError] *)
Definition int (s : string) : option Z :=
  match strip_by is_c_space (int_text s) with
  | String "+" r => int_limited r
  | String "-" r => option_map Z.opp (int_limited r)
  | t => int_limited t
  end.

End Py.

(** ** Regular expressions of the script, as prefix matchers *)

Module Re.

Import Py.

(** the longest prefix whose characters satisfy [p], and the rest *)
Fixpoint span (p : ascii -> bool) (s : string) : string * string :=
  match s with
  | EmptyString => (EmptyString, EmptyString)
  | String c r =>
      if p c then let (a, b) := span p r in (String c a, b)
      else (EmptyString, s)
  end.

(** a literal *)
Fixpoint eat (lit s : string) : option string :=
  match lit, s with
  | EmptyString, _ => Some s
  | String a l, String b r => if Ascii.eqb a b then eat l r else None
  | String _ _, EmptyString => None
  end.

(** a literal under [re.IGNORECASE] *)
Fixpoint eat_ci (lit s : string) : option string :=
  match lit, s with
  | EmptyString, _ => Some s
  | String a l, String b r =>
      if Ascii.eqb (lower_char a) (lower_char b) then eat_ci l r else None
  | String _ _, EmptyString => None
  end.

(** exactly [n] characters *)
Fixpoint take (n : nat) (s : string) : option (string * string) :=
  match n, s with
  | O, _ => Some (EmptyString, s)
  | S n', String c r =>
      match take n' r with
      | Some (a, b) => Some (String c a, b)
      | None => None
      end
  | S _, EmptyString => None
  end.

(** one or more characters of a class, greedy *)
Definition plus (p : ascii -> bool) (s : string) : option (string * string) :=
  let (a, b) := span p s in if is_empty a then None else Some (a, b).

(** [re.search]: the match at the leftmost position that has one *)
Fixpoint search {A} (m : string -> option A) (s : string) : option A :=
  match m s with
  | Some x => Some x
  | None =>
      match s with
      | EmptyString => None
      | String _ r => search m r
      end
  end.

End Re.

(** ** Exceptions and the environment *)

Inductive exn : Type := ValueError | IndexError.

Inductive res (A : Type) : Type :=
| Ok (a : A)
| Raise (e : exn).
Arguments Ok {A} a.
Arguments Raise {A} e.

#[global] Instance res_ret : MRet res := fun _ a => Ok a.
#[global] Instance res_bind : MBind res := fun _ _ f m =>
  match m with
  | Ok a => f a
  | Raise e => Raise e
  end.
#[global] Instance res_fmap : FMap res := fun _ _ f m =>
  match m with
  | Ok a => Ok (f a)
  | Raise e => Raise e
  end.

(** [None] becomes the given exception *)
Definition or_raise {A} (e : exn) (o : option A) : res A :=
  match o with
  | Some a => Ok a
  | None => Raise e
  end.

(** Everything the script reads from the host.  [stdout cmd] is the decoded
    standard output of [cmd], [None] when [subprocess.check_output] raises
    (missing binary, non-zero exit); [file path] is the text of a file as
    read in text mode (line ends already LF), [None] when it cannot be
    opened; [gethostname] and [getuser] are [None] when the call raises. *)
Record World : Type := {
  system : string;
  release : string;
  version : string;
  machine : string;
  gethostname : option string;
  getuser : option string;
  environ : string -> option string;
  stdout : string -> option string;
  file : string -> option string;
}.

(** [time.gmtime()] *)
Record struct_time : Type := {
  tm_year : nat; tm_mon : nat; tm_mday : nat;
  tm_hour : nat; tm_min : nat; tm_sec : nat;
}.

Section Collectors.

Import Py Re.

Variable w : World.

Definition run_command (command : string) : string :=
  match stdout w command with
  | Some out => strip out
  | None => EmptyString
  end.

(** [platform.system().lower()] *)
Definition system_lower : string := lower (system w).

Definition is_windows : bool := String.eqb system_lower "windows".
Definition is_linux : bool := String.eqb system_lower "linux".
Definition is_darwin : bool := String.eqb system_lower "darwin".

(** *** Identity *)

Definition get_hostname : string := default EmptyString (gethostname w).

Record os_info : Type := {
  os_system : string; os_release : string;
  os_version : string; os_architecture : string;
}.

Definition get_os_info : os_info :=
  {| os_system := system w; os_release := release w;
     os_version := version w; os_architecture := machine w |}.

Definition get_current_user : string :=
  match getuser w with
  | Some u => u
  | None => default EmptyString (environ w "USER")
  end.

(** [output.lower() in ("(none)", "unknown")] *)
Definition no_value (output : string) : bool :=
  String.eqb (lower output) "(none)" || String.eqb (lower output) "unknown".

(** the loop over the three POSIX commands *)
Fixpoint domain_cascade (cmds : list string) : option string :=
  match cmds with
  | [] => None
  | cmd :: rest =>
      let output := run_command cmd in
      if negb (is_empty output) && negb (no_value output)
      then Some (strip output)
      else domain_cascade rest
  end.

Definition truthy_str (o : option string) : bool :=
  match o with
  | Some s => negb (is_empty s)
  | None => false
  end.

Definition get_domain_name : option string :=
  if is_windows then
    let output := run_command "wmic computersystem get domain" in
    let lines :=
      map strip
        (List.filter (fun line => negb (is_empty (strip line))) (splitlines output)) in
    let domain := if Nat.leb 2 (length lines) then last lines else None in
    if truthy_str domain then domain else environ w "USERDOMAIN"
  else domain_cascade ["hostname -d"; "dnsdomainname"; "domainname"].

(** the loop over the lines of [net user] *)
Fixpoint net_user_loop (collecting : bool) (users lines : list string) : list string :=
  match lines with
  | [] => users
  | line :: rest =>
      if negb collecting then
        net_user_loop (startswith "---" (strip line)) users rest
      else if is_empty (strip line) then users
      else net_user_loop true (users ++ split_ws line) rest
  end.

(** the lines of a text file, each with its line feed *)
Fixpoint file_lines (s : string) : list string :=
  match s with
  | EmptyString => []
  | String c r =>
      if Ascii.eqb c "010" then String c EmptyString :: file_lines r
      else match file_lines r with
           | [] => [String c EmptyString]
           | l :: ls => String c l :: ls
           end
  end.

Definition passwd_step (users : list string) (line : string) : list string :=
  if is_empty (strip line) || startswith "#" line then users
  else users ++ [before ":" line].

Definition get_local_users : list string :=
  if is_windows then
    let output := run_command "net user" in
    if is_empty output then [] else net_user_loop false [] (splitlines output)
  else
    match file w "/etc/passwd" with
    | Some text => fold_left passwd_step (file_lines text) []
    | None => []
    end.

(** *** Network interfaces *)

(** An interface dictionary: each of the four keys the parsers ever set is
    present ([Some]) or missing ([None]). *)
Record iface : Type := {
  name : option string;
  mac : option string;
  ipv4 : option (list string);
  ipv6 : option (list string);
}.

(** [{}] *)
Definition no_keys : iface :=
  {| name := None; mac := None; ipv4 := None; ipv6 := None |}.

(** [key in a] *)
Definition has {A} (o : option A) : bool :=
  match o with
  | Some _ => true
  | None => false
  end.

(** truth value of a dictionary: it has a key *)
Definition truthy (a : iface) : bool :=
  has (name a) || has (mac a) || has (ipv4 a) || has (ipv6 a).

Definition set_name (n : string) (a : iface) : iface :=
  {| name := Some n; mac := mac a; ipv4 := ipv4 a; ipv6 := ipv6 a |}.

(** [a["mac"] = m] *)
Definition set_mac (m : string) (a : iface) : iface :=
  {| name := name a; mac := Some m; ipv4 := ipv4 a; ipv6 := ipv6 a |}.

(** [a.setdefault("mac", m)] *)
Definition setdefault_mac (m : string) (a : iface) : iface :=
  match mac a with
  | Some _ => a
  | None => set_mac m a
  end.

(** [a.setdefault("ipv4", []).append(ip)] *)
Definition add_ipv4 (ip : string) (a : iface) : iface :=
  {| name := name a; mac := mac a;
     ipv4 := Some (default [] (ipv4 a) ++ [ip]); ipv6 := ipv6 a |}.

(** [a.setdefault("ipv6", []).append(ip)] *)
Definition add_ipv6 (ip : string) (a : iface) : iface :=
  {| name := name a; mac := mac a;
     ipv4 := ipv4 a; ipv6 := Some (default [] (ipv6 a) ++ [ip]) |}.

(** [if adapter: interfaces.append(adapter); adapter = {}] *)
Definition flush (st : list iface * iface) : list iface * iface :=
  let (interfaces, adapter) := st in
  if truthy adapter then (interfaces ++ [adapter], no_keys) else st.

(** the final [if adapter: interfaces.append(adapter)] *)
Definition finish (st : list iface * iface) : list iface := fst (flush st).

(** **** Windows: [ipconfig /all] *)

(** [line.lstrip() == line and line.strip().endswith(":")] *)
Definition is_header (line : string) : bool :=
  String.eqb (lstrip line) line && endswith ":" (strip line).

Definition ipv4_keys : list string :=
  ["ipv4 address"; "ip address"; "autoconfiguration ipv4 address"].

(** [value.split("(")[0].strip()] *)
Definition ip_of (value : string) : string := strip (before "(" value).

(** a line that is neither blank nor a header *)
Definition win_field (line : string) (adapter : iface) : iface :=
  match split1 ":" line with
  | (_, None) => adapter
  | (k, Some v) =>
      let key := strip k in
      let value := strip v in
      let key_lower := lower key in
      if contains "physical address" key_lower then setdefault_mac value adapter
      else if existsb (String.eqb key_lower) ipv4_keys then add_ipv4 (ip_of value) adapter
      else if contains "ipv6 address" key_lower then add_ipv6 (ip_of value) adapter
      else adapter
  end.

Definition win_step (st : list iface * iface) (line : string) : list iface * iface :=
  if is_empty (strip line) then flush st
  else if is_header line then
    (fst (flush st), set_name (rstrip_by (Ascii.eqb ":") (strip line)) no_keys)
  else (fst st, win_field line (snd st)).

Definition parse_windows_lines (lines : list string) : list iface :=
  finish (fold_left win_step lines ([], no_keys)).

Definition parse_ip_config_windows : list iface :=
  let output := run_command "ipconfig /all" in
  if is_empty output then [] else parse_windows_lines (splitlines output).

(** **** Linux: [ip -o addr show] *)

Definition is_mac_char (c : ascii) : bool := is_hex_ci c || Ascii.eqb c ":".

(** [[0-9a-f]{2}(?:-[0-9a-f]{2}){5}] on 17 characters *)
Fixpoint dashed (groups : nat) (s : string) : bool :=
  match groups, s with
  | S O, String a (String b EmptyString) => is_hex_ci a && is_hex_ci b
  | S g, String a (String b (String d r)) =>
      is_hex_ci a && is_hex_ci b && Ascii.eqb d "-" && dashed g r
  | _, _ => false
  end.

(** [link/\w+ ([0-9a-f:]{17}|[0-9a-f]{2}(?:-[0-9a-f]{2}){5})] with
    [re.IGNORECASE], at the start of [s]; the value is group 1 *)
Definition m_link_mac (s : string) : option string :=
  r1 ← eat_ci "link/" s;
  '(_, r2) ← plus is_word r1;
  r3 ← eat " " r2;
  '(t, _) ← take 17 r3;
  if all_chars is_mac_char t || dashed 6 t then Some t else None.

(** the dictionary [iface_map], in insertion order:
    [iface = iface_map.setdefault(ifname, {"name": ifname})] followed by an
    update of [iface] in place *)
Fixpoint upsert (ifname : string) (f : iface -> iface) (m : list (string * iface))
  : list (string * iface) :=
  match m with
  | [] => [(ifname, f (set_name ifname no_keys))]
  | (k, v) :: rest =>
      if String.eqb k ifname then (k, f v) :: rest
      else (k, v) :: upsert ifname f rest
  end.

Definition linux_update (family ip line : string) (i : iface) : iface :=
  if String.eqb family "link" then
    match search m_link_mac line with
    | Some m => set_mac m i
    | None => i
    end
  else if String.eqb family "inet" then add_ipv4 ip i
  else if String.eqb family "inet6" then add_ipv6 ip i
  else i.

Definition linux_step (iface_map : list (string * iface)) (line : string)
  : list (string * iface) :=
  match split_ws line with
  | _ :: ifname :: family :: addr_mask :: _ =>
      let ip := before "/" addr_mask in
      upsert ifname (linux_update family ip line) iface_map
  | _ => iface_map
  end.

Definition parse_linux_lines (lines : list string) : list iface :=
  map snd (fold_left linux_step lines []).

(** **** BSD and macOS: [ifconfig -a] *)

(** the part of [s] before its last [sep], when [s] has one *)
Fixpoint before_last (sep : ascii) (s : string) : option string :=
  match s with
  | EmptyString => None
  | String c r =>
      match before_last sep r with
      | Some p => Some (String c p)
      | None => if Ascii.eqb c sep then Some EmptyString else None
      end
  end.

(** [re.match(r"^(\S+):", line)]: the greedy [\S+] gives back characters up
    to the last colon of the leading run of non-blank characters *)
Definition m_name (line : string) : option string :=
  let (run, _) := span (fun c => negb (is_space c)) line in
  match before_last ":" run with
  | Some p => if is_empty p then None else Some p
  | None => None
  end.

Definition is_ether_char (c : ascii) : bool := is_hex c || Ascii.eqb c ":".

(** [ether ([0-9a-f:]{17})] at the start of [s] *)
Definition m_ether (s : string) : option string :=
  r ← eat "ether " s;
  '(t, _) ← take 17 r;
  if all_chars is_ether_char t then Some t else None.

(** [inet (\d+\.\d+\.\d+\.\d+)] at the start of [s] *)
Definition m_inet (s : string) : option string :=
  r ← eat "inet " s;
  '(d1, r1) ← plus is_digit r; r1' ← eat "." r1;
  '(d2, r2) ← plus is_digit r1'; r2' ← eat "." r2;
  '(d3, r3) ← plus is_digit r2'; r3' ← eat "." r3;
  '(d4, _) ← plus is_digit r3';
  Some (d1 ++ "." ++ d2 ++ "." ++ d3 ++ "." ++ d4)%string.

(** [inet6 ([0-9a-f:]+)] at the start of [s] *)
Definition m_inet6 (s : string) : option string :=
  r ← eat "inet6 " s;
  '(t, _) ← plus is_ether_char r;
  Some t.

Definition on_match {A} (o : option string) (f : string -> A -> A) (a : A) : A :=
  match o with
  | Some x => f x a
  | None => a
  end.

Definition tab : string := String "009" EmptyString.

Definition bsd_step (st : list iface * iface) (line : string) : list iface * iface :=
  if negb (startswith tab line) then
    let (interfaces, adapter) := flush st in
    (interfaces,
     on_match (search m_ether line) set_mac
       (on_match (m_name line) set_name adapter))
  else
    (fst st,
     on_match (search m_ether line) set_mac
       (on_match (search m_inet6 line) add_ipv6
          (on_match (search m_inet line) add_ipv4 (snd st)))).

Definition parse_bsd_lines (lines : list string) : list iface :=
  finish (fold_left bsd_step lines ([], no_keys)).

Definition parse_ip_config_posix : list iface :=
  let cmd := if is_linux then "ip -o addr show" else "ifconfig -a" in
  let output := run_command cmd in
  if is_empty output then []
  else if is_linux then parse_linux_lines (splitlines output)
  else parse_bsd_lines (splitlines output).

Definition get_network_info : list iface :=
  if is_windows then parse_ip_config_windows else parse_ip_config_posix.

(** *** Hardware *)

(** a loop over lines whose body can raise *)
Fixpoint fold_res {S} (f : S -> string -> res S) (lines : list string) (st : S) : res S :=
  match lines with
  | [] => Ok st
  | line :: rest => st' ← f st line; fold_res f rest st'
  end.

(** [line.split(sep, 1)[1]] *)
Definition after (sep : ascii) (line : string) : res string :=
  or_raise IndexError (snd (split1 sep line)).

Record mem : Type := { total : option Z; free : option Z }.

(** [try: x = int(value) * 1024 except ValueError: pass] *)
Definition kib_or (value : string) (old : option Z) : option Z :=
  match int value with
  | Some v => Some (v * 1024)%Z
  | None => old
  end.

Definition wmic_mem_step (m : mem) (line : string) : res mem :=
  if contains "=" line then
    match split1 "=" (strip line) with
    | (key, Some value) =>
        if String.eqb key "FreePhysicalMemory"
        then Ok {| total := total m; free := kib_or value (free m) |}
        else if String.eqb key "TotalVisibleMemorySize"
        then Ok {| total := kib_or value (total m); free := free m |}
        else Ok m
    | (_, None) => Raise ValueError
    end
  else Ok m.

(** the loop over the lines of [free -b] *)
Fixpoint free_loop (lines : list string) : res mem :=
  match lines with
  | [] => Ok {| total := None; free := None |}
  | line :: rest =>
      if startswith "Mem:" line then
        match split_ws line with
        | _ :: p1 :: _ :: p3 :: _ =>
            t ← or_raise ValueError (int p1);
            f ← or_raise ValueError (int p3);
            Ok {| total := Some t; free := Some f |}
        | _ => Ok {| total := None; free := None |}
        end
      else free_loop rest
  end.

(** [int(line.split()[1]) * 1024], [None] when it raises *)
Definition meminfo_field (line : string) : option Z :=
  x ← split_ws line !! 1%nat;
  v ← int x;
  Some (v * 1024)%Z.

(** the loop over [/proc/meminfo], inside [try ... except Exception: pass] *)
Fixpoint meminfo_loop (m : mem) (lines : list string) : mem :=
  match lines with
  | [] => m
  | line :: rest =>
      let next :=
        if startswith "MemTotal:" line then
          v ← meminfo_field line; Some {| total := Some v; free := free m |}
        else if startswith "MemFree:" line then
          v ← meminfo_field line; Some {| total := total m; free := Some v |}
        else Some m in
      match next with
      | None => m
      | Some m' => if has (total m') && has (free m') then m' else meminfo_loop m' rest
      end
  end.

(** [page size of (\d+) bytes] at the start of [s] *)
Definition m_page_size (s : string) : option string :=
  r ← eat "page size of " s;
  '(d, r1) ← plus is_digit r;
  _ ← eat " bytes" r1;
  Some d.

(** [re.match(r"^Pages free:\s+(\d+)", line)] *)
Definition m_pages_free (line : string) : option string :=
  r ← eat "Pages free:" line;
  '(_, r1) ← plus is_space r;
  '(d, _) ← plus is_digit r1;
  Some d.

(** the loop over the lines of [vm_stat], from [pages_free = 0] *)
Fixpoint pages_free_loop (lines : list string) : res Z :=
  match lines with
  | [] => Ok 0%Z
  | line :: rest =>
      match m_pages_free line with
      | Some d => or_raise ValueError (int d)
      | None => pages_free_loop rest
      end
  end.

Definition get_memory_info : res mem :=
  let none := {| total := None; free := None |} in
  if is_windows then
    let output := run_command "wmic OS get FreePhysicalMemory,TotalVisibleMemorySize /Value" in
    if is_empty output then Ok none else fold_res wmic_mem_step (splitlines output) none
  else if is_linux then
    let output := run_command "free -b" in
    if negb (is_empty output) then free_loop (splitlines output)
    else
      match file w "/proc/meminfo" with
      | Some text => Ok (meminfo_loop none (file_lines text))
      | None => Ok none
      end
  else if is_darwin then
    let total_str := run_command "sysctl -n hw.memsize" in
    t ← (if isdigit total_str then Some <$> or_raise ValueError (int total_str)
         else Ok None);
    let vm_output := run_command "vm_stat" in
    if is_empty vm_output then Ok {| total := t; free := None |}
    else
      page_size ← match search m_page_size vm_output with
                  | Some d => or_raise ValueError (int d)
                  | None => Ok 4096%Z
                  end;
      pages_free ← pages_free_loop (splitlines vm_output);
      Ok {| total := t;
            free := if Z.eqb pages_free 0 then None
                    else Some (pages_free * page_size)%Z |}
  else Ok none.

Definition get_cpu_info : res (option string) :=
  if is_windows then
    let output := run_command "wmic cpu get Name /Value" in
    match find (startswith "Name=") (splitlines output) with
    | Some line => v ← after "=" line; Ok (Some (strip v))
    | None => Ok None
    end
  else if is_linux then
    let cpu :=
      text ← file w "/proc/cpuinfo";
      line ← find (fun line => startswith "model name" (lower line)) (file_lines text);
      v ← snd (split1 ":" line);
      Some (strip v) in
    if truthy_str cpu then Ok cpu
    else
      let output := run_command "lscpu" in
      match find (fun line => contains "model name" (lower line)) (splitlines output) with
      | Some line => v ← after ":" line; Ok (Some (strip v))
      | None => Ok cpu
      end
  else if is_darwin then
    let output := run_command "sysctl -n machdep.cpu.brand_string" in
    if is_empty output then Ok None else Ok (Some (strip output))
  else Ok None.

Record vendor_model : Type := { manufacturer : option string; model : option string }.

Definition wmic_vendor_step (vm : vendor_model) (line : string) : res vendor_model :=
  if startswith "manufacturer=" (lower line) then
    v ← after "=" line; Ok {| manufacturer := Some (strip v); model := model vm |}
  else if startswith "model=" (lower line) then
    v ← after "=" line; Ok {| manufacturer := manufacturer vm; model := Some (strip v) |}
  else Ok vm.

Definition profiler_step (vm : vendor_model) (line : string) : res vendor_model :=
  if contains "Model Name:" line then
    v ← after ":" line; Ok {| manufacturer := manufacturer vm; model := Some (strip v) |}
  else if contains "Model Identifier:" line && negb (truthy_str (model vm)) then
    v ← after ":" line; Ok {| manufacturer := manufacturer vm; model := Some (strip v) |}
  else if contains "Manufacturer:" line then
    v ← after ":" line; Ok {| manufacturer := Some (strip v); model := model vm |}
  else Ok vm.

Definition get_vendor_model : res vendor_model :=
  let none := {| manufacturer := None; model := None |} in
  if is_windows then
    let output := run_command "wmic computersystem get manufacturer,model /Value" in
    fold_res wmic_vendor_step (splitlines output) none
  else if is_linux then
    Ok {| manufacturer := strip <$> file w "/sys/class/dmi/id/sys_vendor";
          model := strip <$> file w "/sys/class/dmi/id/product_name" |}
  else if is_darwin then
    let output := run_command "system_profiler SPHardwareDataType" in
    if is_empty output then Ok none else fold_res profiler_step (splitlines output) none
  else Ok none.

Record disk : Type := {
  disk_name : string;
  disk_filesystem : option string;
  disk_total : option Z;
  disk_free : option Z;
  disk_used : option Z;
}.

(** [try: x = int(s) if s else None except ValueError: x = None] *)
Definition int_if_any (s : string) : option Z :=
  if is_empty s then None else int s.

Definition wmic_disk_step (disks : list disk) (line : string) : list disk :=
  if is_empty line || startswith "Node" line then disks
  else
    match split_on "," line with
    | _ :: caption :: fs :: p3 :: p4 :: _ =>
        let free := int_if_any p3 in
        let size := int_if_any p4 in
        let used := match size, free with
                    | Some sz, Some fr => Some (sz - fr)%Z
                    | _, _ => None
                    end in
        disks ++ [{| disk_name := caption;
                     disk_filesystem := if is_empty fs then None else Some fs;
                     disk_total := size; disk_free := free; disk_used := used |}]
    | _ => disks
    end.

Definition df_step (disks : list disk) (line : string) : list disk :=
  match split_ws line with
  | filesystem :: p1 :: p2 :: p3 :: _ :: mount :: _ =>
      disks ++ [{| disk_name := mount; disk_filesystem := Some filesystem;
                   disk_total := int p1; disk_free := int p3; disk_used := int p2 |}]
  | _ => disks
  end.

Definition get_disk_info : list disk :=
  if is_windows then
    let output :=
      run_command "wmic logicaldisk get Caption,FileSystem,FreeSpace,Size /Format:csv" in
    if is_empty output then [] else fold_left wmic_disk_step (splitlines output) []
  else
    let output := run_command "df -P -B1" in
    if is_empty output then [] else fold_left df_step (tail (splitlines output)) [].

End Collectors.

(** ** Security tools *)

(** the entries of the dictionary literal [SECURITY_PROCESSES], in the order
    of the source, repeated keys included *)
Definition SECURITY_PROCESSES_entries : list (string * string) :=
  [ ("csfalconservice", "CrowdStrike Falcon");
    ("cbcomms", "CrowdStrike Falcon Insight XDR");
    ("crowdstrike", "CrowdStrike Falcon");
    ("carbonsensor", "VMware Carbon Black EDR");
    ("cb.exe", "Carbon Black EDR");
    ("cpx", "SentinelOne Singularity XDR");
    ("cybereason", "Cybereason EDR");
    ("tanclient", "Tanium EDR");
    ("xagt", "FireEye HX");
    ("trapsagent", "Palo Alto Networks Cortex XDR");
    ("trapsd", "Palo Alto Networks Cortex XDR");
    ("msmpeng", "Microsoft Defender");
    ("msascuil", "Microsoft Defender");
    ("windefend", "Microsoft Defender");
    ("sysmon", "Microsoft Sysmon");
    ("ccsvchst", "Symantec Endpoint Protection");
    ("rtvscan", "Symantec Endpoint Protection");
    ("edpa", "McAfee Endpoint Security");
    ("shstat", "McAfee VirusScan");
    ("mcshield", "McAfee VirusScan");
    ("mfefire", "McAfee Host Intrusion Prevention");
    ("dlpsensor", "McAfee DLP Sensor");
    ("bdagent", "Bitdefender");
    ("vsserv", "Bitdefender");
    ("savservice", "Sophos Endpoint Security");
    ("sophosav", "Sophos Endpoint Security");
    ("sophossps", "Sophos Endpoint Security");
    ("sophosui", "Sophos Endpoint Security");
    ("pavfnsvr", "Panda Security");
    ("pavsrv", "Panda Security");
    ("psanhost", "Panda Security");
    ("panda_url_filtering", "Panda Security");
    ("cpd", "Check Point Daemon");
    ("fw", "Check Point Firewall");
    ("fortiedr", "Fortinet FortiEDR");
    ("egui", "ESET NOD32");
    ("ekrn", "ESET NOD32");
    ("avp", "Kaspersky Anti‑Virus");
    ("avastsvc", "Avast");
    ("avastui", "Avast");
    ("avgnt", "Avira");
    ("avguard", "Avira");
    ("mbamservice", "Malwarebytes");
    ("mbamtray", "Malwarebytes");
    ("firesvc", "FireEye Endpoint Agent");
    ("firetray", "FireEye Endpoint Agent");
    ("dlpagent", "Symantec DLP Agent");
    ("mbamservice", "Malwarebytes");
    ("mbamtray", "Malwarebytes");
    ("savservice", "Sophos Endpoint Security");
    ("wrsa", "Webroot SecureAnywhere");
    ("truecrypt", "TrueCrypt (encryption tool)") ].

(** the dictionary: a later entry replaces an earlier one with the same key *)
Definition SECURITY_PROCESSES : gmap string string :=
  fold_left (fun m kv => <[kv.1 := kv.2]> m) SECURITY_PROCESSES_entries ∅.

(** order of [str] under [<=] *)
Definition str_le (a b : string) : Prop := String.leb a b = true.

#[global] Instance str_le_dec (a b : string) : Decision (str_le a b).
Proof. unfold str_le. apply _. Defined.

Section Security.

Import Py.

Variable w : World.

Definition quote : ascii := "034"%char.

Definition tasklist_step (processes : list string) (line : string) : list string :=
  if is_empty line then processes
  else
    match map (strip_by (Ascii.eqb quote)) (split_on "," line) with
    | [] => processes
    | field0 :: _ =>
        let exe := lower field0 in
        processes ++ [if endswith ".exe" exe then drop_last 4 exe else exe]
    end.

Definition get_running_process_names : list string :=
  if is_windows w then
    let output := run_command w "tasklist /fo csv /nh" in
    fold_left tasklist_step (splitlines output) []
  else
    let output := run_command w "ps -eo comm" in
    map (fun line => lower (basename (strip line))) (tail (splitlines output)).

(** the set built by the loop of [detect_security_tools] *)
Definition detected_of (running : list string) : gset string :=
  fold_left
    (fun detected proc =>
       match SECURITY_PROCESSES !! proc with
       | Some product => detected ∪ {[product]}
       | None => detected
       end)
    running ∅.

(** [sorted(detected)] *)
Definition sorted (detected : gset string) : list string :=
  merge_sort str_le (elements detected).

Definition detect_security_tools : list string :=
  sorted (detected_of get_running_process_names).

End Security.

(** ** The report *)

Definition two_digits (n : nat) : string :=
  String (ascii_of_nat (48 + (n / 10) mod 10))
    (String (ascii_of_nat (48 + n mod 10)) EmptyString).

(** [time.strftime("%Y-%m-%dT%H:%M:%SZ", t)], for years 1000 to 9999 *)
Definition strftime (t : struct_time) : string :=
  (two_digits (tm_year t / 100) ++ two_digits (tm_year t) ++ "-" ++
   two_digits (tm_mon t) ++ "-" ++ two_digits (tm_mday t) ++ "T" ++
   two_digits (tm_hour t) ++ ":" ++ two_digits (tm_min t) ++ ":" ++
   two_digits (tm_sec t) ++ "Z")%string.

Record basic_config : Type := {
  hostname : string;
  domain : option string;
  current_user : string;
  os : os_info;
  users : list string;
}.

Record hardware : Type := {
  hw_manufacturer : option string;
  hw_model : option string;
  cpu : option string;
  memory_total_bytes : option Z;
  memory_free_bytes : option Z;
  disks : list disk;
}.

Record security_tools : Type := {
  detected : list string;
  detection_method : string;
}.

Record host_info : Type := {
  collected_at : string;
  basic : basic_config;
  network : list iface;
  hw : hardware;
  security : security_tools;
}.

(** [gather_host_info], with the reading of the clock as the argument [now] *)
Definition gather_host_info (w : World) (now : struct_time) : res host_info :=
  let stamp := strftime now in
  let config :=
    {| hostname := get_hostname w; domain := get_domain_name w;
       current_user := get_current_user w; os := get_os_info w;
       users := get_local_users w |} in
  let net := get_network_info w in
  mem_info ← get_memory_info w;
  vm ← get_vendor_model w;
  cpu_info ← get_cpu_info w;
  let hardware_info :=
    {| hw_manufacturer := manufacturer vm; hw_model := model vm; cpu := cpu_info;
       memory_total_bytes := total mem_info; memory_free_bytes := free mem_info;
       disks := get_disk_info w |} in
  Ok {| collected_at := stamp; basic := config; network := net; hw := hardware_info;
        security := {| detected := detect_security_tools w;
                       detection_method := "process_scan" |} |}.

(** * Vocabulary of the statements *)

(** the first character, if any, is not one that gets stripped *)
Definition head_kept (p : ascii -> bool) (s : string) : Prop :=
  match s with
  | EmptyString => True
  | String c _ => p c = false
  end.

(** the command whose output [get_network_info] parses *)
Definition network_command (w : World) : string :=
  if is_windows w then "ipconfig /all"
  else if is_linux w then "ip -o addr show"
  else "ifconfig -a".

(** an output of a domain command that the cascade accepts *)
Definition usable (output : string) : bool :=
  negb (Py.is_empty output) && negb (no_value output).

(** two reports with the same content, the time stamp apart *)
Definition same_but_time (a b : host_info) : Prop :=
  basic a = basic b /\ network a = network b /\ hw a = hw b /\ security a = security b.

(** two runs with the same outcome, the time stamp apart *)
Definition same_outcome (a b : res host_info) : Prop :=
  match a, b with
  | Ok x, Ok y => same_but_time x y
  | Raise e1, Raise e2 => e1 = e2
  | _, _ => False
  end.

(** ** Hosts used as examples *)

Definition nl : string := String "010" EmptyString.

(** a host known by its system name and the output of its commands *)
Definition host (sys : string) (out : string -> option string) : World :=
  {| system := sys; release := EmptyString; version := EmptyString;
     machine := EmptyString; gethostname := None; getuser := None;
     environ := fun _ => None; stdout := out; file := fun _ => None |}.

(** a host on which one command prints [text] and every other one fails *)
Definition host_with (sys cmd text : string) : World :=
  host sys (fun c => if String.eqb c cmd then Some text else None).

(** [free -b] with a total that is not a number *)
Definition free_garbled : World :=
  host_with "Linux" "free -b"
    ("              total        used        free" ++ nl ++
     "Mem:             n/a        2048        4096" ++ nl ++
     "Swap:              0           0           0")%string.

(** a Mac without free pages *)
Definition mac_no_free_pages : World :=
  host "Darwin" (fun c =>
    if String.eqb c "vm_stat" then
      Some ("Mach Virtual Memory Statistics: (page size of 16384 bytes)" ++ nl ++
            "Pages free:                                   0." ++ nl ++
            "Pages active:                            512000.")%string
    else if String.eqb c "sysctl -n hw.memsize" then Some "17179869184"
    else None).

(** a host whose three domain commands all print [(none)] *)
Definition no_domain : World := host "Linux" (fun _ => Some "(none)").

(** a host without network command output *)
Definition silent (sys : string) : World := host sys (fun _ => Some EmptyString).

(** the executable name the classifier looks up for one [tasklist] line *)
Definition normalize_windows (line : string) : string :=
  let exe := Py.lower (Py.strip_by (Ascii.eqb quote) (Py.before "," line)) in
  if Py.endswith ".exe" exe then Py.drop_last 4 exe else exe.

(** the executable name the classifier looks up for one [ps] line *)
Definition normalize_posix (line : string) : string :=
  Py.lower (Py.basename (Py.strip line)).

Definition quoted (s : string) : string := (String quote s ++ String quote EmptyString)%string.

(** [tasklist] on a host running Defender and the shell *)
Definition defender_on_windows : World :=
  host_with "Windows" "tasklist /fo csv /nh"
    (quoted "MsMpEng.exe" ++ "," ++ quoted "3220" ++ "," ++ quoted "Services" ++ nl ++
     quoted "explorer.exe" ++ "," ++ quoted "5100" ++ "," ++ quoted "Console")%string.

(** a line of [ipconfig] that is neither blank nor a header and splits at
    its first colon into [key] and [value] *)
Definition field_line (line key value : string) : Prop :=
  Py.is_empty (Py.strip line) = false /\ is_header line = false
  /\ Py.split1 ":" line = (key, Some value).

(** a [Physical Address] line with the given value *)
Definition mac_line (line value : string) : Prop :=
  exists key, field_line line key value
              /\ Py.contains "physical address" (Py.lower (Py.strip key)) = true.

(** an [IPv4 Address] line with the given value *)
Definition ipv4_line (line value : string) : Prop :=
  exists key, field_line line key value /\ In (Py.lower (Py.strip key)) ipv4_keys.

(** an adapter section: its header, then its two lines in either order *)
Definition block (header mac_l ip_l : string) (ip_first : bool) : list string :=
  header :: (if ip_first then [ip_l; mac_l] else [mac_l; ip_l]).

(** the interface read from such a section *)
Definition adapter_of (header mac_value ip_value : string) : iface :=
  {| name := Some (Py.rstrip_by (Ascii.eqb ":") (Py.strip header));
     mac := Some (Py.strip mac_value);
     ipv4 := Some [ip_of (Py.strip ip_value)];
     ipv6 := None |}.

(** no character of [s] is [c] *)
Definition free_of (c : ascii) (s : string) : bool :=
  Py.all_chars (fun x => negb (Ascii.eqb x c)) s.

(** [ipconfig /all] with two adapters *)
Definition two_adapters : World :=
  host_with "Windows" "ipconfig /all"
    ("Ethernet adapter Ethernet:" ++ nl ++
     "   Physical Address: 00-15-5D-01-02-03" ++ nl ++
     "   IPv4 Address: 192.168.1.20(Preferred)" ++ nl ++
     nl ++
     "Wireless LAN adapter Wi-Fi:" ++ nl ++
     "   Physical Address: 00-15-5D-0A-0B-0C" ++ nl ++
     "   IPv4 Address: 10.0.0.7(Preferred)")%string.

(** [ipconfig /all] with an adapter that lists two physical addresses *)
Definition two_macs : World :=
  host_with "Windows" "ipconfig /all"
    ("Ethernet adapter Ethernet:" ++ nl ++
     "   Physical Address: 00-15-5D-01-02-03" ++ nl ++
     "   Physical Address: 00-15-5D-FF-FF-FF")%string.

(** the interface carries a MAC or an address *)
Definition carries_address (r : iface) : bool :=
  has (mac r) || has (ipv4 r) || has (ipv6 r).

(** every line of [ipconfig] that records a MAC or an address lies in a
    section opened by a header, with no blank line in between; [named] tells
    whether the lines read so far end in such a section *)
Fixpoint win_headed (named : bool) (lines : list string) : bool :=
  match lines with
  | [] => true
  | line :: rest =>
      if Py.is_empty (Py.strip line) then win_headed false rest
      else if is_header line then win_headed true rest
      else (named || negb (truthy (win_field line no_keys))) && win_headed named rest
  end.

(** every line of [ifconfig] that records a MAC or an address belongs to an
    entry whose first line gives a name *)
Fixpoint bsd_headed (named : bool) (lines : list string) : bool :=
  match lines with
  | [] => true
  | line :: rest =>
      if negb (Py.startswith tab line) then
        let n := has (m_name line) in
        (n || negb (has (Re.search m_ether line))) && bsd_headed n rest
      else
        (named || negb (has (Re.search m_inet line) || has (Re.search m_inet6 line)
                        || has (Re.search m_ether line)))
        && bsd_headed named rest
  end.

Definition well_headed (w : World) : bool :=
  if is_windows w then win_headed false (Py.splitlines (run_command w "ipconfig /all"))
  else if is_linux w then true
  else bsd_headed false (Py.splitlines (run_command w "ifconfig -a")).

(** the lines read by [parse_ip_config_posix] *)
Definition posix_lines (w : World) : list string :=
  Py.splitlines (run_command w (if is_linux w then "ip -o addr show" else "ifconfig -a")).

(** the interface name a line of [ip -o addr show] stands for *)
Definition linux_ifname (line : string) : option string :=
  match Py.split_ws line with
  | _ :: ifname :: _ :: _ :: _ => Some ifname
  | _ => None
  end.

(** the interface name a line of the POSIX listing introduces *)
Definition introduced (w : World) (line : string) : option string :=
  if is_linux w then linux_ifname line
  else if Py.startswith tab line then None
  else m_name line.

(** [ipconfig /all] whose first line is a field *)
Definition orphan_fields : World :=
  host_with "Windows" "ipconfig /all"
    "Physical Address. . . . . . . . . : 00-15-5D-01-02-03".

(** [ifconfig -a] that indents with spaces *)
Definition spaces_ifconfig : World :=
  host_with "GNU" "ifconfig -a"
    ("eth0: flags=4163<UP,BROADCAST,RUNNING,MULTICAST>  mtu 1500" ++ nl ++
     "        ether 00:15:5d:01:02:03  txqueuelen 1000  (Ethernet)")%string.

(** [ip -o addr show] with a family the parser does not know *)
Definition unknown_family : World :=
  host_with "Linux" "ip -o addr show"
    ("1: lo    inet 127.0.0.1/8 scope host lo" ++ nl ++
     "7: tun0    mpls 16 dev tun0")%string.

(** [ifconfig -a] with an interface that has neither MAC nor address *)
Definition bare_gif : World :=
  host_with "Darwin" "ifconfig -a"
    ("lo0: flags=8049<UP,LOOPBACK,RUNNING,MULTICAST> mtu 16384" ++ nl ++
     tab ++ "inet 127.0.0.1 netmask 0xff000000" ++ nl ++
     "gif0: flags=8010<POINTOPOINT,MULTICAST> mtu 1280")%string.

(** the interface has a name *)
Definition named (r : iface) : Prop := has (name r) = true.

(** the state of the Windows and BSD loops: flushed interfaces have a name, and the
    accumulator has one inside an entry and no key outside *)
Definition loop_inv (in_entry : bool) (st : list iface * iface) : Prop :=
  Forall named (fst st)
  /\ (if in_entry then named (snd st) else snd st = no_keys).

(** the dictionary of the Linux loop: each value holds its key as its name *)
Definition keyed (m : list (string * iface)) : Prop :=
  Forall (fun kv => name (snd kv) = Some (fst kv)) m.

(** some interface of the list has the name [n] *)
Definition lists_name (n : string) (rs : list iface) : Prop :=
  exists r, In r rs /\ name r = Some n.

(** the MAC that one line of [ip -o addr show] records for the interface [n] *)
Definition link_mac_of (n line : string) : option string :=
  match Py.split_ws line with
  | _ :: ifname :: family :: _ :: _ =>
      if String.eqb ifname n && String.eqb family "link"
      then Re.search m_link_mac line
      else None
  | _ => None
  end.

(** the MACs recorded for [n], in the order of the lines *)
Definition link_macs (n : string) (lines : list string) : list string :=
  omap (link_mac_of n) lines.

(** the MACs after [ether] in the lines of an [ifconfig] entry, in order *)
Definition ethers (lines : list string) : list string :=
  omap (Re.search m_ether) lines.

(** the state of the Linux loop after [lines]: the keys are distinct, each
    value holds its key as name and the last MAC recorded for it, and
    nothing was recorded for a key that is missing *)
Definition linux_inv (lines : list string) (m : list (string * iface)) : Prop :=
  List.NoDup (map fst m)
  /\ (forall k v, In (k, v) m -> name v = Some k /\ mac v = last (link_macs k lines))
  /\ (forall k, ~ In k (map fst m) -> link_macs k lines = []).

(** [ip] output with two link lines for one interface *)
Definition two_link_lines : World :=
  host_with "Linux" "ip -o addr show"
    ("2: eth0 link link/ether 00:15:5d:01:02:03 brd ff:ff:ff:ff:ff:ff" ++ nl ++
     "2: eth0 link link/ether 00:15:5d:0a:0b:0c brd ff:ff:ff:ff:ff:ff")%string.

(** [ifconfig] output with two [ether] lines in one entry *)
Definition two_ethers : World :=
  host_with "Darwin" "ifconfig -a"
    ("en0: flags=8863<UP,BROADCAST,SMART,RUNNING,SIMPLEX,MULTICAST> mtu 1500" ++ nl ++
     tab ++ "ether 00:15:5d:01:02:03" ++ nl ++
     tab ++ "inet 192.168.1.20 netmask 0xffffff00 broadcast 192.168.1.255" ++ nl ++
     tab ++ "ether 00:15:5d:0a:0b:0c")%string.

(** ** Vocabulary of the further properties *)

(** an address list that is present holds at least one address *)
Definition lists_filled (r : iface) : Prop :=
  ipv4 r <> Some [] /\ ipv6 r <> Some [].

(** the address that one line of [ip -o addr show] adds to the list of the
    family [fam] of the interface [n]: the part of the fourth field before
    the slash *)
Definition inet_addr_of (fam n line : string) : option string :=
  match Py.split_ws line with
  | _ :: ifname :: family :: addr_mask :: _ =>
      if String.eqb ifname n && String.eqb family fam
      then Some (Py.before "/" addr_mask)
      else None
  | _ => None
  end.

(** the addresses of that family read for [n], in the order of the lines *)
Definition inet_addrs (fam n : string) (lines : list string) : list string :=
  omap (inet_addr_of fam n) lines.

(** a list built by [setdefault(key, []).append(x)]: missing until the first
    element is added *)
Definition listed (l : list string) : option (list string) :=
  match l with
  | [] => None
  | _ :: _ => Some l
  end.

(** the state of the Linux loop after [lines], for the addresses *)
Definition linux_addr_inv (lines : list string) (m : list (string * iface)) : Prop :=
  List.NoDup (map fst m)
  /\ (forall k v, In (k, v) m ->
        name v = Some k
        /\ ipv4 v = listed (inet_addrs "inet" k lines)
        /\ ipv6 v = listed (inet_addrs "inet6" k lines))
  /\ (forall k, ~ In k (map fst m) ->
        inet_addrs "inet" k lines = [] /\ inet_addrs "inet6" k lines = []).

(** the state of a loop that flushes its accumulator: what was flushed has a
    key and satisfies [Q], and the accumulator satisfies [Q] *)
Definition flushed_inv (Q : iface -> Prop) (st : list iface * iface) : Prop :=
  Forall (fun r => truthy r = true /\ Q r) (fst st) /\ Q (snd st).

(** [ip -o addr show] on a host with two interfaces *)
Definition two_interfaces : World :=
  host_with "Linux" "ip -o addr show"
    ("1: lo    inet 127.0.0.1/8 scope host lo\       valid_lft forever" ++ nl ++
     "1: lo    inet6 ::1/128 scope host \       valid_lft forever" ++ nl ++
     "2: eth0    inet 192.168.1.20/24 brd 192.168.1.255 scope global eth0" ++ nl ++
     "2: eth0    inet 192.168.1.21/24 brd 192.168.1.255 scope global secondary eth0" ++ nl ++
     "2: eth0    inet6 fe80::215:5dff:fe01:203/64 scope link")%string.

(** a byte count converted from kibibytes *)
Definition from_kib (o : option Z) : Prop :=
  forall v, o = Some v -> (1024 | v)%Z.

(** a byte count that is not negative *)
Definition not_negative (o : option Z) : Prop :=
  forall v, o = Some v -> (0 <= v)%Z.

(** a host known by its system name, its command output and its files *)
Definition host_files (sys : string) (out file_text : string -> option string) : World :=
  {| system := sys; release := EmptyString; version := EmptyString;
     machine := EmptyString; gethostname := None; getuser := None;
     environ := fun _ => None; stdout := out; file := file_text |}.

(** [wmic OS get ... /Value] *)
Definition wmic_memory : World :=
  host_with "Windows" "wmic OS get FreePhysicalMemory,TotalVisibleMemorySize /Value"
    ("FreePhysicalMemory=8123456" ++ nl ++ nl ++
     "TotalVisibleMemorySize=16654321")%string.

(** a Linux host without [free], with [/proc/meminfo] *)
Definition meminfo_only : World :=
  host_files "Linux" (fun _ => None)
    (fun path =>
       if String.eqb path "/proc/meminfo" then
         Some ("MemTotal:       16320456 kB" ++ nl ++
               "MemFree:         8031212 kB" ++ nl ++
               "MemAvailable:   12001212 kB" ++ nl)%string
       else None).

(** [free -b] as printed by procps *)
Definition free_plain : World :=
  host_with "Linux" "free -b"
    ("              total        used        free      shared  buff/cache   available"
     ++ nl ++
     "Mem:    16712146944  5012146944  8223800320   312000000  3476199680 11012146944"
     ++ nl ++
     "Swap:    2147479552           0  2147479552")%string.

(** a Mac whose [vm_stat] does not state the page size *)
Definition mac_default_page : World :=
  host "Darwin" (fun c =>
    if String.eqb c "vm_stat" then
      Some ("Mach Virtual Memory Statistics:" ++ nl ++
            "Pages free:                               81234." ++ nl ++
            "Pages active:                            512000.")%string
    else if String.eqb c "sysctl -n hw.memsize" then Some "17179869184"
    else None).

(** a text without white space at either end *)
Definition trimmed (o : option string) : Prop :=
  forall s, o = Some s -> Py.strip s = s.

(** a Linux host without [/proc/cpuinfo] whose [lscpu] prints a model name
    line without a colon *)
Definition lscpu_no_colon : World :=
  host_with "Linux" "lscpu"
    ("Architecture:        x86_64" ++ nl ++
     "Model name  Intel(R) Xeon(R) CPU E5-2680 v4 @ 2.40GHz")%string.

(** [wmic cpu get Name /Value] *)
Definition wmic_cpu : World :=
  host_with "Windows" "wmic cpu get Name /Value"
    "Name=Intel(R) Core(TM) i7-8650U CPU @ 1.90GHz  ".

(** a non-empty text without white space *)
Definition word (s : string) : Prop :=
  s <> EmptyString /\ Py.all_chars (fun c => negb (Py.is_space c)) s = true.

(** the used space is the difference of size and free space when both are
    known, and unknown otherwise *)
Definition used_is_difference (d : disk) : Prop :=
  disk_used d = match disk_total d, disk_free d with
                | Some t, Some f => Some (t - f)%Z
                | _, _ => None
                end.

(** a row of [df] with at least six fields *)
Definition df_row (line : string) : bool :=
  Nat.leb 6 (length (Py.split_ws line)).

(** a MAC of 17 characters *)
Definition mac_17 (r : iface) : Prop :=
  forall m, mac r = Some m -> String.length m = 17.

(** [wmic logicaldisk ... /Format:csv] *)
Definition wmic_disks : World :=
  host_with "Windows"
    "wmic logicaldisk get Caption,FileSystem,FreeSpace,Size /Format:csv"
    ("Node,Caption,FileSystem,FreeSpace,Size" ++ nl ++
     "WS01,C:,NTFS,52428800000,255999999488" ++ nl ++
     "WS01,D:,,,")%string.

(** [df -P -B1] with a row cut short *)
Definition df_short_row : World :=
  host_with "Linux" "df -P -B1"
    ("Filesystem     1-blocks        Used   Available Capacity Mounted on" ++ nl ++
     "/dev/sda1  105089261568 31526778880 68179787776      32% /" ++ nl ++
     "tmpfs        8356073472" ++ nl ++
     "/dev/sdb1  999999995904 10000000000 989999995904      2% /data")%string.

(** a Linux host with a small [/etc/passwd] *)
Definition small_passwd : World :=
  host_files "Linux" (fun _ => None)
    (fun path =>
       if String.eqb path "/etc/passwd" then
         Some ("# local accounts" ++ nl ++
               "root:x:0:0:root:/root:/bin/bash" ++ nl ++ nl ++
               "daemon:x:1:1:daemon:/usr/sbin:/usr/sbin/nologin" ++ nl)%string
       else None).

(** [net user] *)
Definition net_user : World :=
  host_with "Windows" "net user"
    ("User accounts for \\WS01" ++ nl ++ nl ++
     "-------------------------------------------------------------------------------"
     ++ nl ++
     "Administrator            DefaultAccount           Guest" ++ nl ++
     "alice                    WDAGUtilityAccount" ++ nl ++
     "The command completed successfully.")%string.

(** [wmic computersystem get domain] *)
Definition wmic_domain : World :=
  host_with "Windows" "wmic computersystem get domain"
    ("Domain  " ++ nl ++ nl ++ "corp.example.org  ")%string.

(** [tasklist] with the lines of [defender_on_windows] in another order, one
    of them twice *)
Definition defender_twice : World :=
  host_with "Windows" "tasklist /fo csv /nh"
    (quoted "explorer.exe" ++ "," ++ quoted "5100" ++ "," ++ quoted "Console" ++ nl ++
     quoted "MsMpEng.exe" ++ "," ++ quoted "3220" ++ "," ++ quoted "Services" ++ nl ++
     quoted "explorer.exe" ++ "," ++ quoted "6200" ++ "," ++ quoted "Console")%string.

(** [ps -eo comm] *)
Definition ps_output : World :=
  host_with "Linux" "ps -eo comm"
    ("COMMAND" ++ nl ++ "systemd" ++ nl ++ "/opt/CrowdStrike/CSFalconService"
     ++ nl ++ "bash")%string.

(** every address of the list is free of ["("] and of white space at
    either end *)
Definition plain_addresses (o : option (list string)) : Prop :=
  forall l ip, o = Some l -> In ip l -> free_of "(" ip = true /\ Py.strip ip = ip.

(** the addresses of an interface are plain *)
Definition plain_interface (r : iface) : Prop :=
  plain_addresses (ipv4 r) /\ plain_addresses (ipv6 r).

(** the name does not end with a colon *)
Definition no_final_colon (r : iface) : Prop :=
  forall n, name r = Some n -> Py.endswith ":" n = false.

(** [ipconfig /all] as Windows prints it: the header of a section is
    followed by a blank line *)
Definition real_ipconfig : World :=
  host_with "Windows" "ipconfig /all"
    ("Ethernet adapter Ethernet:" ++ nl ++ nl ++
     "   Physical Address. . . . . . . . . : 00-15-5D-01-02-03")%string.

(** a text that [int] converts, instead of raising [ValueError] *)
Definition converts (s : string) : Prop := Py.int s <> None.

(** on a Mac: the memory size, where it passes [isdigit], converts *)
Definition memsize_converts (w : World) : Prop :=
  let total_str := run_command w "sysctl -n hw.memsize" in
  Py.isdigit total_str = true -> converts total_str.

(** on a Mac: the page size, where [vm_stat] states one, converts *)
Definition page_size_converts (w : World) : Prop :=
  forall d, Re.search m_page_size (run_command w "vm_stat") = Some d -> converts d.

(** on a Mac: the free page count, where [vm_stat] states one, converts *)
Definition pages_free_converts (w : World) : Prop :=
  exists n, pages_free_loop (Py.splitlines (run_command w "vm_stat")) = Ok n.

(** the superscript two, U+00B2 *)
Definition superscript_two : string := String "194" (String "178" EmptyString).

(** a Mac whose memory size is printed as a superscript two *)
Definition mac_superscript_memsize : World :=
  host_with "Darwin" "sysctl -n hw.memsize" superscript_two.

(** a character other than the minus sign *)
Definition not_minus (c : ascii) : bool := negb (Ascii.eqb c "-").

(** ** Runs

    A run of the collector gets two things from its process and not from
    the host: the reading of the clock, and the order in which a [set] of
    [str] is iterated, which depends on the hash seed of the process.  (A
    [dict] is iterated in the order of insertion, in every run.) *)
Record run : Type := {
  clock : struct_time;
  iteration : gset string -> list string;
}.

(** an iteration visits every element of the set, once *)
Definition iterates (r : run) : Prop :=
  forall s : gset string, iteration r s ≡ₚ elements s.

(** [detect_security_tools] in a run: [sorted] reads the set in the order
    of the run *)
Definition detect_security_tools_in (r : run) (w : World) : list string :=
  merge_sort str_le (iteration r (detected_of (get_running_process_names w))).

(** [gather_host_info] in a run *)
Definition gather_host_info_in (r : run) (w : World) : res host_info :=
  let stamp := strftime (clock r) in
  let config :=
    {| hostname := get_hostname w; domain := get_domain_name w;
       current_user := get_current_user w; os := get_os_info w;
       users := get_local_users w |} in
  let net := get_network_info w in
  mem_info ← get_memory_info w;
  vm ← get_vendor_model w;
  cpu_info ← get_cpu_info w;
  let hardware_info :=
    {| hw_manufacturer := manufacturer vm; hw_model := model vm; cpu := cpu_info;
       memory_total_bytes := total mem_info; memory_free_bytes := free mem_info;
       disks := get_disk_info w |} in
  Ok {| collected_at := stamp; basic := config; network := net; hw := hardware_info;
        security := {| detected := detect_security_tools_in r w;
                       detection_method := "process_scan" |} |}.

(** [tasklist] on a host running Defender and the Falcon sensor *)
Definition two_tools_on_windows : World :=
  host_with "Windows" "tasklist /fo csv /nh"
    (quoted "MsMpEng.exe" ++ "," ++ quoted "3220" ++ "," ++ quoted "Services" ++ nl ++
     quoted "CSFalconService.exe" ++ "," ++ quoted "4100" ++ "," ++ quoted "Services")%string.

(** a run in the morning that iterates a set one way *)
Definition morning_run : run :=
  {| clock := {| tm_year := 2024; tm_mon := 5; tm_mday := 17;
                 tm_hour := 9; tm_min := 30; tm_sec := 0 |};
     iteration := elements |}.

(** a run in the evening that iterates a set the other way *)
Definition evening_run : run :=
  {| clock := {| tm_year := 2024; tm_mon := 5; tm_mday := 17;
                 tm_hour := 21; tm_min := 5; tm_sec := 42 |};
     iteration := fun s => rev (elements s) |}.

(** * Properties *)

(** ** Strings *)

Section StringFacts.

Import Py Re.

Lemma lstrip_by_idem p s : lstrip_by p (lstrip_by p s) = lstrip_by p s.
Proof.
  induction s as [|c r IH]; simpl; [reflexivity|].
  destruct (p c) eqn:E; [exact IH|]. simpl. now rewrite E.
Qed.

Lemma rstrip_by_idem p s : rstrip_by p (rstrip_by p s) = rstrip_by p s.
Proof.
  induction s as [|c r IH]; simpl; [reflexivity|].
  destruct (p c && is_empty (rstrip_by p r)) eqn:E; [reflexivity|].
  simpl. now rewrite IH, E.
Qed.

Lemma lstrip_by_head p s : head_kept p (lstrip_by p s).
Proof.
  induction s as [|c r IH]; simpl; [exact I|].
  destruct (p c) eqn:E; [exact IH|exact E].
Qed.

Lemma rstrip_by_head p s : head_kept p s -> head_kept p (rstrip_by p s).
Proof.
  destruct s as [|c r]; simpl; [easy|]. intros E. now rewrite E.
Qed.

Lemma lstrip_by_kept p s : head_kept p s -> lstrip_by p s = s.
Proof. destruct s as [|c r]; simpl; [easy|]. intros E. now rewrite E. Qed.

Lemma strip_by_head p s : head_kept p (strip_by p s).
Proof. apply rstrip_by_head, lstrip_by_head. Qed.

Lemma strip_by_idem p s : strip_by p (strip_by p s) = strip_by p s.
Proof.
  unfold strip_by at 1.
  rewrite (lstrip_by_kept p (strip_by p s)) by apply strip_by_head.
  apply rstrip_by_idem.
Qed.

Lemma strip_idem s : strip (strip s) = strip s.
Proof. apply strip_by_idem. Qed.

Lemma is_empty_true s : is_empty s = true <-> s = EmptyString.
Proof. destruct s; simpl; split; congruence. Qed.

Lemma is_empty_false s : is_empty s = false <-> s <> EmptyString.
Proof. destruct s; simpl; split; congruence. Qed.

(** a string without strippable characters is left alone *)
Lemma rstrip_by_none p s : all_chars (fun c => negb (p c)) s = true -> rstrip_by p s = s.
Proof.
  induction s as [|c r IH]; simpl; [reflexivity|].
  intros [Hc Hr]%andb_prop. rewrite (IH Hr).
  apply negb_true_iff in Hc. now rewrite Hc.
Qed.

Lemma strip_by_none p s : all_chars (fun c => negb (p c)) s = true -> strip_by p s = s.
Proof.
  intros H. unfold strip_by. rewrite lstrip_by_kept.
  - now apply rstrip_by_none.
  - destruct s as [|c r]; simpl in *; [exact I|].
    apply andb_prop in H as [Hc _]. now apply negb_true_iff in Hc.
Qed.

Lemma all_chars_impl (p q : ascii -> bool) s :
  (forall c, p c = true -> q c = true) ->
  all_chars p s = true -> all_chars q s = true.
Proof.
  intros Hpq. induction s as [|c r IH]; simpl; [easy|].
  intros [Hc Hr]%andb_prop. now rewrite (Hpq c Hc), (IH Hr).
Qed.

Lemma between_inv lo hi c : between lo hi c = true <-> (lo <= code c <= hi)%nat.
Proof.
  unfold between. rewrite andb_true_iff, !Nat.leb_le. tauto.
Qed.

Lemma between_false lo hi c :
  between lo hi c = false <-> (code c < lo \/ hi < code c)%nat.
Proof.
  unfold between. rewrite andb_false_iff, !Nat.leb_gt. tauto.
Qed.

Lemma digit_not_space c : is_digit c = true -> negb (is_space c) = true.
Proof.
  unfold is_digit, is_space. rewrite between_inv. intros H.
  apply negb_true_iff, orb_false_iff. rewrite !between_false. lia.
Qed.

Lemma linebreak_is_space c : is_linebreak c = true -> is_space c = true.
Proof.
  unfold is_linebreak, is_space. rewrite !orb_true_iff, !between_inv. lia.
Qed.

(** [plus]: what it returns *)
Lemma span_all p s : all_chars p (fst (span p s)) = true.
Proof.
  induction s as [|c r IH]; simpl; [reflexivity|].
  destruct (p c) eqn:E; [|reflexivity].
  destruct (span p r) as [a b]. simpl in *. now rewrite E, IH.
Qed.

Lemma plus_inv p s a b :
  plus p s = Some (a, b) -> all_chars p a = true /\ a <> EmptyString.
Proof.
  unfold plus. pose proof (span_all p s) as H.
  destruct (span p s) as [a' b']. simpl in H.
  destruct (is_empty a') eqn:E; [discriminate|].
  intros [= <- <-]. split; [exact H|now apply is_empty_false].
Qed.

(** [int] accepts every non-empty run of digits *)
Lemma int_digits_some s acc :
  all_chars is_digit s = true -> exists v, int_digits acc s = Some v.
Proof.
  revert acc. induction s as [|c r IH]; intros acc; simpl; [eauto|].
  intros [Hc Hr]%andb_prop.
  assert (Ascii.eqb c "_" = false) as ->.
  { apply Ascii.eqb_neq. intros ->. discriminate Hc. }
  unfold digit_val. rewrite Hc. apply IH, Hr.
Qed.

Lemma digit_is_ascii c : is_digit c = true -> is_ascii_char c = true.
Proof.
  destruct c as [[] [] [] [] [] [] [] []]; vm_compute; congruence.
Qed.

Lemma digit_not_c_space c : is_digit c = true -> negb (is_c_space c) = true.
Proof.
  destruct c as [[] [] [] [] [] [] [] []]; vm_compute; congruence.
Qed.

Lemma digit_count_run s :
  all_chars is_digit s = true -> digit_count s = N.of_nat (String.length s).
Proof.
  induction s as [|c r IH]; simpl; [reflexivity|].
  intros [-> Hr]%andb_prop. rewrite (IH Hr). lia.
Qed.

(** of a non-empty run of ASCII digits [int] only checks the length *)
Lemma int_run s :
  all_chars is_digit s = true -> s <> EmptyString -> int s = int_limited s.
Proof.
  intros Hd Hne. unfold int, int_text.
  rewrite (all_chars_impl _ _ s digit_is_ascii Hd).
  rewrite strip_by_none by (eapply all_chars_impl; [apply digit_not_c_space|exact Hd]).
  destruct s as [|c r]; [congruence|]. simpl in Hd.
  apply andb_prop in Hd as [Hc _].
  destruct (Ascii.eqb_spec c "+") as [->|H1]; [discriminate Hc|].
  destruct (Ascii.eqb_spec c "-") as [->|H2]; [discriminate Hc|].
  destruct c as [[] [] [] [] [] [] [] []]; try reflexivity; congruence.
Qed.

(** [int] accepts a non-empty run of ASCII digits within the limit *)
Lemma int_some s :
  all_chars is_digit s = true -> s <> EmptyString ->
  (N.of_nat (String.length s) <= int_max_str_digits)%N ->
  exists v, int s = Some v.
Proof.
  intros Hd Hne Hlen. rewrite (int_run s Hd Hne). unfold int_limited.
  rewrite (digit_count_run s Hd). apply N.leb_le in Hlen. rewrite Hlen.
  destruct s as [|c r]; [congruence|]. simpl in Hd.
  apply andb_prop in Hd as [Hc Hr]. simpl. unfold digit_val. rewrite Hc.
  apply int_digits_some, Hr.
Qed.

End StringFacts.

(** ** Memory *)

Section MemoryFacts.

Import Py Re.

Lemma search_found {A} (m : string -> option A) s x :
  search m s = Some x -> exists t, m t = Some x.
Proof.
  induction s as [|c r IH]; simpl.
  - destruct (m EmptyString) eqn:E; [intros [= <-]; eauto|discriminate].
  - destruct (m (String c r)) eqn:E; [intros [= <-]; eauto|exact IH].
Qed.

#[local] Arguments eat : simpl never.
#[local] Arguments eat_ci : simpl never.
#[local] Arguments take : simpl never.

Lemma m_page_size_digits s d :
  m_page_size s = Some d -> all_chars is_digit d = true /\ d <> EmptyString.
Proof.
  unfold m_page_size. intros H.
  destruct (eat "page size of " s) as [r|]; simpl in H; [|discriminate].
  destruct (plus is_digit r) as [[a b]|] eqn:E; simpl in H; [|discriminate].
  destruct (eat " bytes" b); simpl in H; [|discriminate].
  injection H as <-. eapply plus_inv, E.
Qed.

Lemma darwin_only (w : World) :
  is_darwin w = true -> is_windows w = false /\ is_linux w = false.
Proof.
  unfold is_darwin, is_windows, is_linux. intros H%String.eqb_eq.
  rewrite H. split; reflexivity.
Qed.

(** C1, at the failing input: a total that is not a number makes the
    collector raise [ValueError] instead of reporting the value as absent. *)
Theorem free_garbled_raises : get_memory_info free_garbled = Raise ValueError.
Proof. vm_compute. reflexivity. Qed.

(** the macOS branch of [get_memory_info] *)
Lemma darwin_memory (w : World) :
  is_darwin w = true ->
  get_memory_info w =
    (let total_str := run_command w "sysctl -n hw.memsize" in
     t ← (if isdigit total_str then Some <$> or_raise ValueError (int total_str)
          else Ok None);
     let vm_output := run_command w "vm_stat" in
     if is_empty vm_output then Ok {| total := t; free := None |}
     else
       page_size ← match search m_page_size vm_output with
                   | Some d => or_raise ValueError (int d)
                   | None => Ok 4096%Z
                   end;
       pages_free ← pages_free_loop (splitlines vm_output);
       Ok {| total := t;
             free := if Z.eqb pages_free 0 then None
                     else Some (pages_free * page_size)%Z |}).
Proof.
  intros Hd. destruct (darwin_only w Hd) as [Hw Hl].
  unfold get_memory_info. now rewrite Hw, Hl, Hd.
Qed.

Lemma pages_free_loop_raises lines e :
  pages_free_loop lines = Raise e -> e = ValueError.
Proof.
  induction lines as [|l ls IH]; simpl; [discriminate|].
  destruct (m_pages_free l) as [d|]; [|exact IH].
  destruct (int d); simpl; [discriminate|]. now intros [= <-].
Qed.

(** on macOS the collector returns when the numbers it reads convert *)
Lemma darwin_memory_returns (w : World) :
  is_darwin w = true ->
  memsize_converts w -> page_size_converts w -> pages_free_converts w ->
  exists m, get_memory_info w = Ok m.
Proof.
  intros Hd Hm Hp [n Hn]. rewrite (darwin_memory w Hd). cbv zeta.
  unfold memsize_converts, converts in Hm. unfold page_size_converts, converts in Hp.
  destruct (isdigit (run_command w "sysctl -n hw.memsize")).
  - specialize (Hm eq_refl).
    destruct (int (run_command w "sysctl -n hw.memsize")) as [t|]; [|congruence].
    simpl. destruct (is_empty (run_command w "vm_stat")); [eauto|].
    destruct (search m_page_size (run_command w "vm_stat")) as [d|].
    + specialize (Hp d eq_refl). destruct (int d) as [ps|]; [|congruence].
      simpl. rewrite Hn. simpl. eauto.
    + simpl. rewrite Hn. simpl. eauto.
  - simpl. destruct (is_empty (run_command w "vm_stat")); [eauto|].
    destruct (search m_page_size (run_command w "vm_stat")) as [d|].
    + specialize (Hp d eq_refl). destruct (int d) as [ps|]; [|congruence].
      simpl. rewrite Hn. simpl. eauto.
    + simpl. rewrite Hn. simpl. eauto.
Qed.

(** on macOS the collector raises nothing but [ValueError] *)
Lemma darwin_memory_raises (w : World) e :
  is_darwin w = true -> get_memory_info w = Raise e -> e = ValueError.
Proof.
  intros Hd. rewrite (darwin_memory w Hd). cbv zeta.
  assert (forall t : option Z,
    (if is_empty (run_command w "vm_stat") then Ok {| total := t; free := None |}
     else
       page_size ← match search m_page_size (run_command w "vm_stat") with
                   | Some d => or_raise ValueError (int d)
                   | None => Ok 4096%Z
                   end;
       pages_free ← pages_free_loop (splitlines (run_command w "vm_stat"));
       Ok {| total := t;
             free := if Z.eqb pages_free 0 then None
                     else Some (pages_free * page_size)%Z |}) = Raise e ->
    e = ValueError) as Hrest.
  { intros t. destruct (is_empty (run_command w "vm_stat")); [discriminate|].
    destruct (search m_page_size (run_command w "vm_stat")) as [d|].
    - destruct (int d) as [ps|]; simpl; [|now intros [= <-]].
      destruct (pages_free_loop _) as [pf|e'] eqn:E; simpl; [discriminate|].
      intros [= <-]. eapply pages_free_loop_raises, E.
    - simpl. destruct (pages_free_loop _) as [pf|e'] eqn:E; simpl; [discriminate|].
      intros [= <-]. eapply pages_free_loop_raises, E. }
  destruct (isdigit (run_command w "sysctl -n hw.memsize")).
  - destruct (int (run_command w "sysctl -n hw.memsize")) as [t|]; simpl.
    + apply Hrest.
    + now intros [= <-].
  - simpl. apply Hrest.
Qed.

(** on macOS, with a free page count of zero, a report has no free memory *)
Lemma darwin_zero_free (w : World) m :
  is_darwin w = true ->
  pages_free_loop (splitlines (run_command w "vm_stat")) = Ok 0%Z ->
  get_memory_info w = Ok m -> free m = None.
Proof.
  intros Hd Hfree. rewrite (darwin_memory w Hd). cbv zeta.
  assert (forall t : option Z,
    (if is_empty (run_command w "vm_stat") then Ok {| total := t; free := None |}
     else
       page_size ← match search m_page_size (run_command w "vm_stat") with
                   | Some d => or_raise ValueError (int d)
                   | None => Ok 4096%Z
                   end;
       pages_free ← pages_free_loop (splitlines (run_command w "vm_stat"));
       Ok {| total := t;
             free := if Z.eqb pages_free 0 then None
                     else Some (pages_free * page_size)%Z |}) = Ok m ->
    free m = None) as Hrest.
  { intros t. destruct (is_empty (run_command w "vm_stat")); [now intros [= <-]|].
    destruct (search m_page_size (run_command w "vm_stat")) as [d|].
    - destruct (int d) as [ps|]; simpl; [|discriminate].
      rewrite Hfree. simpl. now intros [= <-].
    - simpl. rewrite Hfree. simpl. now intros [= <-]. }
  destruct (isdigit (run_command w "sysctl -n hw.memsize")).
  - destruct (int (run_command w "sysctl -n hw.memsize")) as [t|]; simpl.
    + apply Hrest.
    + discriminate.
  - simpl. apply Hrest.
Qed.

(** C10: on macOS, when the free page count read from [vm_stat] is zero, the
    free memory of the report is absent ([None]), not zero bytes: every
    report the collector returns has no free memory, and it does return one
    when the memory size and the page size convert; when it raises instead,
    it raises [ValueError] and one of the two does not convert. *)
Theorem darwin_zero_free_is_absent (w : World) :
  is_darwin w = true ->
  pages_free_loop (splitlines (run_command w "vm_stat")) = Ok 0%Z ->
  (forall m, get_memory_info w = Ok m -> free m = None)
  /\ (memsize_converts w -> page_size_converts w ->
      exists t, get_memory_info w = Ok {| total := t; free := None |})
  /\ (forall e, get_memory_info w = Raise e ->
      e = ValueError /\ ~ (memsize_converts w /\ page_size_converts w)).
Proof.
  intros Hd Hfree.
  assert (memsize_converts w -> page_size_converts w ->
          exists t, get_memory_info w = Ok {| total := t; free := None |}) as Hret.
  { intros Hm Hp.
    destruct (darwin_memory_returns w Hd Hm Hp) as [m Em]; [now exists 0%Z|].
    pose proof (darwin_zero_free w m Hd Hfree Em) as Hf.
    destruct m as [t f]. simpl in Hf. subst f. now exists t. }
  split; [|split].
  - intros m. now apply darwin_zero_free.
  - exact Hret.
  - intros e He. split; [now apply (darwin_memory_raises w e Hd)|].
    intros [Hm Hp]. destruct (Hret Hm Hp) as [t Et]. congruence.
Qed.

Lemma darwin_zero_free_is_absent_witness :
  exists t, get_memory_info mac_no_free_pages = Ok {| total := t; free := None |}.
Proof.
  destruct (darwin_zero_free_is_absent mac_no_free_pages) as (_ & H & _);
    [vm_compute; reflexivity|vm_compute; reflexivity|].
  apply H.
  - intros _. vm_compute. discriminate.
  - intros d Hd. vm_compute in Hd. injection Hd as <-. vm_compute. discriminate.
Defined.

End MemoryFacts.

(** ** Domain *)

Section DomainFacts.

Import Py.

Lemma run_command_stripped (w : World) cmd :
  strip (run_command w cmd) = run_command w cmd.
Proof.
  unfold run_command. destruct (stdout w cmd); [apply strip_idem|reflexivity].
Qed.

(** C7: on a POSIX host the three commands are tried in order and the first
    usable output is the domain; when none is usable the domain is absent;
    the domain is never the empty string nor one of the two sentinels. *)
Theorem posix_domain_cascade (w : World) :
  is_windows w = false ->
  let o1 := run_command w "hostname -d" in
  let o2 := run_command w "dnsdomainname" in
  let o3 := run_command w "domainname" in
  get_domain_name w =
    (if usable o1 then Some o1
     else if usable o2 then Some o2
     else if usable o3 then Some o3
     else None)
  /\ (usable o1 = false -> usable o2 = false -> usable o3 = false ->
      get_domain_name w = None)
  /\ (forall d, get_domain_name w = Some d ->
      d <> EmptyString /\ String.eqb (lower d) "(none)" = false
      /\ String.eqb (lower d) "unknown" = false).
Proof.
  intros Hw o1 o2 o3.
  assert (get_domain_name w =
    (if usable o1 then Some o1 else if usable o2 then Some o2
     else if usable o3 then Some o3 else None)) as Heq.
  { unfold get_domain_name. rewrite Hw. simpl. fold o1 o2 o3.
    unfold usable. subst o1 o2 o3. rewrite !run_command_stripped.
    reflexivity. }
  split; [exact Heq|]. split.
  - intros H1 H2 H3. now rewrite Heq, H1, H2, H3.
  - intros d. rewrite Heq.
    assert (forall o, usable o = true ->
      o <> EmptyString /\ String.eqb (lower o) "(none)" = false
      /\ String.eqb (lower o) "unknown" = false) as Hu.
    { intros o [Hne Hnv]%andb_prop. apply negb_true_iff in Hne, Hnv.
      apply orb_false_iff in Hnv. split; [now apply is_empty_false|exact Hnv]. }
    destruct (usable o1) eqn:E1; [intros [= <-]; auto|].
    destruct (usable o2) eqn:E2; [intros [= <-]; auto|].
    destruct (usable o3) eqn:E3; [intros [= <-]; auto|discriminate].
Qed.

Lemma posix_domain_cascade_witness : get_domain_name no_domain = None.
Proof.
  apply (posix_domain_cascade no_domain); vm_compute; reflexivity.
Defined.

End DomainFacts.

(** ** Network: empty output *)

(** C9: whatever the platform, when the network command prints nothing the
    list of interfaces is empty, and nothing is raised. *)
Theorem no_output_no_interfaces (w : World) :
  run_command w (network_command w) = EmptyString ->
  get_network_info w = [].
Proof.
  unfold network_command, get_network_info, parse_ip_config_windows,
    parse_ip_config_posix.
  destruct (is_windows w); [intros ->; reflexivity|].
  destruct (is_linux w); intros ->; reflexivity.
Qed.

Lemma no_output_no_interfaces_witness :
  get_network_info (silent "Windows") = [] /\ get_network_info (silent "Linux") = []
  /\ get_network_info (silent "Darwin") = [] /\ get_network_info (silent "FreeBSD") = [].
Proof.
  split; [|split; [|split]]; apply no_output_no_interfaces; vm_compute; reflexivity.
Defined.

(** ** Security tools *)

Section SecurityFacts.

Import Py.

Lemma str_compare_trans a b c :
  String.compare a b <> Gt -> String.compare b c <> Gt -> String.compare a c <> Gt.
Proof.
  revert b c. induction a as [|x a IH]; intros [|y b] [|z c]; simpl; try congruence.
  unfold Ascii.compare.
  destruct (N.compare_spec (N_of_ascii x) (N_of_ascii y)) as [Exy|Lxy|Gxy];
    destruct (N.compare_spec (N_of_ascii y) (N_of_ascii z)) as [Eyz|Lyz|Gyz];
    destruct (N.compare_spec (N_of_ascii x) (N_of_ascii z)) as [Exz|Lxz|Gxz];
    try congruence; try lia.
  apply IH.
Qed.

Lemma str_le_alt a b : str_le a b <-> String.compare a b <> Gt.
Proof.
  unfold str_le, String.leb. destruct (String.compare a b); split; congruence.
Qed.

#[local] Instance str_le_trans : Transitive str_le.
Proof. intros a b c. rewrite !str_le_alt. apply str_compare_trans. Qed.

#[local] Instance str_le_total : Total str_le.
Proof. intros a b. apply String.leb_total. Qed.

Lemma sorted_spec (s : gset string) :
  StronglySorted str_le (sorted s) /\ NoDup (sorted s)
  /\ forall x, x ∈ sorted s <-> x ∈ s.
Proof.
  unfold sorted. split; [|split].
  - apply StronglySorted_merge_sort; apply _.
  - rewrite merge_sort_Permutation. apply NoDup_elements.
  - intros x. rewrite merge_sort_Permutation. apply elem_of_elements.
Qed.

#[local] Instance str_le_antisymm : AntiSymm eq str_le.
Proof. intros a b Hab Hba. now apply String.leb_antisym. Qed.

(** [sorted] gives the same list whatever the order it reads the set in *)
Lemma sorted_any_order (l1 l2 : list string) :
  l1 ≡ₚ l2 -> merge_sort str_le l1 = merge_sort str_le l2.
Proof.
  intros H. apply (StronglySorted_unique str_le).
  - apply StronglySorted_merge_sort; apply _.
  - apply StronglySorted_merge_sort; apply _.
  - now rewrite !merge_sort_Permutation.
Qed.

(** [gather_host_info] is the run that iterates a set as [elements] does *)
Lemma gather_host_info_run (w : World) (now : struct_time) :
  gather_host_info w now = gather_host_info_in {| clock := now; iteration := elements |} w.
Proof. reflexivity. Qed.

(** the order of iteration shows in the set of a host with two tools *)
Lemma iteration_differs :
  let s := detected_of (get_running_process_names two_tools_on_windows) in
  iteration morning_run s <> iteration evening_run s.
Proof. vm_compute. discriminate. Qed.

(** C8: two runs of the collector on the same host, at any two times and
    with any two orders of iteration of the set of detected products, end
    the same way and give reports that agree on every field other than
    [collected_at]: the clock is read for that field only, and the set is
    read through [sorted]. *)
Theorem two_runs_agree (w : World) (r1 r2 : run) :
  iterates r1 -> iterates r2 ->
  same_outcome (gather_host_info_in r1 w) (gather_host_info_in r2 w).
Proof.
  intros H1 H2. unfold same_outcome, gather_host_info_in.
  destruct (get_memory_info w) as [m|e]; simpl; [|reflexivity].
  destruct (get_vendor_model w) as [v|e]; simpl; [|reflexivity].
  destruct (get_cpu_info w) as [c|e]; simpl; [|reflexivity].
  repeat split. simpl. f_equal. unfold detect_security_tools_in.
  apply sorted_any_order. etransitivity; [apply H1|symmetry; apply H2].
Qed.

Lemma two_runs_agree_witness :
  same_outcome (gather_host_info_in morning_run two_tools_on_windows)
               (gather_host_info_in evening_run two_tools_on_windows).
Proof.
  apply (two_runs_agree two_tools_on_windows morning_run evening_run).
  - intros s. reflexivity.
  - intros s. simpl. symmetry. apply Permutation_rev.
Defined.

Lemma detected_loop (running : list string) (acc : gset string) (x : string) :
  x ∈ fold_left
        (fun detected proc =>
           match SECURITY_PROCESSES !! proc with
           | Some product => detected ∪ {[product]}
           | None => detected
           end) running acc
  <-> x ∈ acc \/ exists proc, proc ∈ running /\ SECURITY_PROCESSES !! proc = Some x.
Proof.
  revert acc. induction running as [|p ps IH]; intros acc; cbn [fold_left].
  - split; [auto|]. intros [H|(proc & H & _)]; [exact H|]. inversion H.
  - rewrite IH. split.
    + intros [H|(proc & Hin & Hp)].
      * destruct (SECURITY_PROCESSES !! p) as [v|] eqn:E; [|auto].
        apply elem_of_union in H as [H|H]; [auto|].
        apply elem_of_singleton in H as ->. right. exists p. split; [left|exact E].
      * right. exists proc. split; [now right|exact Hp].
    + intros [H|(proc & Hin & Hp)].
      * left. destruct (SECURITY_PROCESSES !! p); [|exact H].
        apply elem_of_union. now left.
      * apply elem_of_cons in Hin as [->|Hin].
        -- left. rewrite Hp. apply elem_of_union. right. now apply elem_of_singleton.
        -- right. eauto.
Qed.

Lemma detected_of_spec (running : list string) (x : string) :
  x ∈ detected_of running
  <-> exists proc, proc ∈ running /\ SECURITY_PROCESSES !! proc = Some x.
Proof.
  unfold detected_of. rewrite detected_loop. split; [|auto].
  intros [H|H]; [|exact H]. now apply not_elem_of_empty in H.
Qed.

Lemma split_on_head sep s : hd EmptyString (split_on sep s) = before sep s.
Proof.
  unfold before. induction s as [|c r IH]; simpl; [reflexivity|].
  destruct (Ascii.eqb c sep); [reflexivity|].
  destruct (split1 sep r) as [a b]. simpl in *.
  destruct (split_on sep r) as [|l ls]; simpl in *; now subst.
Qed.

Lemma split_on_cons sep s : split_on sep s <> [].
Proof.
  destruct s as [|c r]; simpl; [easy|].
  destruct (Ascii.eqb c sep); [easy|]. now destruct (split_on sep r).
Qed.

Lemma tasklist_step_alt processes line :
  tasklist_step processes line =
  if is_empty line then processes else processes ++ [normalize_windows line].
Proof.
  unfold tasklist_step, normalize_windows.
  destruct (is_empty line); [reflexivity|].
  rewrite <- split_on_head.
  pose proof (split_on_cons "," line) as Hne.
  destruct (split_on "," line) as [|f fs]; [congruence|reflexivity].
Qed.

Lemma tasklist_loop lines processes :
  fold_left tasklist_step lines processes =
  processes ++
  map normalize_windows (List.filter (fun line => negb (is_empty line)) lines).
Proof.
  revert processes. induction lines as [|l ls IH]; intros processes; simpl.
  - now rewrite app_nil_r.
  - rewrite IH, tasklist_step_alt.
    destruct (is_empty l); simpl; [reflexivity|].
    now rewrite <- app_assoc.
Qed.

(** C6: the classifier looks up the normalized names of the running
    processes in the signature table; the result is sorted and without
    repetition, holds exactly the products of the names found in the table,
    and is [["Microsoft Defender"]] for the names [msmpeng] and [explorer]. *)
Theorem security_tools_classified (w : World) :
  let running := get_running_process_names w in
  let found := detect_security_tools w in
  (is_windows w = true ->
   running = map normalize_windows
               (List.filter (fun line => negb (is_empty line))
                  (splitlines (run_command w "tasklist /fo csv /nh"))))
  /\ (is_windows w = false ->
      running = map normalize_posix (tail (splitlines (run_command w "ps -eo comm"))))
  /\ StronglySorted str_le found
  /\ NoDup found
  /\ (forall product,
        product ∈ found <->
        exists proc, proc ∈ running /\ SECURITY_PROCESSES !! proc = Some product)
  /\ (running = ["msmpeng"; "explorer"] -> found = ["Microsoft Defender"]).
Proof.
  intros running found. subst running found.
  destruct (sorted_spec (detected_of (get_running_process_names w))) as (Hs & Hn & Hm).
  split; [|split; [|split; [|split; [|split]]]].
  - intros Hw. unfold get_running_process_names. rewrite Hw.
    apply (tasklist_loop _ []).
  - intros Hw. unfold get_running_process_names. now rewrite Hw.
  - exact Hs.
  - exact Hn.
  - intros product. unfold detect_security_tools. rewrite Hm. apply detected_of_spec.
  - intros H. unfold detect_security_tools. rewrite H. vm_compute. reflexivity.
Qed.

Lemma security_tools_classified_witness :
  detect_security_tools defender_on_windows = ["Microsoft Defender"].
Proof.
  apply (security_tools_classified defender_on_windows). vm_compute. reflexivity.
Defined.

End SecurityFacts.

(** ** Network: Windows *)

Section WindowsFacts.

Import Py.

Lemma win_step_blank st line :
  is_empty (strip line) = true -> win_step st line = flush st.
Proof. unfold win_step. now intros ->. Qed.

Lemma header_not_blank line : is_header line = true -> is_empty (strip line) = false.
Proof.
  unfold is_header. intros [_ H]%andb_prop.
  destruct (strip line); [discriminate H|reflexivity].
Qed.

Lemma win_step_header st line :
  is_header line = true ->
  win_step st line =
  (fst (flush st), set_name (rstrip_by (Ascii.eqb ":") (strip line)) no_keys).
Proof.
  intros H. unfold win_step. now rewrite (header_not_blank line H), H.
Qed.

Lemma win_step_field st line key value :
  field_line line key value ->
  win_step st line = (fst st, win_field line (snd st)).
Proof. intros (Hb & Hh & _). unfold win_step. now rewrite Hb, Hh. Qed.

Lemma win_step_mac st line value :
  mac_line line value ->
  win_step st line = (fst st, setdefault_mac (strip value) (snd st)).
Proof.
  intros (key & Hf & Hk). rewrite (win_step_field st line key value Hf).
  destruct Hf as (_ & _ & Hs). unfold win_field. now rewrite Hs, Hk.
Qed.

Lemma win_step_ipv4 st line value :
  ipv4_line line value ->
  win_step st line = (fst st, add_ipv4 (ip_of (strip value)) (snd st)).
Proof.
  intros (key & Hf & Hk). rewrite (win_step_field st line key value Hf).
  destruct Hf as (_ & _ & Hs). unfold win_field. rewrite Hs.
  unfold ipv4_keys in *. simpl in Hk.
  destruct Hk as [<-|[<-|[<-|[]]]]; reflexivity.
Qed.

Lemma before_note ip note :
  free_of "(" ip = true -> before "(" (ip ++ String "(" note)%string = ip.
Proof.
  unfold before, free_of. induction ip as [|c r IH]; simpl; [reflexivity|].
  intros [Hc Hr]%andb_prop. apply negb_true_iff in Hc. rewrite Hc.
  specialize (IH Hr). destruct (split1 "(" (r ++ String "(" note)). simpl in *.
  now subst.
Qed.

Lemma splitlines_some output l ls :
  splitlines output = l :: ls -> is_empty output = false.
Proof. destruct output; [discriminate|reflexivity]. Qed.

(** C5: two adapter sections separated by a blank line, each with one
    physical address line and one IPv4 address line, give exactly two
    interfaces, each with the name of its header, the MAC of its own section
    and one IPv4 address; a parenthetical note after the address is dropped;
    of several physical address lines in a section the first one counts. *)
Theorem windows_adapter_sections (w : World) :
  (forall h1 m1 i1 h2 m2 i2 blank v1 a1 v2 a2 ip_first1 ip_first2,
      is_header h1 = true -> is_header h2 = true ->
      is_empty (strip blank) = true ->
      mac_line m1 v1 -> ipv4_line i1 a1 -> mac_line m2 v2 -> ipv4_line i2 a2 ->
      splitlines (run_command w "ipconfig /all") =
        block h1 m1 i1 ip_first1 ++ blank :: block h2 m2 i2 ip_first2 ->
      parse_ip_config_windows w = [adapter_of h1 v1 a1; adapter_of h2 v2 a2])
  /\ (forall ip note,
        free_of "(" ip = true -> ip_of (ip ++ String "(" note)%string = strip ip)
  /\ (forall h m v more,
        is_header h = true -> mac_line m v ->
        Forall (fun l => exists v', mac_line l v') more ->
        splitlines (run_command w "ipconfig /all") = h :: m :: more ->
        parse_ip_config_windows w =
          [{| name := Some (rstrip_by (Ascii.eqb ":") (strip h));
              mac := Some (strip v); ipv4 := None; ipv6 := None |}]).
Proof.
  split; [|split].
  - intros h1 m1 i1 h2 m2 i2 blank v1 a1 v2 a2 f1 f2 Hh1 Hh2 Hb Hm1 Hi1 Hm2 Hi2 Hl.
    unfold parse_ip_config_windows.
    rewrite (splitlines_some _ _ _ Hl), Hl.
    unfold parse_windows_lines, block, finish.
    destruct f1, f2; cbn [app fold_left];
      rewrite ?(win_step_header _ _ Hh1), ?(win_step_mac _ _ _ Hm1),
        ?(win_step_ipv4 _ _ _ Hi1), ?(win_step_blank _ _ Hb);
      cbn;
      rewrite ?(win_step_header _ _ Hh2), ?(win_step_mac _ _ _ Hm2),
        ?(win_step_ipv4 _ _ _ Hi2);
      reflexivity.
  - intros ip note H. unfold ip_of. now rewrite before_note.
  - intros h m v more Hh Hm Hmore Hl.
    unfold parse_ip_config_windows.
    rewrite (splitlines_some _ _ _ Hl), Hl.
    unfold parse_windows_lines. cbn [fold_left].
    rewrite (win_step_header _ _ Hh), (win_step_mac _ _ _ Hm). cbn.
    change (set_mac (strip v) (set_name (rstrip_by (Ascii.eqb ":") (strip h)) no_keys))
      with {| name := Some (rstrip_by (Ascii.eqb ":") (strip h));
              mac := Some (strip v); ipv4 := None; ipv6 := None |}.
    set (a := {| name := _; mac := Some (strip v); ipv4 := None; ipv6 := None |}).
    assert (fold_left win_step more ([], a) = ([], a)) as ->; [|reflexivity].
    clear Hl. induction Hmore as [|l ls (v' & Hl') _ IH]; [reflexivity|].
    cbn [fold_left]. rewrite (win_step_mac _ _ _ Hl'). exact IH.
Qed.

Lemma windows_adapter_sections_witness :
  parse_ip_config_windows two_adapters =
    [ {| name := Some "Ethernet adapter Ethernet"; mac := Some "00-15-5D-01-02-03";
         ipv4 := Some ["192.168.1.20"]; ipv6 := None |};
      {| name := Some "Wireless LAN adapter Wi-Fi"; mac := Some "00-15-5D-0A-0B-0C";
         ipv4 := Some ["10.0.0.7"]; ipv6 := None |} ]
  /\ ip_of "192.168.1.20(Preferred)" = "192.168.1.20"
  /\ parse_ip_config_windows two_macs =
    [ {| name := Some "Ethernet adapter Ethernet"; mac := Some "00-15-5D-01-02-03";
         ipv4 := None; ipv6 := None |} ].
Proof.
  split; [|split].
  - apply (proj1 (windows_adapter_sections two_adapters)
             "Ethernet adapter Ethernet:"
             "   Physical Address: 00-15-5D-01-02-03"
             "   IPv4 Address: 192.168.1.20(Preferred)"
             "Wireless LAN adapter Wi-Fi:"
             "   Physical Address: 00-15-5D-0A-0B-0C"
             "   IPv4 Address: 10.0.0.7(Preferred)"
             EmptyString
             " 00-15-5D-01-02-03" " 192.168.1.20(Preferred)"
             " 00-15-5D-0A-0B-0C" " 10.0.0.7(Preferred)" false false);
      try (vm_compute; reflexivity).
    + exists "   Physical Address". vm_compute. auto.
    + exists "   IPv4 Address". vm_compute. auto.
    + exists "   Physical Address". vm_compute. auto.
    + exists "   IPv4 Address". vm_compute. auto.
  - apply (proj1 (proj2 (windows_adapter_sections two_adapters))
             "192.168.1.20" "Preferred)"). vm_compute. reflexivity.
  - apply (proj2 (proj2 (windows_adapter_sections two_macs))
             "Ethernet adapter Ethernet:"
             "   Physical Address: 00-15-5D-01-02-03" " 00-15-5D-01-02-03"
             ["   Physical Address: 00-15-5D-FF-FF-FF"]);
      try (vm_compute; reflexivity).
    + exists "   Physical Address". vm_compute. auto.
    + constructor; [|constructor]. exists " 00-15-5D-FF-FF-FF".
      exists "   Physical Address". vm_compute. auto.
Defined.

End WindowsFacts.

(** ** Network: names of the interfaces *)

Section NameFacts.

Import Py Re.

Lemma not_truthy a : truthy a = false -> a = no_keys.
Proof. destruct a as [[?|] [?|] [?|] [?|]]; simpl; intros H; (discriminate H || reflexivity). Qed.

Lemma named_truthy a : named a -> truthy a = true.
Proof. unfold named, truthy. now intros ->. Qed.

Lemma flush_snd st : snd (flush st) = no_keys.
Proof.
  destruct st as [interfaces adapter]. unfold flush.
  destruct (truthy adapter) eqn:E; [reflexivity|]. simpl. now apply not_truthy.
Qed.

Lemma flush_fst st :
  fst (flush st) = fst st ++ (if truthy (snd st) then [snd st] else []).
Proof.
  destruct st as [interfaces adapter]. unfold flush. simpl.
  destruct (truthy adapter); simpl; [reflexivity|now rewrite app_nil_r].
Qed.

Lemma flush_Forall (P : iface -> Prop) st :
  Forall P (fst st) -> (truthy (snd st) = true -> P (snd st)) ->
  Forall P (fst (flush st)).
Proof.
  intros Hi Ha. rewrite flush_fst. apply Forall_app. split; [exact Hi|].
  destruct (truthy (snd st)); [|constructor]. constructor; [auto|constructor].
Qed.

Lemma on_match_name (o : option string) f (a : iface) :
  (forall x b, name (f x b) = name b) -> name (on_match o f a) = name a.
Proof. intros H. destruct o; simpl; [apply H|reflexivity]. Qed.

Lemma setdefault_mac_name m a : name (setdefault_mac m a) = name a.
Proof. unfold setdefault_mac. now destruct (mac a). Qed.

Lemma win_field_name line a : name (win_field line a) = name a.
Proof.
  unfold win_field. destruct (split1 ":" line) as [k [v|]]; [|reflexivity].
  repeat match goal with |- context [if ?b then _ else _] => destruct b end;
    auto using setdefault_mac_name.
Qed.

Lemma linux_update_name family ip line a : name (linux_update family ip line a) = name a.
Proof.
  unfold linux_update.
  repeat match goal with |- context [if ?b then _ else _] => destruct b end;
    try reflexivity.
  now destruct (search m_link_mac line).
Qed.

Lemma loop_inv_flush b st : loop_inv b st -> loop_inv false (flush st).
Proof.
  intros [Hi Ha]. split; [|apply flush_snd].
  apply flush_Forall; [exact Hi|]. intros Ht.
  destruct b; [exact Ha|]. rewrite Ha in Ht. discriminate Ht.
Qed.

Lemma win_headed_named lines b st :
  win_headed b lines = true -> loop_inv b st ->
  Forall named (finish (fold_left win_step lines st)).
Proof.
  revert b st. induction lines as [|l ls IH]; intros b st H Hinv; simpl in *.
  - unfold finish. now apply (loop_inv_flush b st).
  - unfold win_step at 2.
    destruct (is_empty (strip l)).
    { apply (IH false); [exact H|]. now apply (loop_inv_flush b). }
    destruct (is_header l).
    { apply (IH true); [exact H|]. split; [|reflexivity].
      now apply (loop_inv_flush b st). }
    apply andb_prop in H as [Hn H]. apply (IH b); [exact H|].
    destruct Hinv as [Hi Ha]. split; [exact Hi|]. simpl.
    destruct b.
    + unfold named. now rewrite win_field_name.
    + rewrite Ha. simpl in Hn. apply negb_true_iff in Hn. now apply not_truthy.
Qed.

Lemma bsd_headed_named lines b st :
  bsd_headed b lines = true -> loop_inv b st ->
  Forall named (finish (fold_left bsd_step lines st)).
Proof.
  revert b st. induction lines as [|l ls IH]; intros b st H Hinv; simpl in *.
  - unfold finish. now apply (loop_inv_flush b st).
  - unfold bsd_step at 2.
    destruct (negb (startswith tab l)); apply andb_prop in H.
    + destruct H as [Hn H]. apply (IH _ _ H).
      pose proof (loop_inv_flush b st Hinv) as [Hi Ha].
      destruct (flush st) as [interfaces adapter]. simpl in *. subst adapter.
      split; [exact Hi|]. simpl.
      destruct (m_name l) as [n|]; simpl in *.
      * unfold named. now rewrite on_match_name.
      * apply negb_true_iff in Hn. now destruct (search m_ether l).
    + destruct H as [Hn H]. apply (IH _ _ H).
      destruct Hinv as [Hi Ha]. split; [exact Hi|]. simpl.
      destruct b.
      * unfold named. now rewrite !on_match_name.
      * simpl in Hn. apply negb_true_iff in Hn.
        apply orb_false_iff in Hn as [Hn H3]. apply orb_false_iff in Hn as [H1 H2].
        destruct (search m_inet l); [discriminate|].
        destruct (search m_inet6 l); [discriminate|].
        destruct (search m_ether l); [discriminate|]. exact Ha.
Qed.

Lemma upsert_keyed i f m :
  (forall a, name (f a) = name a) -> keyed m -> keyed (upsert i f m).
Proof.
  intros Hf. unfold keyed. induction m as [|[k v] rest IH]; simpl; intros H.
  - constructor; [|constructor]. simpl. now rewrite Hf.
  - apply Forall_cons in H as [Hk Hr]. simpl in Hk.
    destruct (String.eqb k i).
    + constructor; [|exact Hr]. simpl. now rewrite Hf.
    + constructor; [exact Hk|auto].
Qed.

Lemma linux_step_keyed m line : keyed m -> keyed (linux_step m line).
Proof.
  intros H. unfold linux_step.
  destruct (split_ws line) as [|? [|i [|fam [|am ?]]]]; try exact H.
  apply upsert_keyed; [|exact H]. intros a. apply linux_update_name.
Qed.

Lemma linux_loop_keyed lines m : keyed m -> keyed (fold_left linux_step lines m).
Proof.
  revert m. induction lines as [|l ls IH]; intros m H; simpl; [exact H|].
  now apply IH, linux_step_keyed.
Qed.

Lemma linux_named lines : Forall named (parse_linux_lines lines).
Proof.
  unfold parse_linux_lines.
  pose proof (linux_loop_keyed lines [] (List.Forall_nil _)) as H.
  apply List.Forall_forall. intros r [[k v] [<- Hin]]%in_map_iff.
  unfold keyed in H. rewrite List.Forall_forall in H. specialize (H _ Hin).
  unfold named. simpl in *. now rewrite H.
Qed.

(** C2, amended: every interface returned has a name when every line that
    records a MAC or an address lies in an entry opened by a line that gives
    a name, which is always so for [ip -o addr show]. *)
Theorem headed_interfaces_named (w : World) (r : iface) :
  well_headed w = true -> In r (get_network_info w) -> has (name r) = true.
Proof.
  unfold well_headed, get_network_info, parse_ip_config_windows,
    parse_ip_config_posix.
  destruct (is_windows w).
  - intros H. destruct (is_empty _); [intros []|].
    pose proof (win_headed_named _ false ([], no_keys) H) as Hn.
    rewrite List.Forall_forall in Hn. apply Hn. split; [constructor|reflexivity].
  - destruct (is_linux w).
    + intros _. destruct (is_empty _); [intros []|].
      pose proof (linux_named (splitlines (run_command w "ip -o addr show"))) as Hn.
      rewrite List.Forall_forall in Hn. apply Hn.
    + intros H. destruct (is_empty _); [intros []|].
      pose proof (bsd_headed_named _ false ([], no_keys) H) as Hn.
      rewrite List.Forall_forall in Hn. apply Hn. split; [constructor|reflexivity].
Qed.

Lemma headed_interfaces_named_witness :
  has (name (adapter_of "Ethernet adapter Ethernet:" "00-15-5D-01-02-03"
               "192.168.1.20(Preferred)")) = true.
Proof.
  apply (headed_interfaces_named two_adapters); [vm_compute; reflexivity|].
  vm_compute. left. reflexivity.
Defined.

(** C2 as stated fails: a field line before any header (Windows) and an
    [ether] line indented with spaces (BSD) give an interface that carries a
    MAC and no name. *)
Lemma unnamed_interfaces :
  ~ (forall r, In r (get_network_info orphan_fields) ->
               carries_address r = true -> has (name r) = true)
  /\ ~ (forall r, In r (get_network_info spaces_ifconfig) ->
                  carries_address r = true -> has (name r) = true).
Proof.
  split; intros H.
  - specialize (H {| name := None; mac := Some "00-15-5D-01-02-03";
                     ipv4 := None; ipv6 := None |}).
    discriminate H; vm_compute; auto.
  - specialize (H {| name := None; mac := Some "00:15:5d:01:02:03";
                     ipv4 := None; ipv6 := None |}).
    discriminate H; vm_compute; auto.
Qed.

End NameFacts.

(** ** Network: which POSIX interfaces are reported *)

Section PosixFacts.

Import Py Re.

Lemma lists_name_app n rs1 rs2 :
  lists_name n (rs1 ++ rs2) <-> lists_name n rs1 \/ lists_name n rs2.
Proof.
  unfold lists_name. split.
  - intros (r & [H|H]%in_app_or & Hn); eauto.
  - intros [(r & H & Hn)|(r & H & Hn)]; exists r; split; auto using in_or_app.
Qed.

Lemma lists_name_finish n st :
  lists_name n (finish st) <-> lists_name n (fst st) \/ name (snd st) = Some n.
Proof.
  unfold finish. rewrite flush_fst, lists_name_app.
  destruct (truthy (snd st)) eqn:E.
  - split; (intros [H|H]; [now left|right]).
    + destruct H as (r & [<-|[]] & Hn). exact Hn.
    + exists (snd st). split; [now left|exact H].
  - rewrite (not_truthy _ E). split; (intros [H|H]; [now left|]).
    + now destruct H as (r & [] & _).
    + discriminate H.
Qed.

Lemma bsd_step_header st line :
  startswith tab line = false ->
  bsd_step st line =
  (finish st,
   on_match (search m_ether line) set_mac (on_match (m_name line) set_name no_keys)).
Proof.
  intros H. unfold bsd_step, finish. rewrite H. simpl.
  pose proof (flush_snd st) as Hs. destruct (flush st) as [i a]. simpl in *.
  now subst.
Qed.

Lemma bsd_step_indented st line :
  startswith tab line = true ->
  bsd_step st line =
  (fst st,
   on_match (search m_ether line) set_mac
     (on_match (search m_inet6 line) add_ipv6
        (on_match (search m_inet line) add_ipv4 (snd st)))).
Proof. intros H. unfold bsd_step. now rewrite H. Qed.

Lemma bsd_loop_names n lines st :
  lists_name n (finish (fold_left bsd_step lines st)) <->
  lists_name n (fst st) \/ name (snd st) = Some n
  \/ exists line, In line lines /\ startswith tab line = false /\ m_name line = Some n.
Proof.
  revert st. induction lines as [|l ls IH]; intros st; cbn [fold_left].
  - rewrite lists_name_finish. split; [intros [H|H]; auto|].
    intros [H|[H|(line & [] & _)]]; auto.
  - rewrite IH. destruct (startswith tab l) eqn:E.
    + rewrite (bsd_step_indented st l E). cbn [fst snd].
      rewrite !on_match_name by reflexivity. split.
      * intros [H|[H|(line & Hin & Hl)]]; auto.
        right. right. exists line. split; [now right|exact Hl].
      * intros [H|[H|(line & [<-|Hin] & Ht & Hl)]]; auto; [congruence|].
        right. right. eauto.
    + rewrite (bsd_step_header st l E). cbn [fst snd].
      rewrite lists_name_finish, on_match_name by reflexivity. split.
      * intros [[H|H]|[H|(line & Hin & Hl)]]; auto.
        -- right. right. exists l. split; [now left|]. split; [exact E|].
           destruct (m_name l); [exact H|discriminate H].
        -- right. right. exists line. split; [now right|exact Hl].
      * intros [H|[H|(line & [<-|Hin] & Ht & Hl)]]; auto.
        -- right. left. now rewrite Hl.
        -- right. right. eauto.
Qed.

Lemma bsd_loop_truthy lines st :
  Forall (fun r => truthy r = true) (fst st) ->
  Forall (fun r => truthy r = true) (finish (fold_left bsd_step lines st)).
Proof.
  revert st. induction lines as [|l ls IH]; intros st H; cbn [fold_left].
  - unfold finish. now apply flush_Forall.
  - apply IH. destruct (startswith tab l) eqn:E.
    + now rewrite (bsd_step_indented st l E).
    + rewrite (bsd_step_header st l E). unfold finish. now apply flush_Forall.
Qed.

Lemma upsert_keys i f m k :
  In k (map fst (upsert i f m)) <-> k = i \/ In k (map fst m).
Proof.
  induction m as [|[k0 v] rest IH]; simpl.
  - split; intros [H|H]; auto.
  - destruct (String.eqb k0 i) eqn:E; simpl.
    + apply String.eqb_eq in E. subst. intuition congruence.
    + rewrite IH. intuition congruence.
Qed.

Lemma linux_step_keys m line k :
  In k (map fst (linux_step m line)) <->
  In k (map fst m) \/ linux_ifname line = Some k.
Proof.
  unfold linux_step, linux_ifname.
  destruct (split_ws line) as [|? [|i [|fam [|am ?]]]];
    try (split; [now left|intros [H|H]; [exact H|discriminate H]]).
  rewrite upsert_keys. split; intros [H|H]; subst; auto.
  injection H as ->. now left.
Qed.

Lemma linux_loop_keys lines m k :
  In k (map fst (fold_left linux_step lines m)) <->
  In k (map fst m) \/ exists line, In line lines /\ linux_ifname line = Some k.
Proof.
  revert m. induction lines as [|l ls IH]; intros m; cbn [fold_left].
  - split; [now left|]. intros [H|(line & [] & _)]. exact H.
  - rewrite IH, linux_step_keys. split.
    + intros [[H|H]|(line & Hin & Hl)]; auto.
      * right. exists l. split; [now left|exact H].
      * right. exists line. split; [now right|exact Hl].
    + intros [H|(line & [<-|Hin] & Hl)]; auto. right. eauto.
Qed.

Lemma keyed_names n m :
  keyed m -> lists_name n (map snd m) <-> In n (map fst m).
Proof.
  unfold keyed, lists_name. rewrite List.Forall_forall. intros Hk. split.
  - intros (r & [[k v] [<- Hin]]%in_map_iff & Hn).
    specialize (Hk _ Hin). simpl in *. rewrite Hk in Hn. injection Hn as <-.
    apply in_map_iff. exists (k, v). auto.
  - intros [[k v] [<- Hin]]%in_map_iff. exists v. split.
    + apply in_map_iff. exists (k, v). auto.
    + apply (Hk _ Hin).
Qed.

Lemma posix_lines_empty (w : World) cmd :
  is_empty (run_command w cmd) = true -> splitlines (run_command w cmd) = [].
Proof. intros H%is_empty_true. now rewrite H. Qed.

(** C3, amended: a POSIX interface is reported exactly when a line
    introduces its name (for [ip -o addr show] the second of at least four
    fields, whatever the family; for [ifconfig] an unindented line starting
    with the name and a colon), and every reported entry has a key: an entry
    with a name and neither MAC nor address is kept. *)
Theorem posix_entries_kept (w : World) (n : string) :
  (lists_name n (parse_ip_config_posix w) <->
   exists line, In line (posix_lines w) /\ introduced w line = Some n)
  /\ Forall (fun r => truthy r = true) (parse_ip_config_posix w).
Proof.
  unfold parse_ip_config_posix, posix_lines, introduced.
  destruct (is_linux w).
  - destruct (is_empty (run_command w "ip -o addr show")) eqn:E.
    { rewrite (posix_lines_empty w _ E). split; [|constructor].
      split; [intros (r & [] & _)|intros (line & [] & _)]. }
    split.
    + unfold parse_linux_lines.
      rewrite keyed_names by apply linux_loop_keyed, List.Forall_nil.
      rewrite linux_loop_keys. simpl. tauto.
    + eapply Forall_impl; [apply linux_named|]. intros r. apply named_truthy.
  - destruct (is_empty (run_command w "ifconfig -a")) eqn:E.
    { rewrite (posix_lines_empty w _ E). split; [|constructor].
      split; [intros (r & [] & _)|intros (line & [] & _)]. }
    split.
    + unfold parse_bsd_lines. rewrite bsd_loop_names. simpl. split.
      * intros [(r & [] & _)|[H|(line & Hin & Ht & Hn)]]; [discriminate H|].
        exists line. now rewrite Ht.
      * intros (line & Hin & Hn). right. right. exists line.
        destruct (startswith tab line); [discriminate Hn|auto].
    + apply bsd_loop_truthy. constructor.
Qed.

(** C3 as stated fails: a name seen only with an unknown family (Linux) and
    an entry with neither MAC nor address (BSD) are both reported. *)
Lemma bare_entries_reported :
  In {| name := Some "tun0"; mac := None; ipv4 := None; ipv6 := None |}
     (parse_ip_config_posix unknown_family)
  /\ In {| name := Some "gif0"; mac := None; ipv4 := None; ipv6 := None |}
        (parse_ip_config_posix bare_gif).
Proof. split; vm_compute; auto. Qed.

End PosixFacts.

(** ** Network: which MAC is recorded *)

Section MacFacts.

Import Py Re.

Lemma upsert_nodup i f m :
  List.NoDup (map fst m) -> List.NoDup (map fst (upsert i f m)).
Proof.
  induction m as [|[k0 v0] rest IH]; simpl; intros H.
  - constructor; [intros []|constructor].
  - apply List.NoDup_cons_iff in H as [Hk Hr].
    destruct (String.eqb k0 i) eqn:E; simpl.
    + apply List.NoDup_cons_iff. auto.
    + apply List.NoDup_cons_iff. split; [|auto].
      rewrite upsert_keys. intros [->|H]; [|auto].
      now rewrite String.eqb_refl in E.
Qed.

Lemma upsert_in i f m k v :
  List.NoDup (map fst m) -> In (k, v) (upsert i f m) ->
  (k <> i /\ In (k, v) m)
  \/ (k = i /\ exists v0, v = f v0
        /\ (In (i, v0) m \/ (~ In i (map fst m) /\ v0 = set_name i no_keys))).
Proof.
  induction m as [|[k0 v0] rest IH]; simpl; intros Hnd Hin.
  - destruct Hin as [[= <- <-]|[]]. right. split; [reflexivity|].
    exists (set_name i no_keys). auto.
  - apply List.NoDup_cons_iff in Hnd as [Hk Hr].
    destruct (String.eqb k0 i) eqn:E.
    + apply String.eqb_eq in E. subst k0. destruct Hin as [[= <- <-]|Hin].
      * right. split; [reflexivity|]. exists v0. auto.
      * left. split; [|now right]. intros ->. apply Hk.
        apply in_map_iff. exists (i, v). auto.
    + apply String.eqb_neq in E. destruct Hin as [[= <- <-]|Hin].
      * left. auto.
      * destruct (IH Hr Hin) as [[Hne H]|(-> & v1 & -> & [H|[H ->]])].
        -- left. auto.
        -- right. split; [reflexivity|]. exists v1. split; [reflexivity|].
           left. now right.
        -- right. split; [reflexivity|]. exists (set_name i no_keys).
           split; [reflexivity|]. right. split; [|reflexivity].
           intros [H'|H']; [now apply E|now apply H].
Qed.

Lemma link_macs_snoc n lines l :
  link_macs n (lines ++ [l]) =
  link_macs n lines ++ match link_mac_of n l with Some x => [x] | None => [] end.
Proof.
  unfold link_macs. rewrite omap_app. f_equal.
Qed.

Lemma linux_inv_step lines m l :
  linux_inv lines m -> linux_inv (lines ++ [l]) (linux_step m l).
Proof.
  intros (Hnd & Hin & Hout).
  assert (forall k, link_mac_of k l = None -> link_macs k (lines ++ [l]) = link_macs k lines)
    as Hsame.
  { intros k Hk. now rewrite link_macs_snoc, Hk, app_nil_r. }
  unfold linux_step.
  destruct (split_ws l) as [|p0 [|i [|fam [|am ps]]]] eqn:Es;
    try (split; [exact Hnd|split;
           [intros k v Hkv; rewrite Hsame by (unfold link_mac_of; now rewrite Es); auto
           |intros k Hk; rewrite Hsame by (unfold link_mac_of; now rewrite Es); auto]]).
  assert (forall k, link_mac_of k l =
            if String.eqb i k && String.eqb fam "link" then search m_link_mac l else None)
    as Hl.
  { intros k. unfold link_mac_of. now rewrite Es. }
  split; [now apply upsert_nodup|]. split.
  - intros k v Hkv.
    apply upsert_in in Hkv as [[Hne H]|(-> & v0 & -> & H)]; [| |exact Hnd].
    + rewrite Hsame; [auto|]. rewrite Hl.
      assert (String.eqb i k = false) as -> by (apply String.eqb_neq; congruence).
      reflexivity.
    + assert (name v0 = Some i /\ mac v0 = last (link_macs i lines)) as [Hn Hm].
      { destruct H as [H|[H ->]]; [auto|]. split; [reflexivity|].
        now rewrite (Hout i H). }
      rewrite linux_update_name. split; [exact Hn|].
      rewrite link_macs_snoc, Hl, String.eqb_refl. unfold linux_update. simpl.
      destruct (String.eqb fam "link").
      * destruct (search m_link_mac l) as [x|]; simpl.
        -- now rewrite last_snoc.
        -- now rewrite app_nil_r.
      * rewrite app_nil_r.
        repeat match goal with |- context [if ?b then _ else _] => destruct b end;
          exact Hm.
  - intros k Hk. rewrite upsert_keys in Hk.
    rewrite Hsame; [apply Hout; tauto|]. rewrite Hl.
    assert (String.eqb i k = false) as ->; [|reflexivity].
    apply String.eqb_neq. intros ->. tauto.
Qed.

Lemma linux_inv_loop lines : linux_inv lines (fold_left linux_step lines []).
Proof.
  induction lines as [|l ls IH] using rev_ind.
  - split; [constructor|]. split; [intros k v []|reflexivity].
  - rewrite fold_left_app. cbn [fold_left]. now apply linux_inv_step.
Qed.

Lemma bsd_loop_prefix lines interfaces a :
  fold_left bsd_step lines (interfaces, a) =
  (interfaces ++ fst (fold_left bsd_step lines ([], a)),
   snd (fold_left bsd_step lines ([], a))).
Proof.
  revert interfaces a. induction lines as [|l ls IH]; intros interfaces a;
    cbn [fold_left].
  - simpl. now rewrite app_nil_r.
  - destruct (startswith tab l) eqn:E.
    + rewrite !(bsd_step_indented _ l E). cbn [fst snd]. apply IH.
    + rewrite !(bsd_step_header _ l E). unfold finish. rewrite !flush_fst.
      cbn [fst snd app].
      rewrite IH. rewrite (IH (if truthy a then [a] else [])).
      cbn [fst snd]. now rewrite app_assoc.
Qed.

Lemma finish_app interfaces rest a :
  finish (interfaces ++ rest, a) = interfaces ++ finish (rest, a).
Proof. unfold finish. rewrite !flush_fst. simpl. now rewrite app_assoc. Qed.

Lemma on_match_mac (o : option string) f (a : iface) :
  (forall x b, mac (f x b) = mac b) -> mac (on_match o f a) = mac a.
Proof. intros H. destruct o; simpl; [apply H|reflexivity]. Qed.

Lemma ether_mac line a :
  mac (on_match (search m_ether line) set_mac a) =
  match search m_ether line with Some x => Some x | None => mac a end.
Proof. now destruct (search m_ether line). Qed.

Lemma ethers_cons line lines :
  last (ethers (line :: lines)) =
  match last (ethers lines) with
  | Some x => Some x
  | None => search m_ether line
  end.
Proof.
  unfold ethers. cbn. destruct (search m_ether line) as [x|]; cbn.
  - apply last_cons.
  - now destruct (last (omap (search m_ether) lines)).
Qed.

(** the lines of one entry after its first line *)
Lemma bsd_body body interfaces a :
  Forall (fun l => startswith tab l = true) body ->
  exists a', fold_left bsd_step body (interfaces, a) = (interfaces, a')
             /\ name a' = name a
             /\ mac a' = match last (ethers body) with
                         | Some x => Some x
                         | None => mac a
                         end.
Proof.
  intros H. revert a. induction H as [|l ls Hl _ IH]; intros a; cbn [fold_left].
  - exists a. auto.
  - rewrite (bsd_step_indented _ l Hl). cbn [fst snd].
    destruct (IH (on_match (search m_ether l) set_mac
                    (on_match (search m_inet6 l) add_ipv6
                       (on_match (search m_inet l) add_ipv4 a)))) as (a' & -> & Hn & Hm).
    exists a'. split; [reflexivity|]. split.
    + now rewrite Hn, !on_match_name.
    + rewrite Hm, ethers_cons, ether_mac, !on_match_mac by reflexivity.
      destruct (last (ethers ls)); [reflexivity|].
      now destruct (search m_ether l).
Qed.

(** C4, amended: in both POSIX variants the MAC recorded for an interface is
    the last one read for it: for [ip -o addr show] the MAC of the last
    [link] line of that interface that carries one, for [ifconfig] the last
    [ether] of the lines of the entry. *)
Theorem last_mac_recorded (w : World) :
  (is_linux w = true ->
   forall r n, In r (parse_ip_config_posix w) -> name r = Some n ->
               mac r = last (link_macs n (posix_lines w)))
  /\ (is_linux w = false ->
      forall pre header body post n,
        startswith tab header = false -> m_name header = Some n ->
        Forall (fun l => startswith tab l = true) body ->
        match post with [] => True | l :: _ => startswith tab l = false end ->
        posix_lines w = pre ++ header :: body ++ post ->
        exists r rest,
          parse_ip_config_posix w = parse_bsd_lines pre ++ r :: rest
          /\ name r = Some n /\ mac r = last (ethers (header :: body))).
Proof.
  unfold parse_ip_config_posix, posix_lines. split; intros Hl; rewrite Hl.
  - intros r n Hin Hn.
    destruct (is_empty _); [destruct Hin|].
    unfold parse_linux_lines in Hin.
    apply in_map_iff in Hin as ([k v] & <- & Hin).
    destruct (linux_inv_loop (splitlines (run_command w "ip -o addr show")))
      as (_ & Hinv & _).
    destruct (Hinv k v Hin) as [Hk Hm]. simpl in *.
    rewrite Hk in Hn. injection Hn as ->. exact Hm.
  - intros pre header body post n Hh Hn Hb Hp Hlines.
    assert (is_empty (run_command w "ifconfig -a") = false) as ->.
    { destruct (run_command w "ifconfig -a"); [|reflexivity].
      now destruct pre. }
    rewrite Hlines. unfold parse_bsd_lines.
    rewrite fold_left_app. cbn [fold_left].
    rewrite (bsd_step_header _ header Hh), fold_left_app.
    set (ah := on_match (search m_ether header) set_mac
                 (on_match (m_name header) set_name no_keys)).
    destruct (bsd_body body (finish (fold_left bsd_step pre ([], no_keys))) ah Hb)
      as (r & -> & Hname & Hmac).
    assert (name r = Some n) as Hrn.
    { rewrite Hname. unfold ah. rewrite on_match_name by reflexivity.
      now rewrite Hn. }
    assert (truthy r = true) as Hrt by (apply named_truthy; unfold named; now rewrite Hrn).
    assert (mac r = last (ethers (header :: body))) as Hrm.
    { rewrite Hmac, ethers_cons. unfold ah. rewrite ether_mac, Hn. simpl.
      now destruct (search m_ether header). }
    exists r. destruct post as [|p ps]; cbn [fold_left].
    + exists []. split; [|auto]. unfold finish at 1. rewrite flush_fst.
      cbn [fst snd]. now rewrite Hrt.
    + rewrite (bsd_step_header _ p Hp), bsd_loop_prefix, finish_app.
      unfold finish at 1. rewrite flush_fst. cbn [fst snd]. rewrite Hrt.
      rewrite <- app_assoc. cbn [app]. eauto.
Qed.

Lemma last_mac_recorded_witness :
  mac {| name := Some "eth0"; mac := Some "00:15:5d:0a:0b:0c";
         ipv4 := None; ipv6 := None |}
    = last (link_macs "eth0" (posix_lines two_link_lines))
  /\ exists r rest,
       parse_ip_config_posix two_ethers = parse_bsd_lines [] ++ r :: rest
       /\ name r = Some "en0"
       /\ mac r = last (ethers
           ["en0: flags=8863<UP,BROADCAST,SMART,RUNNING,SIMPLEX,MULTICAST> mtu 1500";
            (tab ++ "ether 00:15:5d:01:02:03")%string;
            (tab ++ "inet 192.168.1.20 netmask 0xffffff00 broadcast 192.168.1.255")%string;
            (tab ++ "ether 00:15:5d:0a:0b:0c")%string]).
Proof.
  split.
  - apply (proj1 (last_mac_recorded two_link_lines)); [reflexivity| |reflexivity].
    vm_compute. left. reflexivity.
  - apply (proj2 (last_mac_recorded two_ethers) eq_refl [] _ _ [] "en0");
      try (vm_compute; reflexivity).
    repeat constructor.
Defined.

(** C4 as stated fails for Linux: of two [link] lines of one interface, the
    MAC of the second is the one recorded. *)
Lemma linux_first_mac_lost :
  parse_ip_config_posix two_link_lines =
    [{| name := Some "eth0"; mac := Some "00:15:5d:0a:0b:0c";
        ipv4 := None; ipv6 := None |}]
  /\ link_macs "eth0" (posix_lines two_link_lines) =
       ["00:15:5d:01:02:03"; "00:15:5d:0a:0b:0c"].
Proof. split; vm_compute; reflexivity. Qed.

End MacFacts.

(** * Further properties *)

(** ** Network: what every record holds *)

Section RecordFacts.

Import Py Re.

Lemma lists_filled_add_ipv4 ip a : lists_filled a -> lists_filled (add_ipv4 ip a).
Proof.
  intros [H4 H6]. split; [|exact H6]. simpl. intros [= H].
  now destruct (default [] (ipv4 a)).
Qed.

Lemma lists_filled_add_ipv6 ip a : lists_filled a -> lists_filled (add_ipv6 ip a).
Proof.
  intros [H4 H6]. split; [exact H4|]. simpl. intros [= H].
  now destruct (default [] (ipv6 a)).
Qed.

Lemma lists_filled_setdefault_mac m a : lists_filled a -> lists_filled (setdefault_mac m a).
Proof. unfold setdefault_mac. now destruct (mac a). Qed.

Lemma lists_filled_win_field line a : lists_filled a -> lists_filled (win_field line a).
Proof.
  intros H. unfold win_field. destruct (split1 ":" line) as [k [v|]]; [|exact H].
  repeat match goal with |- context [if ?b then _ else _] => destruct b end;
    auto using lists_filled_setdefault_mac, lists_filled_add_ipv4, lists_filled_add_ipv6.
Qed.

Lemma lists_filled_linux_update family ip line a :
  lists_filled a -> lists_filled (linux_update family ip line a).
Proof.
  intros H. unfold linux_update.
  repeat match goal with |- context [if ?b then _ else _] => destruct b end;
    auto using lists_filled_add_ipv4, lists_filled_add_ipv6.
  now destruct (search m_link_mac line).
Qed.

Lemma lists_filled_on_match o f a :
  (forall x b, lists_filled b -> lists_filled (f x b)) ->
  lists_filled a -> lists_filled (on_match o f a).
Proof. intros Hf H. destruct o; simpl; auto. Qed.

Lemma lists_filled_no_keys : lists_filled no_keys.
Proof. split; discriminate. Qed.

Lemma flushed_inv_flush Q st :
  Q no_keys -> flushed_inv Q st -> flushed_inv Q (flush st).
Proof.
  intros H0 [Hi Ha]. split; [|now rewrite flush_snd].
  rewrite flush_fst. apply Forall_app. split; [exact Hi|].
  destruct (truthy (snd st)) eqn:E; [|constructor].
  constructor; [auto|constructor].
Qed.

Lemma flushed_inv_finish Q st :
  Q no_keys -> flushed_inv Q st ->
  Forall (fun r => truthy r = true /\ Q r) (finish st).
Proof. intros H0 H. now destruct (flushed_inv_flush Q st H0 H). Qed.

Lemma win_loop_flushed Q lines st :
  Q no_keys -> (forall n, Q (set_name n no_keys)) ->
  (forall line a, Q a -> Q (win_field line a)) ->
  flushed_inv Q st ->
  Forall (fun r => truthy r = true /\ Q r) (finish (fold_left win_step lines st)).
Proof.
  intros H0 Hn Hf. revert st.
  induction lines as [|l ls IH]; intros st H; cbn [fold_left].
  - now apply flushed_inv_finish.
  - apply IH. unfold win_step.
    destruct (is_empty (strip l)); [now apply flushed_inv_flush|].
    destruct (is_header l).
    + destruct (flushed_inv_flush Q st H0 H) as [Hi _]. split; [exact Hi|apply Hn].
    + destruct H as [Hi Ha]. split; [exact Hi|]. now apply Hf.
Qed.

Lemma bsd_loop_flushed Q lines st :
  Q no_keys ->
  (forall n a, Q a -> Q (set_name n a)) -> (forall m a, Q a -> Q (set_mac m a)) ->
  (forall ip a, Q a -> Q (add_ipv4 ip a)) -> (forall ip a, Q a -> Q (add_ipv6 ip a)) ->
  flushed_inv Q st ->
  Forall (fun r => truthy r = true /\ Q r) (finish (fold_left bsd_step lines st)).
Proof.
  intros H0 Hn Hm H4 H6. revert st.
  assert (forall o f a, (forall x b, Q b -> Q (f x b)) -> Q a -> Q (on_match o f a)) as Hon.
  { intros [x|] f a Hf Ha; simpl; auto. }
  induction lines as [|l ls IH]; intros st H; cbn [fold_left].
  - now apply flushed_inv_finish.
  - apply IH. destruct (startswith tab l) eqn:E.
    + rewrite (bsd_step_indented st l E). destruct H as [Hi Ha].
      split; [exact Hi|]. cbn [snd]. auto.
    + rewrite (bsd_step_header st l E).
      destruct (flushed_inv_flush Q st H0 H) as [Hi _]. split; [exact Hi|].
      cbn [snd]. auto.
Qed.

Lemma linux_loop_Forall (Q : iface -> Prop) lines m :
  (forall n, Q (set_name n no_keys)) ->
  (forall family ip line a, Q a -> Q (linux_update family ip line a)) ->
  Forall (fun kv => Q (snd kv)) m ->
  Forall (fun kv => Q (snd kv)) (fold_left linux_step lines m).
Proof.
  intros Hn Hu. revert m. induction lines as [|l ls IH]; intros m H; cbn [fold_left];
    [exact H|].
  apply IH. unfold linux_step.
  destruct (split_ws l) as [|? [|i [|fam [|am ?]]]]; try exact H.
  clear IH. induction H as [|[k v] rest Hk Hrest IHr]; simpl.
  - constructor; [|constructor]. simpl. auto.
  - destruct (String.eqb k i); constructor; simpl in *; auto.
Qed.

(** X1: every interface returned by the Windows parser has at least one key:
    an accumulator without any key is never appended. *)
Theorem windows_interfaces_have_key (w : World) :
  Forall (fun r => truthy r = true) (parse_ip_config_windows w).
Proof.
  unfold parse_ip_config_windows. destruct (is_empty _); [constructor|].
  apply (List.Forall_impl (P := fun r => truthy r = true /\ True));
    [intros r [H _]; exact H|].
  apply (win_loop_flushed (fun _ => True)); easy.
Qed.

(** X2: on every platform, an address list that is present in a returned
    interface holds at least one address. *)
Theorem address_lists_filled (w : World) :
  Forall lists_filled (get_network_info w).
Proof.
  unfold get_network_info, parse_ip_config_windows, parse_ip_config_posix.
  destruct (is_windows w).
  - destruct (is_empty _); [constructor|].
    apply (List.Forall_impl (P := fun r => truthy r = true /\ lists_filled r));
      [intros r [_ H]; exact H|].
    apply (win_loop_flushed lists_filled).
    + apply lists_filled_no_keys.
    + intros n. split; discriminate.
    + apply lists_filled_win_field.
    + split; [constructor|apply lists_filled_no_keys].
  - destruct (is_linux w); (destruct (is_empty _); [constructor|]).
    + unfold parse_linux_lines. apply List.Forall_map.
      apply linux_loop_Forall; [| |constructor].
      * intros n. split; discriminate.
      * intros family ip line a. apply lists_filled_linux_update.
    + apply (List.Forall_impl (P := fun r => truthy r = true /\ lists_filled r));
        [intros r [_ H]; exact H|].
      apply (bsd_loop_flushed lists_filled).
      * apply lists_filled_no_keys.
      * now intros n a [H4 H6].
      * now intros m a [H4 H6].
      * apply lists_filled_add_ipv4.
      * apply lists_filled_add_ipv6.
      * split; [constructor|apply lists_filled_no_keys].
Qed.

End RecordFacts.

(** ** Network: the dictionary of the Linux parser *)

Section LinuxFacts.

Import Py Re.

Lemma inet_addrs_snoc fam n lines l :
  inet_addrs fam n (lines ++ [l]) =
  inet_addrs fam n lines ++ match inet_addr_of fam n l with Some x => [x] | None => [] end.
Proof. unfold inet_addrs. rewrite omap_app. f_equal. Qed.

Lemma listed_snoc l x : Some (default [] (listed l) ++ [x]) = listed (l ++ [x]).
Proof. destruct l as [|y l]; reflexivity. Qed.

Lemma linux_addr_inv_step lines m l :
  linux_addr_inv lines m -> linux_addr_inv (lines ++ [l]) (linux_step m l).
Proof.
  intros (Hnd & Hin & Hout).
  assert (forall fam k, inet_addr_of fam k l = None ->
            inet_addrs fam k (lines ++ [l]) = inet_addrs fam k lines) as Hsame.
  { intros fam k Hk. now rewrite inet_addrs_snoc, Hk, app_nil_r. }
  unfold linux_step.
  destruct (split_ws l) as [|p0 [|i [|fam [|am ps]]]] eqn:Es;
    try (split; [exact Hnd|split;
           [intros k v Hkv; rewrite !Hsame by (unfold inet_addr_of; now rewrite Es); auto
           |intros k Hk; rewrite !Hsame by (unfold inet_addr_of; now rewrite Es); auto]]).
  assert (forall f k, inet_addr_of f k l =
            if String.eqb i k && String.eqb fam f then Some (before "/" am) else None)
    as Hl.
  { intros f k. unfold inet_addr_of. now rewrite Es. }
  assert (forall f k, k <> i -> inet_addr_of f k l = None) as Hother.
  { intros f k Hne. rewrite Hl.
    assert (String.eqb i k = false) as -> by (apply String.eqb_neq; congruence).
    reflexivity. }
  split; [now apply upsert_nodup|]. split.
  - intros k v Hkv.
    apply upsert_in in Hkv as [[Hne H]|(-> & v0 & -> & H)]; [| |exact Hnd].
    + rewrite !Hsame by now apply Hother. auto.
    + assert (name v0 = Some i
              /\ ipv4 v0 = listed (inet_addrs "inet" i lines)
              /\ ipv6 v0 = listed (inet_addrs "inet6" i lines)) as (Hn & H4 & H6).
      { destruct H as [H|[H ->]]; [auto|]. destruct (Hout i H) as [-> ->]. auto. }
      rewrite linux_update_name. split; [exact Hn|].
      rewrite !inet_addrs_snoc, !Hl, String.eqb_refl. unfold linux_update. simpl.
      destruct (String.eqb_spec fam "link") as [->|Hlink].
      { simpl. rewrite !app_nil_r. now destruct (search m_link_mac l). }
      destruct (String.eqb_spec fam "inet") as [->|Hinet].
      { simpl. rewrite app_nil_r, H4. split; [apply listed_snoc|exact H6]. }
      destruct (String.eqb_spec fam "inet6") as [->|Hinet6].
      { simpl. rewrite app_nil_r, H6. split; [exact H4|apply listed_snoc]. }
      rewrite !app_nil_r. auto.
  - intros k Hk. rewrite upsert_keys in Hk.
    rewrite !Hsame by (apply Hother; tauto). apply Hout. tauto.
Qed.

Lemma linux_addr_inv_loop lines : linux_addr_inv lines (fold_left linux_step lines []).
Proof.
  induction lines as [|l ls IH] using rev_ind.
  - split; [constructor|]. split; [intros k v []|auto].
  - rewrite fold_left_app. cbn [fold_left]. now apply linux_addr_inv_step.
Qed.

Lemma linux_names_keys lines :
  map name (parse_linux_lines lines) =
  map Some (map fst (fold_left linux_step lines [])).
Proof.
  unfold parse_linux_lines. rewrite !map_map. apply map_ext_in.
  intros [k v] Hin. simpl.
  pose proof (linux_loop_keyed lines [] (List.Forall_nil _)) as H.
  unfold keyed in H. rewrite List.Forall_forall in H. apply (H _ Hin).
Qed.

Lemma NoDup_map_Some (l : list string) : List.NoDup l -> List.NoDup (map Some l).
Proof.
  induction 1 as [|x l Hx _ IH]; simpl; constructor; [|exact IH].
  intros (y & [= ->] & Hy)%in_map_iff. now apply Hx.
Qed.

(** X3: the Linux parser returns one record per interface name: the names
    of the returned interfaces are pairwise distinct, however many lines
    mention an interface. *)
Theorem linux_names_distinct (w : World) :
  is_linux w = true -> List.NoDup (map name (parse_ip_config_posix w)).
Proof.
  intros Hl. unfold parse_ip_config_posix. rewrite Hl.
  destruct (is_empty _); [constructor|].
  rewrite linux_names_keys. apply NoDup_map_Some.
  apply (linux_inv_loop (splitlines (run_command w "ip -o addr show"))).
Qed.

Lemma linux_names_distinct_witness :
  List.NoDup (map name (parse_ip_config_posix two_interfaces)).
Proof. apply linux_names_distinct. reflexivity. Defined.

(** X4: for the Linux parser, the IPv4 list of an interface holds, in the
    order of the lines, the address (the part of the fourth field before the
    slash) of every [inet] line of that interface, and likewise the IPv6 list
    for the [inet6] lines; a list is missing exactly when there is no such
    line. *)
Theorem linux_addresses_collected (w : World) (r : iface) (n : string) :
  is_linux w = true -> In r (parse_ip_config_posix w) -> name r = Some n ->
  ipv4 r = listed (inet_addrs "inet" n (posix_lines w))
  /\ ipv6 r = listed (inet_addrs "inet6" n (posix_lines w)).
Proof.
  unfold parse_ip_config_posix, posix_lines. intros Hl. rewrite Hl. intros Hin Hn.
  destruct (is_empty _); [destruct Hin|].
  unfold parse_linux_lines in Hin.
  apply in_map_iff in Hin as ([k v] & <- & Hin).
  destruct (linux_addr_inv_loop (splitlines (run_command w "ip -o addr show")))
    as (_ & Hinv & _).
  destruct (Hinv k v Hin) as (Hk & H4 & H6). simpl in *.
  rewrite Hk in Hn. injection Hn as ->. auto.
Qed.

Lemma linux_addresses_collected_witness :
  ipv4 {| name := Some "eth0"; mac := None;
          ipv4 := Some ["192.168.1.20"; "192.168.1.21"];
          ipv6 := Some ["fe80::215:5dff:fe01:203"] |}
    = listed (inet_addrs "inet" "eth0" (posix_lines two_interfaces))
  /\ ipv6 {| name := Some "eth0"; mac := None;
             ipv4 := Some ["192.168.1.20"; "192.168.1.21"];
             ipv6 := Some ["fe80::215:5dff:fe01:203"] |}
    = listed (inet_addrs "inet6" "eth0" (posix_lines two_interfaces)).
Proof.
  apply (linux_addresses_collected two_interfaces); [reflexivity| |reflexivity].
  vm_compute. right. left. reflexivity.
Defined.

End LinuxFacts.

(** ** Hardware: memory *)

Section MemoryMoreFacts.

Import Py Re.

Lemma linux_only (w : World) : is_linux w = true -> is_windows w = false.
Proof.
  unfold is_linux, is_windows. intros H%String.eqb_eq. now rewrite H.
Qed.

Lemma contains_cons c a r :
  contains (String c EmptyString) (String a r) =
  Ascii.eqb a c || contains (String c EmptyString) r.
Proof.
  simpl. destruct (ascii_dec c a) as [->|Hne].
  - rewrite Ascii.eqb_refl. now destruct r.
  - assert (Ascii.eqb a c = false) as -> by (apply Ascii.eqb_neq; congruence).
    reflexivity.
Qed.

Lemma contains_split1 c s :
  contains (String c EmptyString) s = true -> exists v, snd (split1 c s) = Some v.
Proof.
  induction s as [|a r IH]; [discriminate|].
  rewrite contains_cons. cbn [split1]. destruct (Ascii.eqb a c); simpl.
  - eauto.
  - intros H. destruct (IH H) as [v Hv]. exists v.
    now destruct (split1 c r).
Qed.

Lemma contains_lstrip_by p c s :
  p c = false -> contains (String c EmptyString) s = true ->
  contains (String c EmptyString) (lstrip_by p s) = true.
Proof.
  intros Hp. induction s as [|a r IH]; [discriminate|].
  intros H. cbn [lstrip_by]. destruct (p a) eqn:Ea; [|exact H].
  apply IH. rewrite contains_cons in H.
  destruct (Ascii.eqb_spec a c) as [->|_]; [congruence|exact H].
Qed.

Lemma contains_rstrip_by p c s :
  p c = false -> contains (String c EmptyString) s = true ->
  contains (String c EmptyString) (rstrip_by p s) = true.
Proof.
  intros Hp. induction s as [|a r IH]; [discriminate|].
  rewrite contains_cons. intros H. cbn [rstrip_by].
  destruct (Ascii.eqb_spec a c) as [->|Hne].
  - rewrite Hp. simpl negb. cbn [andb]. rewrite contains_cons, Ascii.eqb_refl.
    reflexivity.
  - simpl in H. specialize (IH H).
    destruct (rstrip_by p r) as [|b r'] eqn:Er; [discriminate IH|].
    rewrite andb_false_r. rewrite contains_cons, IH. apply orb_true_r.
Qed.

Lemma contains_strip c s :
  is_space c = false -> contains (String c EmptyString) s = true ->
  contains (String c EmptyString) (strip s) = true.
Proof.
  intros Hc H. apply contains_rstrip_by, contains_lstrip_by; assumption.
Qed.

Lemma fold_res_inv {S} (Q : S -> Prop) (f : S -> string -> res S) lines st :
  (forall st line, Q st -> exists st', f st line = Ok st' /\ Q st') ->
  Q st -> exists r, fold_res f lines st = Ok r /\ Q r.
Proof.
  intros Hf. revert st. induction lines as [|l ls IH]; intros st H; simpl.
  - eauto.
  - destruct (Hf st l H) as (st' & -> & H'). simpl. now apply IH.
Qed.

Lemma kib_or_from_kib value old : from_kib old -> from_kib (kib_or value old).
Proof.
  unfold kib_or. intros H. destruct (int value) as [v|]; [|exact H].
  intros x [= <-]. apply Z.divide_factor_r.
Qed.

Lemma wmic_mem_step_ok m line :
  from_kib (total m) /\ from_kib (free m) ->
  exists m', wmic_mem_step m line = Ok m'
             /\ from_kib (total m') /\ from_kib (free m').
Proof.
  intros [Ht Hf]. unfold wmic_mem_step.
  destruct (contains "=" line) eqn:E; [|eauto].
  destruct (contains_split1 "=" (strip line)) as [v Hv].
  { now apply contains_strip. }
  destruct (split1 "=" (strip line)) as [key o]. simpl in Hv. subst o.
  repeat match goal with |- context [if ?b then _ else _] => destruct b end;
    eexists; (split; [reflexivity|]); simpl; auto using kib_or_from_kib.
Qed.

Lemma free_loop_raises lines e : free_loop lines = Raise e -> e = ValueError.
Proof.
  induction lines as [|l ls IH]; simpl; [discriminate|].
  destruct (startswith "Mem:" l); [|exact IH].
  destruct (split_ws l) as [|? [|p1 [|? [|p3 ?]]]]; try discriminate.
  destruct (int p1); simpl; [|now intros [= <-]].
  destruct (int p3); simpl; [discriminate|now intros [= <-]].
Qed.

Lemma free_loop_both lines m :
  free_loop lines = Ok m -> has (total m) = has (free m).
Proof.
  induction lines as [|l ls IH]; simpl; [now intros [= <-]|].
  destruct (startswith "Mem:" l); [|exact IH].
  destruct (split_ws l) as [|? [|p1 [|? [|p3 ?]]]]; try now intros [= <-].
  destruct (int p1); simpl; [|discriminate].
  destruct (int p3); simpl; [now intros [= <-]|discriminate].
Qed.

Lemma meminfo_field_from_kib line v : meminfo_field line = Some v -> (1024 | v)%Z.
Proof.
  unfold meminfo_field. destruct (split_ws line !! 1%nat) as [x|]; [|discriminate].
  simpl. destruct (int x); simpl; [|discriminate].
  intros [= <-]. apply Z.divide_factor_r.
Qed.

Lemma meminfo_loop_from_kib lines m :
  from_kib (total m) /\ from_kib (free m) ->
  from_kib (total (meminfo_loop m lines)) /\ from_kib (free (meminfo_loop m lines)).
Proof.
  revert m. induction lines as [|l ls IH]; intros m H; cbn [meminfo_loop]; [exact H|].
  set (next := if startswith "MemTotal:" l then _ else _).
  assert (forall m', next = Some m' -> from_kib (total m') /\ from_kib (free m')) as Hn.
  { destruct H as [Ht Hf]. subst next. intros m'.
    destruct (startswith "MemTotal:" l); [|destruct (startswith "MemFree:" l)].
    - destruct (meminfo_field l) as [v|] eqn:E; simpl; [|discriminate].
      intros [= <-]. simpl. split; [|exact Hf].
      intros x [= <-]. now apply (meminfo_field_from_kib l).
    - destruct (meminfo_field l) as [v|] eqn:E; simpl; [|discriminate].
      intros [= <-]. simpl. split; [exact Ht|].
      intros x [= <-]. now apply (meminfo_field_from_kib l).
    - now intros [= <-]. }
  destruct next as [m'|]; [|exact H].
  specialize (Hn m' eq_refl).
  destruct (has (total m') && has (free m')); auto.
Qed.

Lemma digit_val_not_negative c v : digit_val c = Some v -> (0 <= v)%Z.
Proof.
  unfold digit_val. destruct (is_digit c); [intros [= <-]; lia|discriminate].
Qed.

Lemma int_digits_not_negative n :
  forall s acc v,
    (String.length s <= n)%nat -> (0 <= acc)%Z ->
    int_digits acc s = Some v -> (0 <= v)%Z.
Proof.
  induction n as [|n IH]; intros s acc v Hlen Hacc.
  - destruct s; [simpl; intros [= <-]; exact Hacc|simpl in Hlen; lia].
  - destruct s as [|c r]; [simpl; intros [= <-]; exact Hacc|].
    cbn [int_digits]. simpl in Hlen.
    destruct (Ascii.eqb c "_").
    + destruct r as [|d r']; [discriminate|].
      destruct (digit_val d) as [x|] eqn:E; [|discriminate].
      apply digit_val_not_negative in E. simpl in Hlen. apply IH; lia.
    + destruct (digit_val c) as [x|] eqn:E; [|discriminate].
      apply digit_val_not_negative in E. apply IH; lia.
Qed.

Lemma int_limited_not_negative s v : int_limited s = Some v -> (0 <= v)%Z.
Proof.
  unfold int_limited. destruct (N.leb _ _); [|discriminate].
  destruct s as [|c r]; [discriminate|]. simpl.
  destruct (digit_val c) as [x|] eqn:E; [|discriminate].
  apply digit_val_not_negative in E.
  apply (int_digits_not_negative (String.length r)); [lia|exact E].
Qed.

(** the value of a run of ASCII digits is not negative *)
Lemma int_run_not_negative s v :
  all_chars is_digit s = true -> s <> EmptyString ->
  int s = Some v -> (0 <= v)%Z.
Proof.
  intros Hd Hne. rewrite (int_run s Hd Hne). apply int_limited_not_negative.
Qed.

Lemma decode_ascii a r :
  is_ascii_char a = true -> decode (String a r) = byte a :: decode r.
Proof.
  destruct a as [[] [] [] [] [] [] [] []]; intros H; try reflexivity;
    vm_compute in H; discriminate H.
Qed.

Lemma unicode_digit_ascii a :
  is_ascii_char a = true -> unicode_digit (byte a) = true -> is_digit a = true.
Proof.
  destruct a as [[] [] [] [] [] [] [] []]; vm_compute; congruence.
Qed.

Lemma isdigit_ascii s :
  all_chars is_ascii_char s = true ->
  forallb unicode_digit (decode s) = true -> all_chars is_digit s = true.
Proof.
  induction s as [|a r IH]; [reflexivity|]. cbn [all_chars].
  intros [Ha Hr]%andb_prop. rewrite (decode_ascii a r Ha). cbn [forallb].
  intros [Hd Hds]%andb_prop.
  now rewrite (unicode_digit_ascii a Ha Hd), (IH Hr Hds).
Qed.

Lemma unicode_decimal_bound cp v : unicode_decimal cp = Some v -> (v < 10)%N.
Proof.
  unfold unicode_decimal. destruct (find _ _); [|discriminate].
  intros [= <-]. now apply N.mod_lt.
Qed.

Lemma ascii_of_N_not_minus n :
  (n < 256)%N -> n <> 45%N -> not_minus (ascii_of_N n) = true.
Proof.
  intros Hn Hne. apply negb_true_iff, Ascii.eqb_neq. intros H.
  apply (f_equal N_of_ascii) in H. rewrite N_ascii_embedding in H by exact Hn.
  now apply Hne.
Qed.

(** a text [str.isdigit] accepts reaches [int] without a minus sign *)
Lemma to_ascii_not_minus cps :
  forallb unicode_digit cps = true -> all_chars not_minus (to_ascii cps) = true.
Proof.
  induction cps as [|cp rest IH]; [reflexivity|]. cbn [forallb to_ascii].
  intros [Hd Hr]%andb_prop. specialize (IH Hr).
  destruct (N.ltb cp 127) eqn:E.
  - apply N.ltb_lt in E. cbn [all_chars]. rewrite IH, andb_true_r.
    apply ascii_of_N_not_minus; [lia|]. intros ->. vm_compute in Hd. discriminate Hd.
  - destruct (unicode_space cp).
    + cbn [all_chars]. now rewrite IH.
    + destruct (unicode_decimal cp) as [v|] eqn:Ev; [|reflexivity].
      apply unicode_decimal_bound in Ev. cbn [all_chars]. rewrite IH, andb_true_r.
      apply ascii_of_N_not_minus; lia.
Qed.

Lemma lstrip_by_all p q s :
  all_chars p s = true -> all_chars p (lstrip_by q s) = true.
Proof.
  induction s as [|c r IH]; [easy|]. cbn [lstrip_by].
  destruct (q c); [|easy]. cbn [all_chars]. intros [_ Hr]%andb_prop. now apply IH.
Qed.

Lemma rstrip_by_all p q s :
  all_chars p s = true -> all_chars p (rstrip_by q s) = true.
Proof.
  induction s as [|c r IH]; [easy|]. cbn [rstrip_by all_chars].
  intros [Hc Hr]%andb_prop.
  destruct (q c && is_empty (rstrip_by q r)); [reflexivity|].
  cbn [all_chars]. now rewrite Hc, (IH Hr).
Qed.

Lemma int_without_minus s v :
  all_chars not_minus (int_text s) = true -> int s = Some v -> (0 <= v)%Z.
Proof.
  intros H%(lstrip_by_all _ is_c_space)%(rstrip_by_all _ is_c_space).
  unfold int. fold (strip_by is_c_space (int_text s)) in H.
  destruct (strip_by is_c_space (int_text s)) as [|c r];
    [apply int_limited_not_negative|].
  cbn [all_chars] in H. apply andb_prop in H as [Hc _].
  destruct c as [[] [] [] [] [] [] [] []]; try discriminate Hc;
    cbv beta iota; apply int_limited_not_negative.
Qed.

(** the value of a text that passes [str.isdigit] is not negative *)
Lemma isdigit_int_not_negative s v :
  isdigit s = true -> int s = Some v -> (0 <= v)%Z.
Proof.
  unfold isdigit. intros [Hne Hall]%andb_prop.
  apply negb_true_iff, is_empty_false in Hne.
  destruct (all_chars is_ascii_char s) eqn:E.
  - apply int_run_not_negative; [now apply isdigit_ascii|exact Hne].
  - apply int_without_minus. unfold int_text. rewrite E.
    now apply to_ascii_not_minus.
Qed.

Lemma m_pages_free_digits line d :
  m_pages_free line = Some d -> all_chars is_digit d = true /\ d <> EmptyString.
Proof.
  unfold m_pages_free. intros H.
  destruct (eat "Pages free:" line) as [r|]; simpl in H; [|discriminate].
  destruct (plus is_space r) as [[a b]|]; simpl in H; [|discriminate].
  destruct (plus is_digit b) as [[d' b']|] eqn:E; simpl in H; [|discriminate].
  injection H as <-. eapply plus_inv, E.
Qed.

Lemma pages_free_loop_not_negative lines v :
  pages_free_loop lines = Ok v -> (0 <= v)%Z.
Proof.
  induction lines as [|l ls IH]; simpl; [intros [= <-]; lia|].
  destruct (m_pages_free l) as [d|] eqn:E; [|exact IH].
  apply m_pages_free_digits in E as [Hd Hne].
  destruct (int d) as [x|] eqn:Ex; simpl; [|discriminate].
  intros [= <-]. now apply (int_run_not_negative d).
Qed.

(** what the macOS branch of [get_memory_info] reports *)
Lemma darwin_memory_ok (w : World) m :
  is_darwin w = true -> get_memory_info w = Ok m ->
  not_negative (total m) /\ not_negative (free m)
  /\ (search m_page_size (run_command w "vm_stat") = None ->
      forall f, free m = Some f -> (4096 | f)%Z).
Proof.
  intros Hd. rewrite (darwin_memory w Hd). cbv zeta.
  assert (forall t : option Z, not_negative t ->
    (if is_empty (run_command w "vm_stat") then Ok {| total := t; free := None |}
     else
       page_size ← match search m_page_size (run_command w "vm_stat") with
                   | Some d => or_raise ValueError (int d)
                   | None => Ok 4096%Z
                   end;
       pages_free ← pages_free_loop (splitlines (run_command w "vm_stat"));
       Ok {| total := t;
             free := if Z.eqb pages_free 0 then None
                     else Some (pages_free * page_size)%Z |}) = Ok m ->
    not_negative (total m) /\ not_negative (free m)
    /\ (search m_page_size (run_command w "vm_stat") = None ->
        forall f, free m = Some f -> (4096 | f)%Z)) as Hrest.
  { intros t Ht. destruct (is_empty (run_command w "vm_stat")).
    { intros [= <-]. simpl. split; [exact Ht|]. split; [discriminate|].
      intros _ f. discriminate. }
    destruct (search m_page_size (run_command w "vm_stat")) as [d|] eqn:E.
    - apply search_found in E as [s' E]. apply m_page_size_digits in E as [Hall Hne].
      destruct (int d) as [ps|] eqn:Eps; simpl; [|discriminate].
      apply (int_run_not_negative d ps Hall Hne) in Eps.
      destruct (pages_free_loop _) as [pf|] eqn:Epf; simpl; [|discriminate].
      apply pages_free_loop_not_negative in Epf.
      intros [= <-]. simpl. split; [exact Ht|]. split; [|discriminate].
      destruct (Z.eqb pf 0); [discriminate|]. intros x [= <-]. nia.
    - simpl. destruct (pages_free_loop _) as [pf|] eqn:Epf; simpl; [|discriminate].
      apply pages_free_loop_not_negative in Epf.
      intros [= <-]. simpl. split; [exact Ht|].
      destruct (Z.eqb pf 0); [split; [discriminate|intros _ f; discriminate]|].
      split; [intros x [= <-]; nia|]. intros _ x [= <-]. apply Z.divide_factor_r. }
  destruct (isdigit (run_command w "sysctl -n hw.memsize")) eqn:Edig.
  - destruct (int (run_command w "sysctl -n hw.memsize")) as [t|] eqn:Et; simpl;
      [|discriminate].
    apply Hrest. intros x [= <-]. now apply (isdigit_int_not_negative _ _ Edig).
  - simpl. apply Hrest. discriminate.
Qed.

(** what makes [get_memory_info] raise *)
Lemma memory_raises (w : World) e :
  get_memory_info w = Raise e ->
  e = ValueError /\ is_windows w = false
  /\ ((is_linux w = true /\ is_empty (run_command w "free -b") = false)
      \/ (is_linux w = false /\ is_darwin w = true
          /\ ~ (memsize_converts w /\ page_size_converts w
                /\ pages_free_converts w))).
Proof.
  intros He.
  destruct (is_windows w) eqn:Hw.
  { exfalso. revert He. unfold get_memory_info. rewrite Hw.
    destruct (is_empty _); [discriminate|].
    destruct (fold_res_inv (fun m => from_kib (total m) /\ from_kib (free m))
                wmic_mem_step
                (splitlines (run_command w
                   "wmic OS get FreePhysicalMemory,TotalVisibleMemorySize /Value"))
                {| total := None; free := None |}) as (r & -> & _);
      [apply wmic_mem_step_ok|split; discriminate|discriminate]. }
  destruct (is_linux w) eqn:Hl.
  { revert He. unfold get_memory_info. rewrite Hw, Hl.
    destruct (is_empty (run_command w "free -b")); simpl.
    - destruct (file w "/proc/meminfo"); discriminate.
    - intros H%free_loop_raises. auto. }
  destruct (is_darwin w) eqn:Hd.
  - split; [now apply (darwin_memory_raises w e Hd)|]. split; [reflexivity|].
    right. split; [reflexivity|]. split; [reflexivity|].
    intros (Hm & Hp & Hf).
    destruct (darwin_memory_returns w Hd Hm Hp Hf) as [m Em]. congruence.
  - revert He. unfold get_memory_info. rewrite Hw, Hl, Hd. discriminate.
Qed.

(** X5: the memory collector can only raise [ValueError], and only on Linux
    when [free -b] printed something, or on macOS when one of the numbers it
    reads does not convert; on Windows and any other platform, and through
    the [/proc/meminfo] fallback, it always returns. *)
Theorem memory_raises_value_error (w : World) (e : exn) :
  get_memory_info w = Raise e ->
  e = ValueError
  /\ ((is_linux w = true /\ run_command w "free -b" <> EmptyString)
      \/ (is_darwin w = true
          /\ ~ (memsize_converts w /\ page_size_converts w
                /\ pages_free_converts w))).
Proof.
  intros (He & _ & [[Hl Hf]|(_ & Hd & Hn)])%memory_raises; (split; [exact He|]).
  - left. split; [exact Hl|]. now apply is_empty_false in Hf.
  - right. split; [exact Hd|exact Hn].
Qed.

Lemma memory_raises_value_error_witness :
  ValueError = ValueError
  /\ ((is_linux free_garbled = true
       /\ run_command free_garbled "free -b" <> EmptyString)
      \/ (is_darwin free_garbled = true
          /\ ~ (memsize_converts free_garbled /\ page_size_converts free_garbled
                /\ pages_free_converts free_garbled))).
Proof.
  apply (memory_raises_value_error free_garbled ValueError).
  vm_compute. reflexivity.
Defined.

(** X6: on Windows the memory collector returns whatever [wmic] prints, and
    a byte count it reports is a multiple of 1024 (kibibytes times 1024). *)
Theorem windows_memory_from_kib (w : World) :
  is_windows w = true ->
  exists m, get_memory_info w = Ok m /\ from_kib (total m) /\ from_kib (free m).
Proof.
  intros Hw. unfold get_memory_info. rewrite Hw.
  destruct (is_empty _).
  { eexists. split; [reflexivity|]. split; discriminate. }
  apply (fold_res_inv (fun m => from_kib (total m) /\ from_kib (free m))).
  - apply wmic_mem_step_ok.
  - split; discriminate.
Qed.

Lemma windows_memory_from_kib_witness :
  exists m, get_memory_info wmic_memory = Ok m
            /\ from_kib (total m) /\ from_kib (free m).
Proof. apply windows_memory_from_kib. reflexivity. Defined.

(** X7: on Linux, when [free -b] printed something and the collector
    returns, total and free are both known or both unknown. *)
Theorem linux_free_both_or_none (w : World) (m : mem) :
  is_linux w = true ->
  run_command w "free -b" <> EmptyString ->
  get_memory_info w = Ok m -> has (total m) = has (free m).
Proof.
  intros Hl Hf%is_empty_false. pose proof (linux_only w Hl) as Hw.
  unfold get_memory_info.
  rewrite Hw, Hl, Hf. simpl. apply free_loop_both.
Qed.

Lemma linux_free_both_or_none_witness :
  has (total {| total := Some 16712146944%Z; free := Some 8223800320%Z |})
  = has (free {| total := Some 16712146944%Z; free := Some 8223800320%Z |}).
Proof.
  apply (linux_free_both_or_none free_plain); try reflexivity.
  vm_compute. discriminate.
Defined.

(** X8: on Linux, when [free -b] printed nothing, the collector reads
    [/proc/meminfo], always returns, and a byte count it reports is a
    multiple of 1024. *)
Theorem linux_meminfo_from_kib (w : World) :
  is_linux w = true ->
  run_command w "free -b" = EmptyString ->
  exists m, get_memory_info w = Ok m /\ from_kib (total m) /\ from_kib (free m).
Proof.
  intros Hl Hf. pose proof (linux_only w Hl) as Hw. unfold get_memory_info. rewrite Hw, Hl, Hf. simpl.
  destruct (file w "/proc/meminfo") as [text|].
  - eexists. split; [reflexivity|]. apply meminfo_loop_from_kib. split; discriminate.
  - eexists. split; [reflexivity|]. split; discriminate.
Qed.

Lemma linux_meminfo_from_kib_witness :
  exists m, get_memory_info meminfo_only = Ok m
            /\ from_kib (total m) /\ from_kib (free m).
Proof. apply linux_meminfo_from_kib; reflexivity. Defined.

(** X9: on macOS the byte counts of a report are not negative, and when
    [vm_stat] states no page size the free memory is a multiple of the
    default page of 4096 bytes. *)
Theorem darwin_memory_not_negative (w : World) (m : mem) :
  is_darwin w = true -> get_memory_info w = Ok m ->
  not_negative (total m) /\ not_negative (free m)
  /\ (search m_page_size (run_command w "vm_stat") = None ->
      forall f, free m = Some f -> (4096 | f)%Z).
Proof. apply darwin_memory_ok. Qed.

Lemma darwin_memory_not_negative_witness :
  exists m, get_memory_info mac_default_page = Ok m
            /\ not_negative (total m) /\ not_negative (free m)
            /\ (search m_page_size (run_command mac_default_page "vm_stat") = None ->
                forall f, free m = Some f -> (4096 | f)%Z).
Proof.
  eexists. split; [vm_compute; reflexivity|].
  apply (darwin_memory_not_negative mac_default_page); vm_compute; reflexivity.
Defined.

(** X26: on macOS a memory size that passes [str.isdigit] and that [int]
    rejects, such as a superscript two, makes the collector raise
    [ValueError] instead of leaving the total absent. *)
Theorem darwin_memsize_raises (w : World) :
  is_darwin w = true ->
  isdigit (run_command w "sysctl -n hw.memsize") = true ->
  int (run_command w "sysctl -n hw.memsize") = None ->
  get_memory_info w = Raise ValueError.
Proof.
  intros Hd Hdig Hint. rewrite (darwin_memory w Hd). cbv zeta.
  now rewrite Hdig, Hint.
Qed.

Lemma darwin_memsize_raises_witness :
  get_memory_info mac_superscript_memsize = Raise ValueError.
Proof.
  apply (darwin_memsize_raises mac_superscript_memsize); vm_compute; reflexivity.
Defined.

End MemoryMoreFacts.

(** ** Hardware: processor, vendor, and the report *)

Section HardwareFacts.

Import Py Re.

Lemma prefix_contains c p s :
  String.prefix p s = true -> contains (String c EmptyString) p = true ->
  contains (String c EmptyString) s = true.
Proof.
  revert s. induction p as [|a p IH]; intros s; [discriminate 2|].
  destruct s as [|b s]; [discriminate|]. cbn [String.prefix].
  destruct (ascii_dec a b) as [->|]; [|discriminate].
  intros Hp. rewrite !contains_cons.
  destruct (Ascii.eqb b c); [reflexivity|]. simpl. now apply IH.
Qed.

Lemma contains_trans c p s :
  contains p s = true -> contains (String c EmptyString) p = true ->
  contains (String c EmptyString) s = true.
Proof.
  intros Hs Hp. induction s as [|a r IH].
  - cbn [contains] in Hs. rewrite orb_false_r in Hs.
    now apply (prefix_contains c p EmptyString).
  - cbn [contains] in Hs. apply orb_prop in Hs as [Hs|Hs].
    + now apply (prefix_contains c p).
    + rewrite contains_cons, (IH Hs). apply orb_true_r.
Qed.

Lemma lower_char_equals a : Ascii.eqb (lower_char a) "=" = Ascii.eqb a "=".
Proof. destruct a as [[] [] [] [] [] [] [] []]; reflexivity. Qed.

Lemma contains_equals_lower s : contains "=" (lower s) = contains "=" s.
Proof.
  induction s as [|a r IH]; [reflexivity|].
  cbn [lower]. now rewrite !contains_cons, IH, lower_char_equals.
Qed.

Lemma after_ok c line :
  contains (String c EmptyString) line = true -> exists v, after c line = Ok v.
Proof.
  intros H. unfold after. destruct (contains_split1 c line H) as [v ->]. simpl. eauto.
Qed.

Lemma after_raises c line e : after c line = Raise e -> e = IndexError.
Proof.
  unfold after. destruct (snd (split1 c line)); simpl; [discriminate|].
  now intros [= <-].
Qed.

(** what makes [get_cpu_info] raise *)
Lemma cpu_raises (w : World) e :
  get_cpu_info w = Raise e -> e = IndexError /\ is_linux w = true.
Proof.
  unfold get_cpu_info. destruct (is_windows w).
  { destruct (find _ _) as [line|] eqn:E; [|discriminate].
    apply find_some in E as [_ E].
    destruct (after_ok "=" line) as [v ->]; [|discriminate].
    now apply (prefix_contains "=" "Name="). }
  destruct (is_linux w).
  { intros H. split; [|reflexivity]. revert H.
    destruct (truthy_str _); [discriminate|].
    destruct (find _ _) as [line|]; [|discriminate].
    destruct (after ":" line) as [v|e'] eqn:E; simpl; [discriminate|].
    intros [= <-]. now apply after_raises in E. }
  destruct (is_darwin w); [|discriminate].
  destruct (is_empty _); discriminate.
Qed.

Lemma cpu_trimmed (w : World) c : get_cpu_info w = Ok c -> trimmed c.
Proof.
  assert (forall v, trimmed (Some (strip v))) as Hs.
  { intros v s [= <-]. apply strip_idem. }
  unfold get_cpu_info. destruct (is_windows w).
  { destruct (find _ _) as [line|]; [|intros [= <-]; discriminate].
    destruct (after "=" line); simpl; [|discriminate]. now intros [= <-]. }
  assert (forall o : option string, trimmed (o ≫= fun v => Some (strip v))) as Ho.
  { intros [v|]; simpl; [apply Hs|discriminate]. }
  destruct (is_linux w).
  { set (cpu := file w "/proc/cpuinfo" ≫= _).
    assert (trimmed cpu) as Hc.
    { subst cpu. destruct (file w "/proc/cpuinfo") as [text|]; simpl; [|discriminate].
      destruct (find _ _) as [line|]; simpl; [|discriminate].
      destruct (snd (split1 ":" line)); simpl; [apply Hs|discriminate]. }
    destruct (truthy_str cpu); [now intros [= <-]|].
    destruct (find _ _) as [line|]; [|now intros [= <-]].
    destruct (after ":" line); simpl; [|discriminate]. now intros [= <-]. }
  destruct (is_darwin w); [|intros [= <-]; discriminate].
  destruct (is_empty _); intros [= <-]; [discriminate|apply Hs].
Qed.

Lemma wmic_vendor_step_ok vm line :
  trimmed (manufacturer vm) /\ trimmed (model vm) ->
  exists vm', wmic_vendor_step vm line = Ok vm'
              /\ trimmed (manufacturer vm') /\ trimmed (model vm').
Proof.
  intros [Hm Hd]. unfold wmic_vendor_step.
  assert (forall v, trimmed (Some (strip v))) as Hs.
  { intros v s [= <-]. apply strip_idem. }
  destruct (startswith "manufacturer=" (lower line)) eqn:E1.
  { destruct (after_ok "=" line) as [v ->].
    - rewrite <- contains_equals_lower. now apply (prefix_contains "=" "manufacturer=").
    - simpl. eexists. split; [reflexivity|]. simpl. auto. }
  destruct (startswith "model=" (lower line)) eqn:E2; [|eauto].
  destruct (after_ok "=" line) as [v ->].
  - rewrite <- contains_equals_lower. now apply (prefix_contains "=" "model=").
  - simpl. eexists. split; [reflexivity|]. simpl. auto.
Qed.

Lemma profiler_step_ok vm line :
  trimmed (manufacturer vm) /\ trimmed (model vm) ->
  exists vm', profiler_step vm line = Ok vm'
              /\ trimmed (manufacturer vm') /\ trimmed (model vm').
Proof.
  intros [Hm Hd]. unfold profiler_step.
  assert (forall v, trimmed (Some (strip v))) as Hs.
  { intros v s [= <-]. apply strip_idem. }
  destruct (contains "Model Name:" line) eqn:E1.
  { destruct (after_ok ":" line) as [v ->];
      [now apply (contains_trans ":" "Model Name:")|].
    simpl. eexists. split; [reflexivity|]. simpl. auto. }
  destruct (contains "Model Identifier:" line) eqn:E2; cbn [andb].
  { destruct (negb (truthy_str (model vm))).
    - destruct (after_ok ":" line) as [v ->];
        [now apply (contains_trans ":" "Model Identifier:")|].
      simpl. eexists. split; [reflexivity|]. simpl. auto.
    - destruct (contains "Manufacturer:" line) eqn:E3; [|eauto].
      destruct (after_ok ":" line) as [v ->];
        [now apply (contains_trans ":" "Manufacturer:")|].
      simpl. eexists. split; [reflexivity|]. simpl. auto. }
  destruct (contains "Manufacturer:" line) eqn:E3; [|eauto].
  destruct (after_ok ":" line) as [v ->];
    [now apply (contains_trans ":" "Manufacturer:")|].
  simpl. eexists. split; [reflexivity|]. simpl. auto.
Qed.

Lemma vendor_ok (w : World) :
  exists vm, get_vendor_model w = Ok vm
             /\ trimmed (manufacturer vm) /\ trimmed (model vm).
Proof.
  assert (trimmed None) as Hnone by discriminate.
  unfold get_vendor_model. destruct (is_windows w).
  { apply (fold_res_inv (fun vm => trimmed (manufacturer vm) /\ trimmed (model vm)));
      [apply wmic_vendor_step_ok|split; exact Hnone]. }
  destruct (is_linux w).
  { eexists. split; [reflexivity|]. simpl.
    split; (destruct (file w _) as [text|]; simpl; [|exact Hnone]);
      intros x [= <-]; apply strip_idem. }
  destruct (is_darwin w); [|eexists; split; [reflexivity|split; exact Hnone]].
  destruct (is_empty _); [eexists; split; [reflexivity|split; exact Hnone]|].
  apply (fold_res_inv (fun vm => trimmed (manufacturer vm) /\ trimmed (model vm)));
    [apply profiler_step_ok|split; exact Hnone].
Qed.

(** X10: the processor collector can only raise [IndexError], and only on
    Linux (from a model name line of [lscpu] without a colon); on every other
    platform it always returns. *)
Theorem cpu_raises_only_on_linux (w : World) (e : exn) :
  get_cpu_info w = Raise e -> e = IndexError /\ is_linux w = true.
Proof. apply cpu_raises. Qed.

Lemma cpu_raises_only_on_linux_witness :
  IndexError = IndexError /\ is_linux lscpu_no_colon = true.
Proof. apply (cpu_raises_only_on_linux lscpu_no_colon). vm_compute. reflexivity. Defined.

(** X11: a processor description that is returned has no white space at
    either end. *)
Theorem cpu_description_trimmed (w : World) (s : string) :
  get_cpu_info w = Ok (Some s) -> strip s = s.
Proof. intros H%cpu_trimmed. now apply H. Qed.

Lemma cpu_description_trimmed_witness :
  strip "Intel(R) Core(TM) i7-8650U CPU @ 1.90GHz"
  = "Intel(R) Core(TM) i7-8650U CPU @ 1.90GHz".
Proof. apply (cpu_description_trimmed wmic_cpu). vm_compute. reflexivity. Defined.

(** X12: the vendor and model collector never raises, on any platform and
    for any output, and the manufacturer and the model it returns have no
    white space at either end. *)
Theorem vendor_model_never_raises (w : World) :
  exists vm, get_vendor_model w = Ok vm
             /\ trimmed (manufacturer vm) /\ trimmed (model vm).
Proof. apply vendor_ok. Qed.

(** X13: the report can only fail on Linux or macOS: on any other platform
    [gather_host_info] returns a report, whatever the commands print; a
    failure is the [ValueError] of the memory collector, on Linux or macOS,
    or the [IndexError] of the processor collector, on Linux. *)
Theorem report_fails_on_linux_or_macos (w : World) (now : struct_time) (e : exn) :
  gather_host_info w now = Raise e ->
  (e = ValueError /\ get_memory_info w = Raise ValueError
   /\ (is_linux w = true \/ is_darwin w = true))
  \/ (e = IndexError /\ get_cpu_info w = Raise IndexError /\ is_linux w = true).
Proof.
  unfold gather_host_info.
  destruct (get_memory_info w) as [m|e1] eqn:Em; simpl.
  - destruct (vendor_ok w) as (vm & -> & _). simpl.
    destruct (get_cpu_info w) as [c|e2] eqn:Ec; simpl; [discriminate|].
    intros [= <-]. destruct (cpu_raises w e2 Ec) as [-> Hl]. auto.
  - intros [= <-].
    destruct (memory_raises w e1 Em) as (-> & _ & [[Hl _]|(_ & Hd & _)]); auto.
Qed.

Lemma report_fails_on_linux_or_macos_witness :
  (ValueError = ValueError /\ get_memory_info free_garbled = Raise ValueError
   /\ (is_linux free_garbled = true \/ is_darwin free_garbled = true))
  \/ (ValueError = IndexError /\ get_cpu_info free_garbled = Raise IndexError
      /\ is_linux free_garbled = true).
Proof.
  apply (report_fails_on_linux_or_macos free_garbled
           {| tm_year := 2024; tm_mon := 5; tm_mday := 17;
              tm_hour := 9; tm_min := 30; tm_sec := 0 |}).
  vm_compute. reflexivity.
Defined.

End HardwareFacts.

(** ** Disks and accounts *)

Section TableFacts.

Import Py Re.

Lemma split_ws_aux_words s :
  all_chars (fun c => negb (is_space c)) (fst (split_ws_aux s)) = true
  /\ Forall word (snd (split_ws_aux s)).
Proof.
  induction s as [|c r [Hw Hws]]; simpl; [split; [reflexivity|constructor]|].
  destruct (split_ws_aux r) as [w ws]. simpl in *.
  destruct (is_space c) eqn:E; simpl.
  - split; [reflexivity|]. unfold cons_word.
    destruct (is_empty w) eqn:Ew; [exact Hws|].
    constructor; [|exact Hws]. split; [now apply is_empty_false|exact Hw].
  - rewrite E, Hw. split; [reflexivity|exact Hws].
Qed.

Lemma split_ws_words s : Forall word (split_ws s).
Proof.
  unfold split_ws. destruct (split_ws_aux_words s) as [Hw Hws].
  destruct (split_ws_aux s) as [w ws]. simpl in *. unfold cons_word.
  destruct (is_empty w) eqn:Ew; [exact Hws|].
  constructor; [|exact Hws]. split; [now apply is_empty_false|exact Hw].
Qed.

Lemma before_free c s : free_of c (before c s) = true.
Proof.
  unfold free_of, before. induction s as [|a r IH]; simpl; [reflexivity|].
  destruct (Ascii.eqb a c) eqn:E; [reflexivity|].
  destruct (split1 c r) as [x y]. simpl in *. now rewrite E, IH.
Qed.

Lemma wmic_disk_loop lines disks :
  Forall used_is_difference disks ->
  Forall used_is_difference (fold_left wmic_disk_step lines disks).
Proof.
  revert disks. induction lines as [|l ls IH]; intros disks H; cbn [fold_left];
    [exact H|].
  apply IH. unfold wmic_disk_step.
  destruct (is_empty l || startswith "Node" l); [exact H|].
  destruct (split_on "," l) as [|? [|caption [|fs [|p3 [|p4 ?]]]]]; try exact H.
  apply Forall_app. split; [exact H|]. constructor; [|constructor].
  unfold used_is_difference. simpl.
  now destruct (int_if_any p4), (int_if_any p3).
Qed.

Lemma df_step_alt disks line :
  exists row, df_step disks line = disks ++ row
    /\ length row = (if df_row line then 1 else 0)
    /\ Forall (fun d => word (disk_name d)
                        /\ exists fs, disk_filesystem d = Some fs /\ word fs) row.
Proof.
  unfold df_step, df_row. pose proof (split_ws_words line) as Hw.
  destruct (split_ws line) as [|f [|p1 [|p2 [|p3 [|p4 [|mnt ?]]]]]];
    try (exists []; rewrite app_nil_r; repeat split; constructor).
  eexists. split; [reflexivity|]. split; [reflexivity|].
  constructor; [|constructor]. simpl.
  apply Forall_cons in Hw as [Hf Hw].
  do 4 apply Forall_cons in Hw as [_ Hw]. apply Forall_cons in Hw as [Hm _].
  eauto.
Qed.

Lemma df_loop lines disks :
  exists rows, fold_left df_step lines disks = disks ++ rows
    /\ length rows = length (List.filter df_row lines)
    /\ Forall (fun d => word (disk_name d)
                        /\ exists fs, disk_filesystem d = Some fs /\ word fs) rows.
Proof.
  revert disks. induction lines as [|l ls IH]; intros disks; cbn [fold_left].
  - exists []. rewrite app_nil_r. repeat split. constructor.
  - destruct (df_step_alt disks l) as (row & -> & Hlen & Hrow).
    destruct (IH (disks ++ row)) as (rows & -> & Hlens & Hrows).
    exists (row ++ rows). rewrite app_assoc. split; [reflexivity|]. split.
    + rewrite length_app, Hlen, Hlens. simpl. now destruct (df_row l).
    + apply Forall_app. auto.
Qed.

(** X14: on Windows, the used space of every reported volume is its size
    minus its free space when both parsed, and unknown otherwise. *)
Theorem windows_disk_used (w : World) :
  is_windows w = true -> Forall used_is_difference (get_disk_info w).
Proof.
  intros Hw. unfold get_disk_info. rewrite Hw.
  destruct (is_empty _); [constructor|]. apply wmic_disk_loop. constructor.
Qed.

Lemma windows_disk_used_witness : Forall used_is_difference (get_disk_info wmic_disks).
Proof. apply windows_disk_used. reflexivity. Defined.

(** X15: on a POSIX host, the header row of [df] and every row with fewer
    than six fields are left out and every other row gives one volume; the
    mount point and the file system of a reported volume are non-empty and
    without white space. *)
Theorem posix_disk_rows (w : World) :
  is_windows w = false ->
  length (get_disk_info w)
  = length (List.filter df_row (tail (splitlines (run_command w "df -P -B1"))))
  /\ Forall (fun d => word (disk_name d)
                      /\ exists fs, disk_filesystem d = Some fs /\ word fs)
       (get_disk_info w).
Proof.
  intros Hw. unfold get_disk_info. rewrite Hw.
  destruct (is_empty (run_command w "df -P -B1")) eqn:E.
  { apply is_empty_true in E. rewrite E. split; [reflexivity|constructor]. }
  destruct (df_loop (tail (splitlines (run_command w "df -P -B1"))) [])
    as (rows & -> & Hlen & Hrows).
  auto.
Qed.

Lemma posix_disk_rows_witness :
  length (get_disk_info df_short_row)
  = length (List.filter df_row
              (tail (splitlines (run_command df_short_row "df -P -B1"))))
  /\ Forall (fun d => word (disk_name d)
                      /\ exists fs, disk_filesystem d = Some fs /\ word fs)
       (get_disk_info df_short_row).
Proof. apply posix_disk_rows. reflexivity. Defined.

Lemma passwd_loop lines users :
  Forall (fun u => free_of ":" u = true) users ->
  Forall (fun u => free_of ":" u = true) (fold_left passwd_step lines users).
Proof.
  revert users. induction lines as [|l ls IH]; intros users H; cbn [fold_left];
    [exact H|].
  apply IH. unfold passwd_step.
  destruct (is_empty (strip l) || startswith "#" l); [exact H|].
  apply Forall_app. split; [exact H|]. constructor; [apply before_free|constructor].
Qed.

Lemma passwd_loop_lines text lines users :
  (forall l, In l lines -> In l (file_lines text)) ->
  Forall (fun u => exists line, In line (file_lines text) /\ u = before ":" line) users ->
  Forall (fun u => exists line, In line (file_lines text) /\ u = before ":" line)
    (fold_left passwd_step lines users).
Proof.
  revert users. induction lines as [|l ls IH]; intros users Hin H; cbn [fold_left];
    [exact H|].
  apply IH; [intros x Hx; apply Hin; now right|]. unfold passwd_step.
  destruct (is_empty (strip l) || startswith "#" l); [exact H|].
  apply Forall_app. split; [exact H|].
  constructor; [|constructor]. exists l. split; [apply Hin; now left|reflexivity].
Qed.

(** X16: on a POSIX host every returned account name is the text of a line
    of [/etc/passwd] before its first colon, so no name contains a colon;
    a missing file gives the empty list. *)
Theorem posix_users_colon_free (w : World) :
  is_windows w = false ->
  Forall (fun u => free_of ":" u = true) (get_local_users w)
  /\ (file w "/etc/passwd" = None -> get_local_users w = [])
  /\ (forall text, file w "/etc/passwd" = Some text ->
      Forall (fun u => exists line, In line (file_lines text) /\ u = before ":" line)
        (get_local_users w)).
Proof.
  intros Hw. unfold get_local_users. rewrite Hw.
  destruct (file w "/etc/passwd") as [text|].
  - split; [apply passwd_loop; constructor|]. split; [discriminate|].
    intros t [= <-]. apply passwd_loop_lines; [auto|constructor].
  - split; [constructor|]. split; [reflexivity|discriminate].
Qed.

Lemma posix_users_colon_free_witness :
  Forall (fun u => free_of ":" u = true) (get_local_users small_passwd)
  /\ (file small_passwd "/etc/passwd" = None -> get_local_users small_passwd = [])
  /\ (forall text, file small_passwd "/etc/passwd" = Some text ->
      Forall (fun u => exists line, In line (file_lines text) /\ u = before ":" line)
        (get_local_users small_passwd)).
Proof. apply posix_users_colon_free. reflexivity. Defined.

Lemma net_user_loop_words collecting users lines :
  Forall word users -> Forall word (net_user_loop collecting users lines).
Proof.
  revert collecting users.
  induction lines as [|l ls IH]; intros collecting users H; cbn [net_user_loop];
    [exact H|].
  destruct (negb collecting); [now apply IH|].
  destruct (is_empty (strip l)); [exact H|].
  apply IH, Forall_app. split; [exact H|apply split_ws_words].
Qed.

Lemma net_user_loop_no_divider users lines :
  Forall (fun l => startswith "---" (strip l) = false) lines ->
  net_user_loop false users lines = users.
Proof.
  induction 1 as [|l ls Hl _ IH]; cbn [net_user_loop]; [reflexivity|].
  simpl. now rewrite Hl.
Qed.

(** X17: on Windows every returned account name is non-empty and without
    white space, and when no line of [net user] starts with three dashes no
    account is returned. *)
Theorem windows_users_after_divider (w : World) :
  is_windows w = true ->
  Forall word (get_local_users w)
  /\ (Forall (fun l => startswith "---" (strip l) = false)
        (splitlines (run_command w "net user")) ->
      get_local_users w = []).
Proof.
  intros Hw. unfold get_local_users. rewrite Hw.
  destruct (is_empty _); [split; [constructor|reflexivity]|]. split.
  - apply net_user_loop_words. constructor.
  - apply net_user_loop_no_divider.
Qed.

Lemma windows_users_after_divider_witness :
  Forall word (get_local_users net_user)
  /\ (Forall (fun l => startswith "---" (strip l) = false)
        (splitlines (run_command net_user "net user")) ->
      get_local_users net_user = []).
Proof. apply windows_users_after_divider. reflexivity. Defined.

(** the last element a filter keeps, and what lies around it *)
Lemma filter_last {A} (p : A -> bool) (l kept : list A) (y : A) :
  List.filter p l = kept ++ [y] ->
  exists above below,
    l = above ++ y :: below /\ List.filter p above = kept /\ p y = true
    /\ Forall (fun x => p x = false) below.
Proof.
  revert kept y. induction l as [|z l IH] using rev_ind; intros kept y.
  - simpl. intros H. now apply app_cons_not_nil in H.
  - rewrite List.filter_app. simpl. destruct (p z) eqn:E.
    + intros [<- <-]%app_inj_tail. exists l, []. repeat split; auto.
    + rewrite app_nil_r. intros (above & below & -> & Hk & Hy & Hb)%IH.
      exists above, (below ++ [z]). rewrite <- app_assoc. simpl.
      repeat split; auto. apply Forall_app. split; [exact Hb|].
      constructor; [exact E|constructor].
Qed.

(** X18: on Windows a domain that is returned is the [USERDOMAIN] variable,
    or else the last non-blank line of the [wmic] output, without the white
    space at its ends, and an earlier line of that output is not blank. *)
Theorem windows_domain_trimmed (w : World) (d : string) :
  is_windows w = true -> get_domain_name w = Some d ->
  environ w "USERDOMAIN" = Some d
  \/ (d <> EmptyString /\ strip d = d
      /\ exists above line below,
           splitlines (run_command w "wmic computersystem get domain")
           = above ++ line :: below
           /\ strip line = d
           /\ Forall (fun l => strip l = EmptyString) below
           /\ exists l, In l above /\ strip l <> EmptyString).
Proof.
  intros Hw. unfold get_domain_name. rewrite Hw.
  set (out := splitlines (run_command w "wmic computersystem get domain")).
  set (nonblank := fun line => negb (is_empty (strip line))).
  destruct (Nat.leb 2 (length (map strip (List.filter nonblank out)))) eqn:Hlen;
    [|simpl; auto].
  destruct (last (map strip (List.filter nonblank out))) as [x|] eqn:E;
    [|simpl; auto].
  apply last_Some in E as [l' E].
  destruct x as [|c x]; [simpl; auto|]. simpl. intros [= <-]. right.
  apply Nat.leb_le in Hlen. rewrite E, length_app in Hlen. simpl in Hlen.
  apply map_eq_app in E as (kept & ys & Ef & Ek & Ey).
  destruct ys as [|y [|? ?]]; try discriminate Ey. injection Ey as Ey.
  apply filter_last in Ef as (above & below & Hout & Hk & Hy & Hb).
  split; [discriminate|]. split; [rewrite <- Ey; apply strip_idem|].
  exists above, y, below. split; [exact Hout|]. split; [exact Ey|]. split.
  - eapply List.Forall_impl; [|exact Hb]. intros a Ha. unfold nonblank in Ha.
    now apply negb_false_iff, is_empty_true in Ha.
  - destruct kept as [|k ks]; [subst l'; simpl in Hlen; lia|].
    assert (In k (List.filter nonblank above)) as Hin by (rewrite Hk; now left).
    apply filter_In in Hin as [Hin Hp]. exists k. split; [exact Hin|].
    unfold nonblank in Hp. now apply negb_true_iff, is_empty_false in Hp.
Qed.

Lemma windows_domain_trimmed_witness :
  environ wmic_domain "USERDOMAIN" = Some "corp.example.org"
  \/ ("corp.example.org" <> EmptyString
      /\ strip "corp.example.org" = "corp.example.org"
      /\ exists above line below,
           splitlines (run_command wmic_domain "wmic computersystem get domain")
           = above ++ line :: below
           /\ strip line = "corp.example.org"
           /\ Forall (fun l => strip l = EmptyString) below
           /\ exists l, In l above /\ strip l <> EmptyString).
Proof. apply windows_domain_trimmed; reflexivity. Defined.

End TableFacts.

(** ** Running processes and detection *)

Section ProcessFacts.

Import Py Re.

Lemma lower_char_idem a : lower_char (lower_char a) = lower_char a.
Proof. destruct a as [[] [] [] [] [] [] [] []]; reflexivity. Qed.

Lemma lower_idem s : lower (lower s) = lower s.
Proof.
  induction s as [|a r IH]; simpl; [reflexivity|]. now rewrite lower_char_idem, IH.
Qed.

Lemma lower_length s : String.length (lower s) = String.length s.
Proof. induction s as [|a r IH]; simpl; [reflexivity|]. now rewrite IH. Qed.

Lemma lower_substring n m s :
  lower (String.substring n m s) = String.substring n m (lower s).
Proof.
  revert n m. induction s as [|a r IH]; intros [|n] [|m]; simpl; try reflexivity;
    now rewrite ?IH.
Qed.

Lemma lower_drop_last n s : lower (drop_last n (lower s)) = drop_last n (lower s).
Proof. unfold drop_last. now rewrite lower_substring, lower_idem. Qed.

Lemma normalize_windows_lower line :
  lower (normalize_windows line) = normalize_windows line.
Proof.
  unfold normalize_windows. destruct (endswith _ _).
  - apply lower_drop_last.
  - apply lower_idem.
Qed.

Lemma lower_char_slash a : Ascii.eqb (lower_char a) "/" = Ascii.eqb a "/".
Proof. destruct a as [[] [] [] [] [] [] [] []]; reflexivity. Qed.

Lemma free_of_slash_lower s : free_of "/" (lower s) = free_of "/" s.
Proof.
  unfold free_of. induction s as [|a r IH]; simpl; [reflexivity|].
  now rewrite lower_char_slash, IH.
Qed.

Lemma contains_free c s :
  contains (String c EmptyString) s = false -> free_of c s = true.
Proof.
  unfold free_of. induction s as [|a r IH]; [reflexivity|].
  rewrite contains_cons. intros [Ha Hr]%orb_false_iff. simpl.
  now rewrite Ha, IH.
Qed.

Lemma basename_free s : free_of "/" (basename s) = true.
Proof.
  induction s as [|a r IH]; [reflexivity|]. cbn [basename].
  destruct (contains "/" (String a r)) eqn:E; [exact IH|now apply contains_free].
Qed.

Lemma running_names (w : World) (p : string) :
  In p (get_running_process_names w) ->
  lower p = p /\ (is_windows w = false -> free_of "/" p = true).
Proof.
  unfold get_running_process_names. destruct (is_windows w).
  - rewrite (tasklist_loop _ []). simpl.
    intros (line & <- & _)%in_map_iff. split; [|discriminate].
    apply normalize_windows_lower.
  - intros (line & <- & _)%in_map_iff. split; [apply lower_idem|]. intros _.
    rewrite free_of_slash_lower. apply basename_free.
Qed.

(** X19: the detections depend only on which process names are running,
    not on their order nor on how often a name occurs. *)
Theorem detection_ignores_order (w1 w2 : World) :
  (forall p, p ∈ get_running_process_names w1 <-> p ∈ get_running_process_names w2) ->
  detect_security_tools w1 = detect_security_tools w2.
Proof.
  intros H. unfold detect_security_tools. f_equal.
  apply set_eq. intros x. rewrite !detected_of_spec.
  split; intros (p & Hp & Hx); exists p; (split; [now apply H|exact Hx]).
Qed.

Lemma detection_ignores_order_witness :
  detect_security_tools defender_on_windows = detect_security_tools defender_twice.
Proof.
  apply detection_ignores_order. intros p.
  change (get_running_process_names defender_on_windows)
    with ["msmpeng"; "explorer"].
  change (get_running_process_names defender_twice)
    with ["explorer"; "msmpeng"; "explorer"].
  rewrite !elem_of_cons, !elem_of_nil. tauto.
Defined.

(** X20: every running process name handed to the classifier is in lower
    case, and on a POSIX host it contains no slash (only the last path
    component is kept). *)
Theorem running_names_normalized (w : World) (p : string) :
  In p (get_running_process_names w) ->
  lower p = p /\ (is_windows w = false -> free_of "/" p = true).
Proof. apply running_names. Qed.

Lemma running_names_normalized_witness :
  lower "csfalconservice" = "csfalconservice"
  /\ (is_windows ps_output = false -> free_of "/" "csfalconservice" = true).
Proof.
  apply (running_names_normalized ps_output). vm_compute. right. left. reflexivity.
Defined.

End ProcessFacts.

(** ** Network: the form of a MAC on POSIX hosts *)

Section MacFormFacts.

Import Py Re.

Lemma take_length n s t r : take n s = Some (t, r) -> String.length t = n.
Proof.
  revert s t r. induction n as [|n IH]; intros s t r; cbn [take].
  - now intros [= <- _].
  - destruct s as [|c s]; [discriminate|].
    destruct (take n s) as [[a b]|] eqn:E; [|discriminate].
    intros [= <- _]. simpl. f_equal. now apply (IH s a b).
Qed.

Lemma m_ether_length s t : m_ether s = Some t -> String.length t = 17.
Proof.
  unfold m_ether. destruct (eat "ether " s) as [r|]; [|discriminate].
  cbn [mbind option_bind]. destruct (take 17 r) as [[a b]|] eqn:E; [|discriminate].
  cbn [mbind option_bind]. destruct (all_chars is_ether_char a); [|discriminate].
  intros [= <-]. now apply take_length in E.
Qed.

Lemma m_link_mac_length s t : m_link_mac s = Some t -> String.length t = 17.
Proof.
  unfold m_link_mac. destruct (eat_ci "link/" s) as [r1|]; [|discriminate].
  cbn [mbind option_bind]. destruct (plus is_word r1) as [[x r2]|]; [|discriminate].
  cbn [mbind option_bind]. destruct (eat " " r2) as [r3|]; [|discriminate].
  cbn [mbind option_bind]. destruct (take 17 r3) as [[a b]|] eqn:E; [|discriminate].
  cbn [mbind option_bind]. destruct (_ || _); [|discriminate].
  intros [= <-]. now apply take_length in E.
Qed.

Lemma mac_17_ether line a :
  mac_17 a -> mac_17 (on_match (search m_ether line) set_mac a).
Proof.
  intros H. destruct (search m_ether line) as [x|] eqn:E; [|exact H].
  apply search_found in E as [s' E]. intros m [= <-]. now apply (m_ether_length s').
Qed.

Lemma mac_17_link family ip line a :
  mac_17 a -> mac_17 (linux_update family ip line a).
Proof.
  intros H. unfold linux_update.
  repeat match goal with |- context [if ?b then _ else _] => destruct b end;
    try exact H.
  destruct (search m_link_mac line) as [x|] eqn:E; [|exact H].
  apply search_found in E as [s' E]. intros m [= <-]. now apply (m_link_mac_length s').
Qed.

Lemma bsd_loop_mac_17 lines st :
  flushed_inv mac_17 st ->
  Forall (fun r => truthy r = true /\ mac_17 r) (finish (fold_left bsd_step lines st)).
Proof.
  assert (mac_17 no_keys) as H0 by discriminate.
  revert st. induction lines as [|l ls IH]; intros st H; cbn [fold_left].
  - now apply flushed_inv_finish.
  - apply IH. destruct (startswith tab l) eqn:E.
    + rewrite (bsd_step_indented st l E). destruct H as [Hi Ha].
      split; [exact Hi|]. cbn [snd]. apply mac_17_ether.
      intros m. rewrite !on_match_mac by reflexivity. apply Ha.
    + rewrite (bsd_step_header st l E).
      destruct (flushed_inv_flush mac_17 st H0 H) as [Hi _]. split; [exact Hi|].
      cbn [snd]. apply mac_17_ether.
      intros m. rewrite on_match_mac by reflexivity. discriminate.
Qed.

(** X21: a MAC recorded by the POSIX parsers (Linux and BSD) has exactly 17
    characters. *)
Theorem posix_mac_has_17_characters (w : World) (r : iface) (m : string) :
  In r (parse_ip_config_posix w) -> mac r = Some m -> String.length m = 17.
Proof.
  unfold parse_ip_config_posix. intros Hin Hm.
  assert (mac_17 r) as H; [|now apply H].
  destruct (is_linux w); (destruct (is_empty _); [destruct Hin|]).
  - unfold parse_linux_lines in Hin. apply in_map_iff in Hin as ([k v] & <- & Hin).
    pose proof (linux_loop_Forall mac_17
                  (splitlines (run_command w "ip -o addr show")) []
                  ltac:(discriminate) mac_17_link (List.Forall_nil _)) as HF.
    rewrite List.Forall_forall in HF. apply (HF _ Hin).
  - pose proof (bsd_loop_mac_17 (splitlines (run_command w "ifconfig -a"))
                  ([], no_keys)) as HF.
    rewrite List.Forall_forall in HF. apply HF; [|exact Hin].
    split; [constructor|discriminate].
Qed.

Lemma posix_mac_has_17_characters_witness :
  String.length "00:15:5d:0a:0b:0c" = 17.
Proof.
  apply (posix_mac_has_17_characters two_ethers
           {| name := Some "en0"; mac := Some "00:15:5d:0a:0b:0c";
              ipv4 := Some ["192.168.1.20"]; ipv6 := None |});
    [|reflexivity].
  vm_compute. left. reflexivity.
Defined.

End MacFormFacts.

(** ** Network: the form of names and addresses *)

Section FormFacts.

Import Py Re.

Lemma all_chars_lstrip_by q p s :
  all_chars q s = true -> all_chars q (lstrip_by p s) = true.
Proof.
  induction s as [|a r IH]; [easy|]. intros H. cbn [lstrip_by].
  destruct (p a); [|exact H]. apply IH. simpl in H. now apply andb_prop in H.
Qed.

Lemma all_chars_rstrip_by q p s :
  all_chars q s = true -> all_chars q (rstrip_by p s) = true.
Proof.
  induction s as [|a r IH]; [easy|]. simpl. intros [Ha Hr]%andb_prop.
  destruct (p a && is_empty (rstrip_by p r)); [reflexivity|].
  simpl. now rewrite Ha, IH.
Qed.

Lemma ip_of_plain value :
  free_of "(" (ip_of value) = true /\ strip (ip_of value) = ip_of value.
Proof.
  unfold ip_of. split; [|apply strip_idem].
  apply all_chars_rstrip_by, all_chars_lstrip_by, before_free.
Qed.

Lemma plain_addresses_add o value :
  plain_addresses o -> plain_addresses (Some (default [] o ++ [ip_of value])).
Proof.
  intros H l ip [= <-] [Hin|[<-|[]]]%in_app_or; [|apply ip_of_plain].
  destruct o as [l0|]; [|destruct Hin]. now apply (H l0).
Qed.

Lemma plain_interface_win_field line a :
  plain_interface a -> plain_interface (win_field line a).
Proof.
  intros [H4 H6]. unfold win_field.
  destruct (split1 ":" line) as [k [v|]]; [|now split].
  repeat match goal with |- context [if ?b then _ else _] => destruct b end;
    try now split.
  - unfold setdefault_mac. now destruct (mac a).
  - split; [now apply plain_addresses_add|exact H6].
  - split; [exact H4|now apply plain_addresses_add].
Qed.

Lemma rstrip_by_not_final c s :
  endswith (String c EmptyString) (rstrip_by (Ascii.eqb c) s) = false.
Proof.
  induction s as [|a r IH]; [reflexivity|]. cbn [rstrip_by].
  destruct (Ascii.eqb c a && is_empty (rstrip_by (Ascii.eqb c) r)) eqn:E;
    [reflexivity|].
  cbn [endswith]. rewrite IH, orb_false_r.
  apply String.eqb_neq. intros [= -> Hr]. rewrite Hr, Ascii.eqb_refl in E.
  discriminate E.
Qed.

Lemma before_last_all q c s t :
  all_chars q s = true -> before_last c s = Some t -> all_chars q t = true.
Proof.
  revert t. induction s as [|a r IH]; intros t; [discriminate 2|].
  simpl. intros [Ha Hr]%andb_prop.
  destruct (before_last c r) as [x|].
  - intros [= <-]. simpl. now rewrite Ha, (IH x Hr eq_refl).
  - destruct (Ascii.eqb a c); [|discriminate]. now intros [= <-].
Qed.

Lemma m_name_word line n : m_name line = Some n -> word n.
Proof.
  unfold m_name. pose proof (span_all (fun c => negb (is_space c)) line) as H.
  destruct (span _ line) as [run rest]. simpl in H.
  destruct (before_last ":" run) as [t|] eqn:E; [|discriminate].
  destruct (is_empty t) eqn:Et; [discriminate|]. intros [= <-].
  split; [now apply is_empty_false|]. now apply (before_last_all _ ":" run).
Qed.

Lemma linux_ifname_word line n : linux_ifname line = Some n -> word n.
Proof.
  unfold linux_ifname. pose proof (split_ws_words line) as H.
  destruct (split_ws line) as [|p0 [|i [|fam [|am ps]]]]; try discriminate.
  intros [= <-]. apply Forall_cons in H as [_ H]. now apply Forall_cons in H as [H _].
Qed.

(** X22: an IPv4 or IPv6 address recorded by the Windows parser contains no
    opening parenthesis and has no white space at either end. *)
Theorem windows_addresses_plain (w : World) :
  Forall plain_interface (parse_ip_config_windows w).
Proof.
  unfold parse_ip_config_windows. destruct (is_empty _); [constructor|].
  assert (plain_addresses None) as Hnone by discriminate.
  apply (List.Forall_impl (P := fun r => truthy r = true /\ plain_interface r));
    [intros r [_ H]; exact H|].
  apply (win_loop_flushed plain_interface).
  - now split.
  - intros n. now split.
  - apply plain_interface_win_field.
  - split; [constructor|now split].
Qed.

(** X23: the name of an interface returned by the POSIX parsers is
    non-empty and without white space. *)
Theorem posix_names_are_words (w : World) (r : iface) (n : string) :
  In r (parse_ip_config_posix w) -> name r = Some n -> word n.
Proof.
  unfold parse_ip_config_posix. intros Hin Hn.
  destruct (is_linux w); (destruct (is_empty _); [destruct Hin|]).
  - assert (lists_name n (parse_linux_lines
                            (splitlines (run_command w "ip -o addr show")))) as Hl
      by (exists r; auto).
    unfold parse_linux_lines in Hl.
    rewrite keyed_names in Hl by apply linux_loop_keyed, List.Forall_nil.
    apply linux_loop_keys in Hl as [[]|(line & _ & Hline)].
    now apply (linux_ifname_word line).
  - assert (lists_name n (parse_bsd_lines
                            (splitlines (run_command w "ifconfig -a")))) as Hl
      by (exists r; auto).
    unfold parse_bsd_lines in Hl.
    apply bsd_loop_names in Hl as [(? & [] & _)|[H|(line & _ & _ & Hline)]];
      [discriminate H|].
    now apply (m_name_word line).
Qed.

Lemma posix_names_are_words_witness : word "en0".
Proof.
  apply (posix_names_are_words two_ethers
           {| name := Some "en0"; mac := Some "00:15:5d:0a:0b:0c";
              ipv4 := Some ["192.168.1.20"]; ipv6 := None |});
    [|reflexivity].
  vm_compute. left. reflexivity.
Defined.

Lemma win_loop_headers Q lines st :
  Q no_keys ->
  (forall line, Q (set_name (rstrip_by (Ascii.eqb ":") (strip line)) no_keys)) ->
  (forall line a, Q a -> Q (win_field line a)) ->
  flushed_inv Q st ->
  Forall (fun r => truthy r = true /\ Q r) (finish (fold_left win_step lines st)).
Proof.
  intros H0 Hn Hf. revert st.
  induction lines as [|l ls IH]; intros st H; cbn [fold_left].
  - now apply flushed_inv_finish.
  - apply IH. unfold win_step.
    destruct (is_empty (strip l)); [now apply flushed_inv_flush|].
    destruct (is_header l).
    + destruct (flushed_inv_flush Q st H0 H) as [Hi _]. split; [exact Hi|apply Hn].
    + destruct H as [Hi Ha]. split; [exact Hi|]. now apply Hf.
Qed.

(** X24: the name of an interface returned by the Windows parser does not
    end with a colon. *)
Theorem windows_names_without_colon (w : World) :
  Forall no_final_colon (parse_ip_config_windows w).
Proof.
  unfold parse_ip_config_windows. destruct (is_empty _); [constructor|].
  apply (List.Forall_impl (P := fun r => truthy r = true /\ no_final_colon r));
    [intros r [_ H]; exact H|].
  apply (win_loop_headers no_final_colon).
  - discriminate.
  - intros line x [= <-]. apply (rstrip_by_not_final ":").
  - intros line a H x. rewrite win_field_name. apply H.
  - split; [constructor|discriminate].
Qed.

(** X25: a blank line ends an adapter section even right after its header:
    the header alone gives an interface with only a name, and a physical
    address line after the blank line gives a second interface with a MAC
    and no name. *)
Theorem windows_blank_after_header (w : World) (h blank m v : string) :
  is_header h = true -> is_empty (strip blank) = true -> mac_line m v ->
  splitlines (run_command w "ipconfig /all") = [h; blank; m] ->
  parse_ip_config_windows w =
    [ {| name := Some (rstrip_by (Ascii.eqb ":") (strip h));
         mac := None; ipv4 := None; ipv6 := None |};
      {| name := None; mac := Some (strip v); ipv4 := None; ipv6 := None |} ].
Proof.
  intros Hh Hb Hm Hl. unfold parse_ip_config_windows.
  rewrite (splitlines_some _ _ _ Hl), Hl. unfold parse_windows_lines.
  cbn [fold_left].
  rewrite (win_step_header _ _ Hh), (win_step_blank _ _ Hb). cbn.
  rewrite (win_step_mac _ _ _ Hm). reflexivity.
Qed.

Lemma windows_blank_after_header_witness :
  parse_ip_config_windows real_ipconfig =
    [ {| name := Some "Ethernet adapter Ethernet";
         mac := None; ipv4 := None; ipv6 := None |};
      {| name := None; mac := Some "00-15-5D-01-02-03"; ipv4 := None; ipv6 := None |} ].
Proof.
  apply (windows_blank_after_header real_ipconfig
           "Ethernet adapter Ethernet:" EmptyString
           "   Physical Address. . . . . . . . . : 00-15-5D-01-02-03"
           " 00-15-5D-01-02-03");
    try (vm_compute; reflexivity).
  exists "   Physical Address. . . . . . . . . ". vm_compute. auto.
Defined.

End FormFacts.
